(** * kiro-simple-tracker: the issue materializers and the bulk submitter

    A shallow embedding of the three scripts of the repository

    - [create_github_issues.py]  (phase 1 and 2 issues -> JSON files),
    - [generate_all_issues.py]   (phase 3 and 4 issues -> JSON files),
    - [bulk_create_issues.py]    (JSON files -> POST requests to the tracker),

    together with the properties their specification states about them.

    Conventions of the embedding.
    - A Python [str] is a Rocq [string] holding its UTF-8 bytes.  Comparing
      two such strings byte by byte orders them as Python orders the code
      points, and [+:+] is concatenation.
    - A Python [int] is a [Z].
    - A value obtained from [json.load] / [response.json()] is a [json].
    - Exceptions deriving from [Exception] are values of type [exn]; a
      computation either returns, leaves through [sys.exit], or raises.
    - The outside world (file system, environment, operator, tracker) is
      explicit: the materializers transform a [store]; the submitter runs
      against a [World] of oracles and appends what it does to a trace. *)

From Stdlib Require Import ZArith String Ascii List Lia Permutation Sorted.
From stdpp Require Import base decidable option list gmap strings pretty sorting.

Local Open Scope string_scope.
Local Open Scope list_scope.
Local Open Scope Z_scope.
Set Warnings "-register-all".

(** ** Python values and strings *)

(** The values [json.load] can produce.  [JNull] is [None]; a number with a
    fraction or exponent keeps its source text, since no script computes
    with it.  [JObj] holds the items of the [dict] in insertion order. *)
Inductive json : Type :=
| JNull
| JBool (b : bool)
| JInt (z : Z)
| JFloat (text : string)
| JStr (s : string)
| JArr (items : list json)
| JObj (members : list (string * json)).

(** [type(v).__name__] *)
Definition type_name (v : json) : string :=
  match v with
  | JNull => "NoneType"
  | JBool _ => "bool"
  | JInt _ => "int"
  | JFloat _ => "float"
  | JStr _ => "str"
  | JArr _ => "list"
  | JObj _ => "dict"
  end.

(** Lookup in the items of a [dict]. *)
Fixpoint lookup_key (k : string) (members : list (string * json)) : option json :=
  match members with
  | [] => None
  | (k', v) :: rest => if String.eqb k k' then Some v else lookup_key k rest
  end.

(** The line feed character, and ['\n'] as a string. *)
Definition LF : ascii := ascii_of_nat 10.
Definition nl : string := String LF "".

(** [str(n)] for an [int]. *)
Definition str_int (n : Z) : string := pretty n.

(** [s.zfill(width)] on a string of digits. *)
Definition zfill (width : nat) (s : string) : string :=
  String.concat "" (replicate (width - String.length s) "0") +:+ s.

(** [f"{n:02d}"]: decimal, sign first, then zeros up to a total width of 2. *)
Definition format_02d (n : Z) : string :=
  if n <? 0 then "-" +:+ zfill 1 (str_int (- n)) else zfill 2 (str_int n).

(** [c.lower()] on one byte: only ASCII capitals change.  (No code point
    outside ASCII lowers to an ASCII letter other than U+212A to [k] and
    U+0130 to [i] followed by a combining dot; none lowers to [y].) *)
Definition lower_ascii (c : ascii) : ascii :=
  let n := nat_of_ascii c in
  if ((65 <=? n)%nat && (n <=? 90)%nat)%bool then ascii_of_nat (n + 32) else c.

Fixpoint lower (s : string) : string :=
  match s with
  | EmptyString => EmptyString
  | String c rest => String (lower_ascii c) (lower rest)
  end.

(** ** Exceptions and the outcome of a computation *)

(** An exception: its class and [str(e)]. *)
Record exn : Type := Exn { exn_class : string; exn_str : string }.

Inductive outcome (A : Type) : Type :=
| Ret (a : A)            (* normal completion *)
| Exit (code : Z)        (* sys.exit(code) *)
| Raise (e : exn).       (* an exception on its way up *)
Arguments Ret {A} a.
Arguments Exit {A} code.
Arguments Raise {A} e.

(** The exit status the operating system sees: 0 when the script runs to
    its end, the argument of [sys.exit], 1 after an uncaught exception. *)
Definition exit_status {A} (o : outcome A) : Z :=
  match o with
  | Ret _ => 0
  | Exit code => code
  | Raise _ => 1
  end.

(** Computations over a state [S] that may exit or raise. *)
Definition M (S A : Type) : Type := S -> outcome A * S.

Definition ret {S A} (a : A) : M S A := fun s => (Ret a, s).

Definition bind {S A B} (m : M S A) (k : A -> M S B) : M S B :=
  fun s =>
    match m s with
    | (Ret a, s') => k a s'
    | (Exit code, s') => (Exit code, s')
    | (Raise e, s') => (Raise e, s')
    end.

Definition sys_exit {S A} (code : Z) : M S A := fun s => (Exit code, s).
Definition raise {S A} (e : exn) : M S A := fun s => (Raise e, s).

(** [try: m  except Exception as e: h e].  [SystemExit] is not an
    [Exception], so an exit passes through. *)
Definition try_except {S A} (m : M S A) (h : exn -> M S A) : M S A :=
  fun s =>
    match m s with
    | (Raise e, s') => h e s'
    | r => r
    end.

Notation "'let*' x ':=' m 'in' k" := (bind m (fun x => k))
  (at level 10, x binder, k at level 200).
Notation "m '>>' k" := (bind m (fun _ => k))
  (at level 100, k at level 200, right associativity).

(** [for x in xs: body x] *)
Fixpoint for_each {S A} (xs : list A) (body : A -> M S unit) : M S unit :=
  match xs with
  | [] => ret tt
  | x :: rest => body x >> for_each rest body
  end.

(** ** The materializers: [create_github_issues.py], [generate_all_issues.py] *)

(** One entry of the literal lists [issues] / [additional_issues]. *)
Record issue : Type := Issue {
  phase : string;
  number : Z;
  title : string;
  labels : list string;
  effort : string;
  dependencies : string;
  body : string
}.

(** What the scripts see of the file system: a path is absent, a directory
    or a regular file with its bytes.  Paths are the keys as written (no
    [.], [..] or link resolution); the working directory is the path [""]. *)
Inductive node : Type := Dir | File (content : string).

Record disk : Type := Disk {
  fs : gmap string node;
  console : list string         (* the lines printed so far *)
}.

(** [os.path.dirname]: what precedes the last [/]. *)
Fixpoint dirname (path : string) : string :=
  match path with
  | EmptyString => ""
  | String c rest =>
      if existsb (Ascii.eqb "/") (list_ascii_of_string rest)
      then String c (dirname rest)
      else ""
  end.

Definition print_line (line : string) : M disk unit :=
  fun d => (Ret tt, {| fs := fs d; console := console d ++ [line] |}).

(** [os.makedirs(path, exist_ok=True)] for a path of one component. *)
Definition os_makedirs (path : string) : M disk unit :=
  fun d =>
    match fs d !! path with
    | None => (Ret tt, {| fs := <[path := Dir]> (fs d); console := console d |})
    | Some Dir => (Ret tt, d)
    | Some (File _) =>
        (Raise (Exn "FileExistsError" ("[Errno 17] File exists: '" +:+ path +:+ "'")), d)
    end.

Definition is_dir (store : gmap string node) (path : string) : bool :=
  match path, store !! path with
  | EmptyString, _ => true
  | _, Some Dir => true
  | _, _ => false
  end.

(** [with open(path, 'w') as f: f.write(content)]: the directory of the
    path must exist, the path itself must not be a directory; the file is
    created or replaced. *)
Definition open_w (path content : string) : M disk unit :=
  fun d =>
    if negb (is_dir (fs d) (dirname path)) then
      (Raise (Exn "FileNotFoundError"
                ("[Errno 2] No such file or directory: '" +:+ path +:+ "'")), d)
    else
      match fs d !! path with
      | Some Dir =>
          (Raise (Exn "IsADirectoryError"
                    ("[Errno 21] Is a directory: '" +:+ path +:+ "'")), d)
      | _ => (Ret tt, {| fs := <[path := File content]> (fs d);
                         console := console d |})
      end.

(** [f"github-issues/phase{phase}-issue{number:02d}.json"], the same line
    in both scripts. *)
Definition filename_of (phase : string) (number : Z) : string :=
  "github-issues/phase" +:+ phase +:+ "-issue" +:+ format_02d number +:+ ".json".

(** The [issue_data] dict of both scripts. *)
Definition issue_data_of (title full_body : string) (labels : list string) : json :=
  JObj [("title", JStr title); ("body", JStr full_body);
        ("labels", JArr (map JStr labels))].

(** *** [create_github_issues.py] *)
Module create_github_issues.

(** The literal [issues].  The [body] texts are long Markdown prose that
    no property inspects; [body_of n] stands for the body of issue [n]. *)
Definition issues (body_of : Z -> string) : list issue :=
  [
    {| phase := "1"; number := 1;
       title := "[CRITICAL] Refactor Monolithic Server Architecture";
       labels := ["critical"; "architecture"; "backend"; "refactoring"; "phase-1"];
       effort := "2 weeks";
       dependencies := "None (BLOCKS: #6, #7, #8, #12, #15)";
       body := body_of 1 |};
    {| phase := "1"; number := 2;
       title := "[CRITICAL][SECURITY] Fix WebSocket Authentication Vulnerability";
       labels := ["critical"; "security"; "websocket"; "backend"; "phase-1"];
       effort := "1 week";
       dependencies := "None";
       body := body_of 2 |};
    {| phase := "1"; number := 3;
       title := "[CRITICAL] Remove Production Simulation Code";
       labels := ["critical"; "backend"; "performance"; "phase-1"];
       effort := "2 days";
       dependencies := "None";
       body := body_of 3 |};
    {| phase := "1"; number := 4;
       title := "[CRITICAL] Implement Database Migration Management";
       labels := ["critical"; "database"; "devops"; "phase-1"];
       effort := "1 week";
       dependencies := "None";
       body := body_of 4 |};
    {| phase := "1"; number := 5;
       title := "[CRITICAL][SECURITY] Remove Hardcoded Secrets from Configuration";
       labels := ["critical"; "security"; "devops"; "configuration"; "phase-1"];
       effort := "3 days";
       dependencies := "None (BLOCKS: #16)";
       body := body_of 5 |};
    {| phase := "1"; number := 6;
       title := "[CRITICAL] Implement Comprehensive Error Handling";
       labels := ["critical"; "backend"; "error-handling"; "phase-1"];
       effort := "1 week";
       dependencies := "#1 (Refactor architecture) - BLOCKS: #10";
       body := body_of 6 |};
    {| phase := "1"; number := 7;
       title := "[CRITICAL] Add API Versioning";
       labels := ["critical"; "backend"; "api"; "breaking-change"; "phase-1"];
       effort := "1 week";
       dependencies := "#1 (Refactor architecture) - BLOCKS: #14";
       body := body_of 7 |};
    {| phase := "2"; number := 8;
       title := "[HIGH][SECURITY] Add Request Validation";
       labels := ["high-priority"; "security"; "backend"; "validation"; "phase-2"];
       effort := "1 week";
       dependencies := "#1 (Refactor architecture)";
       body := body_of 8 |};
    {| phase := "2"; number := 9;
       title := "[HIGH][SECURITY] Implement Rate Limiting";
       labels := ["high-priority"; "security"; "backend"; "dos-protection"; "phase-2"];
       effort := "3 days";
       dependencies := "None";
       body := body_of 9 |};
    {| phase := "2"; number := 10;
       title := "[HIGH] Add Logging Infrastructure";
       labels := ["high-priority"; "backend"; "logging"; "observability"; "phase-2"];
       effort := "1 week";
       dependencies := "#6 (Error handling) - BLOCKS: #11";
       body := body_of 10 |};
    {| phase := "2"; number := 11;
       title := "[HIGH] Add Observability & Monitoring";
       labels := ["high-priority"; "backend"; "monitoring"; "observability"; "phase-2"];
       effort := "1 week";
       dependencies := "#10 (Logging) - BLOCKS: #18";
       body := body_of 11 |};
    {| phase := "2"; number := 12;
       title := "[HIGH] Implement Repository Pattern";
       labels := ["high-priority"; "backend"; "architecture"; "database"; "phase-2"];
       effort := "2 weeks";
       dependencies := "#1 (Refactor architecture) - BLOCKS: #13";
       body := body_of 12 |};
    {| phase := "2"; number := 13;
       title := "[HIGH] Add Caching Layer";
       labels := ["high-priority"; "backend"; "performance"; "caching"; "phase-2"];
       effort := "1 week";
       dependencies := "#12 (Repository pattern)";
       body := body_of 13 |};
    {| phase := "2"; number := 14;
       title := "[HIGH] Create API Documentation";
       labels := ["high-priority"; "backend"; "documentation"; "api"; "phase-2"];
       effort := "1 week";
       dependencies := "#7 (API versioning)";
       body := body_of 14 |}
  ].

Section Script.
(** [json.dumps(value, indent=2)], the text [json.dump] writes: a
    function of the value alone. *)
Variable json_dump_indent2 : json -> string.

Definition full_body (issue : issue) : string :=
  body issue +:+ nl +:+
  nl +:+
  "---" +:+ nl +:+
  nl +:+
  "**Metadata:**" +:+ nl +:+
  "- **Effort:** " +:+ effort issue +:+ nl +:+
  "- **Dependencies:** " +:+ dependencies issue +:+ nl.

Definition issue_data (issue : issue) : json :=
  issue_data_of (title issue) (full_body issue) (labels issue).

Definition filename (issue : issue) : string :=
  filename_of (phase issue) (number issue).

(** The module-level code, from [os.makedirs] on, over the list it
    iterates. *)
Definition materialize (issues : list issue) : M disk unit :=
  os_makedirs "github-issues" >>
  for_each issues (fun issue =>
    open_w (filename issue) (json_dump_indent2 (issue_data issue)) >>
    print_line ("✅ Created " +:+ filename issue)) >>
  print_line (nl +:+ "✅ Generated " +:+ str_int (Z.of_nat (length issues))
              +:+ " issue JSON files") >>
  print_line (nl +:+ "To create these issues in GitHub, you can:") >>
  print_line "1. Use the GitHub CLI: gh issue create --title 'TITLE' --body 'BODY' --label 'label1,label2'" >>
  print_line "2. Use the GitHub API with curl" >>
  print_line "3. Import manually via GitHub web interface" >>
  print_line (nl +:+ "Next: Create remaining Phase 3 and Phase 4 issues (Issues #15-25)").

Definition script (body_of : Z -> string) : M disk unit :=
  materialize (issues body_of).
End Script.

End create_github_issues.

(** *** [generate_all_issues.py] *)
Module generate_all_issues.

(** The literal [additional_issues], bodies as above. *)
Definition additional_issues (body_of : Z -> string) : list issue :=
  [
    {| phase := "3"; number := 15;
       title := "[MEDIUM] Standardize Tenant Resolution";
       labels := ["medium-priority"; "backend"; "multi-tenant"; "phase-3"];
       effort := "3 days";
       dependencies := "#1 (Refactor architecture)";
       body := body_of 15 |};
    {| phase := "3"; number := 16;
       title := "[MEDIUM][SECURITY] Fix CORS Configuration";
       labels := ["medium-priority"; "security"; "backend"; "cors"; "phase-3"];
       effort := "2 days";
       dependencies := "#5 (Secret management)";
       body := body_of 16 |};
    {| phase := "3"; number := 17;
       title := "[MEDIUM] Implement Graceful Shutdown";
       labels := ["medium-priority"; "backend"; "reliability"; "phase-3"];
       effort := "3 days";
       dependencies := "None";
       body := body_of 17 |};
    {| phase := "3"; number := 18;
       title := "[MEDIUM] Enhance Health Checks";
       labels := ["medium-priority"; "backend"; "observability"; "phase-3"];
       effort := "3 days";
       dependencies := "#11 (Monitoring)";
       body := body_of 18 |};
    {| phase := "3"; number := 19;
       title := "[MEDIUM] Complete TODO Implementations";
       labels := ["medium-priority"; "frontend"; "backend"; "technical-debt"; "phase-3"];
       effort := "1 week";
       dependencies := "None";
       body := body_of 19 |};
    {| phase := "3"; number := 20;
       title := "[MEDIUM] Tune Database Connection Pool";
       labels := ["medium-priority"; "database"; "performance"; "phase-3"];
       effort := "2 days";
       dependencies := "#10 (Logging)";
       body := body_of 20 |};
    {| phase := "3"; number := 21;
       title := "[MEDIUM] Improve Frontend State Management";
       labels := ["medium-priority"; "frontend"; "architecture"; "phase-3"];
       effort := "1 week";
       dependencies := "None";
       body := body_of 21 |};
    {| phase := "4"; number := 22;
       title := "[LOW] Add Code Splitting & Lazy Loading";
       labels := ["low-priority"; "frontend"; "performance"; "phase-4"];
       effort := "3 days";
       dependencies := "None";
       body := body_of 22 |};
    {| phase := "4"; number := 23;
       title := "[LOW] Enforce Linting & Formatting";
       labels := ["low-priority"; "code-quality"; "developer-experience"; "phase-4"];
       effort := "2 days";
       dependencies := "None";
       body := body_of 23 |};
    {| phase := "4"; number := 24;
       title := "[LOW] Improve Accessibility";
       labels := ["low-priority"; "frontend"; "accessibility"; "a11y"; "phase-4"];
       effort := "2 weeks";
       dependencies := "None";
       body := body_of 24 |};
    {| phase := "4"; number := 25;
       title := "[LOW] Add Internationalization (i18n)";
       labels := ["low-priority"; "frontend"; "i18n"; "globalization"; "phase-4"];
       effort := "1 week";
       dependencies := "None";
       body := body_of 25 |}
  ].

Section Script.
Variable json_dump_indent2 : json -> string.

Definition full_body (issue : issue) : string :=
  body issue +:+ nl +:+
  nl +:+
  "---" +:+ nl +:+
  nl +:+
  "**Metadata:**" +:+ nl +:+
  "- **Effort:** " +:+ effort issue +:+ nl +:+
  "- **Dependencies:** " +:+ dependencies issue +:+ nl +:+
  nl +:+
  "## Reference" +:+ nl +:+
  nl +:+
  "- `ARCHITECTURE_REVIEW.md` - Issue #" +:+ str_int (number issue) +:+ nl +:+
  "- `REFACTORING_ROADMAP.md` - Phase " +:+ phase issue +:+ nl.

Definition issue_data (issue : issue) : json :=
  issue_data_of (title issue) (full_body issue) (labels issue).

Definition filename (issue : issue) : string :=
  filename_of (phase issue) (number issue).

Definition materialize (additional_issues : list issue) : M disk unit :=
  print_line "Generating Phase 3 & Phase 4 issues..." >>
  print_line (String.concat "" (replicate 50 "=")) >>
  os_makedirs "github-issues" >>
  for_each additional_issues (fun issue =>
    open_w (filename issue) (json_dump_indent2 (issue_data issue)) >>
    print_line ("✅ Created " +:+ filename issue)) >>
  print_line "" >>
  print_line ("✅ Generated " +:+ str_int (Z.of_nat (length additional_issues))
              +:+ " additional issue files") >>
  print_line "" >>
  print_line "All 25 issues are now ready in github-issues/" >>
  print_line "" >>
  print_line "To upload to GitHub:" >>
  print_line "1. Set your GitHub token: export GITHUB_TOKEN='your_token'" >>
  print_line "2. Run: ./upload_issues_to_github.sh".

Definition script (body_of : Z -> string) : M disk unit :=
  materialize (additional_issues body_of).
End Script.

End generate_all_issues.

(** The whole batch, in the order the two scripts write it. *)
Definition batch (body_of : Z -> string) : list issue :=
  create_github_issues.issues body_of ++ generate_all_issues.additional_issues body_of.

(** ** The submitter: [bulk_create_issues.py]

    The script imports [requests] under a guard that exits with status 1
    when the library is missing; the embedding starts where [main] does,
    with the library in place. *)
Module bulk_create_issues.

(** *** Configuration *)
Definition REPO_OWNER : string := "krisapplegate".
Definition REPO_NAME : string := "kiro-simple-tracker".
Definition GITHUB_API_URL : string :=
  "https://api.github.com/repos/" +:+ REPO_OWNER +:+ "/" +:+ REPO_NAME +:+ "/issues".
Definition ISSUES_DIR : string := "github-issues".

(** *** What the script does to the world *)

(** A printed line is the f-string before formatting: literal text and
    interpolated values, [Val v] standing for [str(v)]. *)
Inductive frag : Type := Txt (s : string) | Val (v : json).

(** The answer of [requests.post]: the status line and what
    [response.json()] gives (it raises when the body is not JSON). *)
Record response : Type := Response {
  status_code : Z;
  json_result : exn + json
}.

Inductive event : Type :=
| EPrint (line : list frag) (end_ : string)
| EExists (path : string) (result : bool)
| EGetenv (name : string) (result : option string)
| EGlob (dir pattern : string) (result : list string)
| EOpen (path mode : string) (result : exn + json)  (* open + json.load *)
| EInput (prompt : string) (result : option string)
| EPost (url : string) (headers : list (string * string)) (data : json)
        (result : exn + response)
| ESleep (seconds : Z).

Abbreviation trace := (list event).

(** The world the script runs in.  Reading a file and posting a request
    may answer differently each time: they see the run so far. *)
Record World : Type := {
  path_exists : string -> bool;                   (* os.path.exists *)
  environ : string -> option string;              (* os.environ.get *)
  scandir : string -> list string;                (* names in a directory *)
  load : trace -> string -> exn + json;           (* open(path); json.load *)
  stdin_line : option string;                     (* input(); None at EOF *)
  tracker : trace -> string -> list (string * string) -> json
            -> exn + response                     (* requests.post *)
}.

(** [fnmatch(name, "phase*.json")] *)
Definition ends_with (suffix s : string) : bool :=
  String.eqb suffix
    (String.substring (String.length s - String.length suffix)
                      (String.length suffix) s).

Definition glob_match (name : string) : bool :=
  String.prefix "phase" name &&
  ends_with ".json" (String.substring 5 (String.length name - 5) name).

(** [sorted] on paths of one directory: by name.  Python's sort is a
    stable merge sort on [<]; on strings every sort agrees with it. *)
Definition sorted (names : list string) : list string :=
  merge_sort String.le names.

Section Run.
Variable w : World.

Definition emit (e : event) : M trace unit :=
  fun tr => (Ret tt, tr ++ [e]).

Definition print (line : list frag) : M trace unit := emit (EPrint line nl).
Definition print_end (line : list frag) (end_ : string) : M trace unit :=
  emit (EPrint line end_).

Definition os_path_exists (path : string) : M trace bool :=
  fun tr => let r := path_exists w path in (Ret r, tr ++ [EExists path r]).

Definition os_environ_get (name : string) : M trace (option string) :=
  fun tr => let r := environ w name in (Ret r, tr ++ [EGetenv name r]).

Definition glob (dir pattern : string) : M trace (list string) :=
  fun tr =>
    let r := filter (fun name => glob_match name = true) (scandir w dir) in
    (Ret r, tr ++ [EGlob dir pattern r]).

(** [with open(path) as f: json.load(f)] *)
Definition open_json_load (path : string) : M trace json :=
  fun tr =>
    let r := load w tr path in
    match r with
    | inl e => (Raise e, tr ++ [EOpen path "r" r])
    | inr v => (Ret v, tr ++ [EOpen path "r" r])
    end.

Definition input (prompt : string) : M trace string :=
  fun tr =>
    match stdin_line w with
    | Some line => (Ret line, tr ++ [EInput prompt (Some line)])
    | None => (Raise (Exn "EOFError" "EOF when reading a line"),
               tr ++ [EInput prompt None])
    end.

Definition requests_post (url : string) (headers : list (string * string))
           (data : json) : M trace response :=
  fun tr =>
    let r := tracker w tr url headers data in
    match r with
    | inl e => (Raise e, tr ++ [EPost url headers data r])
    | inr resp => (Ret resp, tr ++ [EPost url headers data r])
    end.

Definition time_sleep (seconds : Z) : M trace unit := emit (ESleep seconds).

(** [response.json()] *)
Definition response_json (r : response) : M trace json :=
  match json_result r with
  | inl e => raise e
  | inr v => ret v
  end.

(** [v.get(key, default)] *)
Definition py_get (v : json) (key : string) (default : json) : M trace json :=
  match v with
  | JObj members => ret (from_option id default (lookup_key key members))
  | _ => raise (Exn "AttributeError"
                  ("'" +:+ type_name v +:+ "' object has no attribute 'get'"))
  end.

(** [v[key]] for a string key *)
Definition py_getitem (v : json) (key : string) : M trace json :=
  match v with
  | JObj members =>
      match lookup_key key members with
      | Some x => ret x
      | None => raise (Exn "KeyError" ("'" +:+ key +:+ "'"))
      end
  | JArr _ => raise (Exn "TypeError" "list indices must be integers or slices, not str")
  | JStr _ => raise (Exn "TypeError" "string indices must be integers, not 'str'")
  | _ => raise (Exn "TypeError" ("'" +:+ type_name v +:+ "' object is not subscriptable"))
  end.

(** [not token] *)
Definition falsy (token : option string) : bool :=
  match token with
  | None => true
  | Some t => String.eqb t ""
  end.

Definition get_github_token : M trace string :=
  let* token := os_environ_get "GITHUB_TOKEN" in
  if falsy token then
    print [Txt "❌ Error: GITHUB_TOKEN environment variable not set"] >>
    print [] >>
    print [Txt "To fix this:"] >>
    print [Txt "  1. Go to https://github.com/settings/tokens"] >>
    print [Txt "  2. Generate new token (classic)"] >>
    print [Txt "  3. Select 'repo' scope"] >>
    print [Txt "  4. Copy the token"] >>
    print [Txt "  5. Run: export GITHUB_TOKEN='your_token_here'"] >>
    print [] >>
    sys_exit 1
  else ret (default "" token).

(** The [headers] dict of [create_issue]. *)
Definition request_headers (token : string) : list (string * string) :=
  [("Authorization", "token " +:+ token);
   ("Accept", "application/vnd.github.v3+json");
   ("Content-Type", "application/json")].

(** The triple [create_issue] returns: [success], then
    [issue_number, issue_url] or [None, error]. *)
Definition create_issue (token : string) (issue_data : json) (filename : string)
  : M trace (bool * json * json) :=
  let headers := request_headers token in
  try_except
    (let* response := requests_post GITHUB_API_URL headers issue_data in
     if status_code response =? 201 then
       let* j := response_json response in
       let* issue_url := py_get j "html_url" JNull in
       let* j := response_json response in
       let* issue_number := py_get j "number" JNull in
       ret (true, issue_number, issue_url)
     else
       let* j := response_json response in
       let* error_msg := py_get j "message" (JStr "Unknown error") in
       ret (false, JNull, error_msg))
    (fun e => ret (false, JNull, JStr (exn_str e))).

Definition issue_path (name : string) : string := ISSUES_DIR +:+ "/" +:+ name.

(** The [for issue_file in issue_files] loop of [main] that creates
    the issues, with the two result lists it appends to. *)
Fixpoint submit (token : string) (issue_files : list string)
         (created : list (string * json * json)) (failed : list (string * json))
  : M trace (list (string * json * json) * list (string * json)) :=
  match issue_files with
  | [] => ret (created, failed)
  | issue_file :: rest =>
      let* issue_data := open_json_load (issue_path issue_file) in
      print_end [Txt "Creating: "; Txt issue_file; Txt "..."] " " >>
      let* r := create_issue token issue_data issue_file in
      let '(success, issue_number, result) := r in
      let* lists :=
        (if success : bool then
           print [Txt "✓ #"; Val issue_number] >>
           print [Txt "  URL: "; Val result] >>
           ret (created ++ [(issue_file, issue_number, result)], failed)
         else
           print [Txt "✗ Failed"] >>
           print [Txt "  Error: "; Val result] >>
           ret (created, failed ++ [(issue_file, result)])) in
      time_sleep 1 >>
      submit token rest (fst lists) (snd lists)
  end.

Definition rule (c : string) (n : nat) : string := String.concat "" (replicate n c).
Definition len {A} (l : list A) : string := str_int (Z.of_nat (length l)).
Definition nonempty {A} (l : list A) : bool := match l with [] => false | _ => true end.

(** Lines 86-89 of [main]: show the title of every record. *)
Definition preview (issue_files : list string) : M trace unit :=
  for_each issue_files (fun issue_file =>
    let* data := open_json_load (issue_path issue_file) in
    let* t := py_getitem data "title" in
    print [Txt "  - "; Txt issue_file; Txt ": "; Val t]).

(** Lines 125-151 of [main]: the summary and the exit status. *)
Definition report (issue_files : list string)
           (created : list (string * json * json)) (failed : list (string * json))
  : M trace unit :=
  print [] >>
  print [Txt (rule "=" 60)] >>
  print [Txt "  Summary"] >>
  print [Txt (rule "=" 60)] >>
  print [Txt "Total issues: "; Txt (len issue_files)] >>
  print [Txt "Created:      "; Txt (len created); Txt " ✓"] >>
  print [Txt "Failed:       "; Txt (len failed); Txt " ✗"] >>
  print [] >>
  (if nonempty created then
     print [Txt "Successfully created issues:"] >>
     for_each created (fun '(filename, number, url) =>
       print [Txt "  #"; Val number; Txt ": "; Txt filename]) >>
     print [] >>
     print [Txt "View all issues: https://github.com/"; Txt REPO_OWNER;
            Txt "/"; Txt REPO_NAME; Txt "/issues"]
   else ret tt) >>
  (if nonempty failed then
     print [] >>
     print [Txt "Failed issues:"] >>
     for_each failed (fun '(filename, error) =>
       print [Txt "  "; Txt filename; Txt ": "; Val error])
   else ret tt) >>
  (if nonempty failed then sys_exit 1
   else
     print [] >>
     print [Txt "✓ All issues created successfully!"]).

Definition main : M trace unit :=
  print [Txt (rule "=" 60)] >>
  print [Txt "  GitHub Bulk Issue Creator"] >>
  print [Txt "  Architecture Review - Location Tracker"] >>
  print [Txt (rule "=" 60)] >>
  print [] >>
  let* found := os_path_exists ISSUES_DIR in
  (if negb found then
     print [Txt "❌ Error: "; Txt ISSUES_DIR; Txt " directory not found"] >>
     sys_exit 1
   else ret tt) >>
  let* token := get_github_token in
  print [Txt "✓ GitHub token found"] >>
  print [] >>
  let* matches := glob ISSUES_DIR "phase*.json" in
  let issue_files := sorted matches in
  print [Txt "Found "; Txt (len issue_files); Txt " issue files"] >>
  print [] >>
  print [Txt "This will create the following issues:"] >>
  preview issue_files >>
  print [] >>
  let* response := input "Proceed with creating these issues? [y/N]: " in
  (if negb (String.eqb (lower response) "y") then
     print [Txt "Cancelled."] >>
     sys_exit 0
   else ret tt) >>
  print [] >>
  print [Txt "Creating issues..."] >>
  print [Txt (rule "-" 60)] >>
  let* lists := submit token issue_files [] [] in
  report issue_files (fst lists) (snd lists).

End Run.

(** A run of the script: how it ends and what it did. *)
Definition run (w : World) : outcome unit * trace := main w [].

End bulk_create_issues.

Import bulk_create_issues.

(** * The vocabulary of the properties *)

(** ** File names and their order *)

(** [os.path.basename]: what follows the last [/]. *)
Fixpoint basename (path : string) : string :=
  match path with
  | EmptyString => ""
  | String c rest =>
      if existsb (Ascii.eqb "/") (list_ascii_of_string rest) then basename rest
      else if Ascii.eqb c "/" then rest else path
  end.

(** The name under which the record of an issue appears in the directory. *)
Definition record_name (i : issue) : string :=
  basename (filename_of (phase i) (number i)).

Definition is_digit (c : ascii) : bool :=
  ((48 <=? nat_of_ascii c) && (nat_of_ascii c <=? 57))%nat.

Definition single_digit (s : string) : bool :=
  match s with
  | String c EmptyString => is_digit c
  | _ => false
  end.

(** The number a phase written as one digit stands for. *)
Definition phase_value (s : string) : Z :=
  match s with
  | String c _ => Z.of_nat (nat_of_ascii c) - 48
  | EmptyString => 0
  end.

Definition well_keyed (i : issue) : Prop :=
  single_digit (phase i) = true ∧ 0 <= number i < 100.

(** Ascending (phase, sequence). *)
Definition key_lt (a b : issue) : Prop :=
  phase_value (phase a) < phase_value (phase b) ∨
  (phase_value (phase a) = phase_value (phase b) ∧ number a < number b).

#[global] Instance key_lt_dec a b : Decision (key_lt a b).
Proof. unfold key_lt. apply _. Defined.

(** The discovery step of the submitter on a directory listing, and in a
    world: [sorted(Path(ISSUES_DIR).glob("phase*.json"))]. *)
Definition discover (listing : list string) : list string :=
  sorted (filter (fun name => glob_match name = true) listing).

Definition discovered (w : World) : list string :=
  discover (scandir w ISSUES_DIR).

(** ** The store after the materializers *)

(** The loop of both scripts: one file, one line on the console. *)
Definition write_all (fn ct pm : issue -> string) (l : list issue) : M disk unit :=
  for_each l (fun i => open_w (fn i) (ct i) >> print_line (pm i)).

Definition put (fn ct : issue -> string) (m : gmap string node) (i : issue)
  : gmap string node :=
  <[fn i := File (ct i)]> m.

(** [open_w] succeeds on the path. *)
Definition writable (m : gmap string node) (path : string) : bool :=
  is_dir m (dirname path) &&
  match m !! path with Some Dir => false | _ => true end.

Definition all_writable (fn : issue -> string) (m : gmap string node)
           (l : list issue) : Prop :=
  Forall (fun i => writable m (fn i) = true) l.

(** The bytes the loop leaves at a path: those of the last issue written
    there. *)
Fixpoint last_write (fn ct : issue -> string) (l : list issue) (path : string)
  : option string :=
  match l with
  | [] => None
  | i :: rest =>
      match last_write fn ct rest path with
      | Some c => Some c
      | None => if decide (fn i = path) then Some (ct i) else None
      end
  end.

(** The store once [os.makedirs] has succeeded. *)
Definition made (m : gmap string node) : gmap string node :=
  match m !! "github-issues" with
  | None => <["github-issues" := Dir]> m
  | Some _ => m
  end.

Definition core (fn ct pm : issue -> string) (l : list issue) : M disk unit :=
  os_makedirs "github-issues" >> write_all fn ct pm l.

(** A computation that only prints. *)
Definition console_only (p : M disk unit) : Prop :=
  ∃ lines, ∀ d, p d = (Ret tt, {| fs := fs d; console := console d ++ lines |}).

Definition shape (fn ct pm : issue -> string) (after : M disk unit) (l : list issue)
  : M disk unit :=
  core fn ct pm l >> after.

Definition created_message (i : issue) : string :=
  "✅ Created " +:+ filename_of (phase i) (number i).

Definition empty_disk : disk := {| fs := ∅; console := [] |}.

(** ** Traces of the submitter *)

Definition prompt : string := "Proceed with creating these issues? [y/N]: ".

(** The create-requests of a trace, each with its answer. *)
Definition posted (tr : trace) : list (json * (exn + response)) :=
  flat_map (fun e => match e with EPost _ _ d r => [(d, r)] | _ => [] end) tr.

(** The files a trace opens, each with the mode. *)
Definition opened (tr : trace) : list (string * string) :=
  flat_map (fun e => match e with EOpen p m _ => [(p, m)] | _ => [] end) tr.

(** What the operator answered. *)
Definition answers (tr : trace) : list (option string) :=
  flat_map (fun e => match e with EInput _ a => [a] | _ => [] end) tr.

(** The rhythm of a trace: its requests and its pauses. *)
Inductive beat : Type := Request | Pause (seconds : Z).

Definition pace (tr : trace) : list beat :=
  flat_map (fun e => match e with
                     | EPost _ _ _ _ => [Request]
                     | ESleep s => [Pause s]
                     | _ => []
                     end) tr.

Definition times_read (path : string) (tr : trace) : nat :=
  length (filter (fun pm => fst pm = path) (opened tr)).

Definition read_only (tr : trace) : Prop :=
  Forall (fun pm => snd pm = "r") (opened tr).

(** Events that touch neither a record, the operator nor the tracker. *)
Definition quiet (e : event) : Prop :=
  match e with
  | EPrint _ _ | EExists _ _ | EGetenv _ _ | EGlob _ _ _ => True
  | _ => False
  end.

(** The tracker accepts a request: it answers 201 with a JSON object, as
    its interface promises for a created issue.  Any other status, an
    exception of the transport and a body that is no JSON object are the
    ways it rejects or fails. *)
Definition accepted (answer : exn + response) : bool :=
  match answer with
  | inr {| status_code := s; json_result := inr (JObj _) |} => s =? 201
  | _ => false
  end.

Definition successes (answers : list (json * (exn + response))) : nat :=
  length (filter (fun a => accepted (snd a) = true) answers).

(** What [create_issue] makes of an answer of [requests.post]. *)
Definition classify (answer : exn + response) : bool * json * json :=
  match answer with
  | inl e => (false, JNull, JStr (exn_str e))
  | inr resp =>
      match json_result resp with
      | inl e => (false, JNull, JStr (exn_str e))
      | inr (JObj members) =>
          if status_code resp =? 201
          then (true, from_option id JNull (lookup_key "number" members),
                      from_option id JNull (lookup_key "html_url" members))
          else (false, JNull,
                from_option id (JStr "Unknown error") (lookup_key "message" members))
      | inr v => (false, JNull,
                  JStr ("'" +:+ type_name v +:+ "' object has no attribute 'get'"))
      end
  end.

(** The two lines the loop prints for a result, and the list it grows. *)
Definition outcome_lines (r : bool * json * json) : trace :=
  let '(success, issue_number, result) := r in
  if success
  then [EPrint [Txt "✓ #"; Val issue_number] nl; EPrint [Txt "  URL: "; Val result] nl]
  else [EPrint [Txt "✗ Failed"] nl; EPrint [Txt "  Error: "; Val result] nl].

Definition record (name : string) (r : bool * json * json)
           (lists : list (string * json * json) * list (string * json))
  : list (string * json * json) * list (string * json) :=
  let '(success, issue_number, result) := r in
  if success
  then (fst lists ++ [(name, issue_number, result)], snd lists)
  else (fst lists, snd lists ++ [(name, result)]).

(** The events of one turn of the loop. *)
Definition turn (name : string) (v : json) (token : string) (answer : exn + response)
  : trace :=
  [EOpen (issue_path name) "r" (inr v);
   EPrint [Txt "Creating: "; Txt name; Txt "..."] " "] ++
  EPost GITHUB_API_URL (request_headers token) v answer
    :: outcome_lines (classify answer) ++ [ESleep 1].

(** [data['title']] as a result. *)
Definition title_of (v : json) : exn + json :=
  match py_getitem v "title" ([] : trace) with
  | (Ret t, _) => inr t
  | (Raise e, _) => inl e
  | (Exit _, _) => inr JNull
  end.

Definition has_title (v : json) : bool :=
  match v with
  | JObj members => bool_decide (is_Some (lookup_key "title" members))
  | _ => false
  end.

(** A record the preview cannot show: unreadable, or without a title. *)
Definition unshowable (r : exn + json) : Prop :=
  match r with
  | inl _ => True
  | inr v => has_title v = false
  end.

(** The lines of the summary for one created and one failed issue. *)
Definition created_line (x : string * json * json) : event :=
  let '(filename, number, url) := x in
  EPrint [Txt "  #"; Val number; Txt ": "; Txt filename] nl.

Definition failed_line (x : string * json) : event :=
  let '(filename, error) := x in
  EPrint [Txt "  "; Txt filename; Txt ": "; Val error] nl.

Definition reads (files : list string) : list (string * string) :=
  map (fun name => (issue_path name, "r")) files.

(** The records hold still during the run: every read of a discovered
    file gives the same value. *)
Definition stable (w : World) (files : list string) (content : string -> json) : Prop :=
  ∀ h name, In name files -> load w h (issue_path name) = inr (content name).

(** The run gets as far as the prompt: the directory and the token are
    there, and every discovered record is readable and titled. *)
Definition ready (w : World) (content : string -> json) : Prop :=
  path_exists w ISSUES_DIR = true ∧
  falsy (environ w "GITHUB_TOKEN") = false ∧
  stable w (discovered w) content ∧
  (∀ name, In name (discovered w) -> has_title (content name) = true).

Definition confirmed (w : World) : Prop :=
  ∃ a, stdin_line w = Some a ∧ lower a = "y".

(** A stretch of trace without request, answer or pause; one where every
    request is followed by its pause. *)
Definition silent (tr : trace) : Prop :=
  posted tr = [] ∧ answers tr = [] ∧ pace tr = [].

Definition paced (tr : trace) : Prop :=
  answers tr = [] ∧
  pace tr = flat_map (fun _ => [Request; Pause 1]) (posted tr).

(** The run has shown every record and stands at the prompt. *)
Definition at_prompt (w : World) (pre sfx1 : trace) : Prop :=
  Forall quiet pre ∧
  path_exists w ISSUES_DIR = true ∧
  falsy (environ w "GITHUB_TOKEN") = false ∧
  preview w (discovered w) pre = (Ret tt, pre ++ sfx1) ∧
  silent sfx1 ∧ read_only sfx1.

(** The ways a run of [main] can go, each with its outcome and its trace
    cut into: what precedes the preview ([pre]), the preview ([sfx1]), the
    prompt, the loop ([sfx2]) and the report ([sfx3]). *)
Inductive run_case (w : World) : outcome unit -> trace -> Prop :=
| case_setup_failed pre :
    Forall quiet pre ->
    path_exists w ISSUES_DIR = false ∨ falsy (environ w "GITHUB_TOKEN") = true ->
    run_case w (Exit 1) pre
| case_preview_raised pre sfx1 e :
    Forall quiet pre ->
    path_exists w ISSUES_DIR = true ->
    falsy (environ w "GITHUB_TOKEN") = false ->
    preview w (discovered w) pre = (Raise e, pre ++ sfx1) ->
    silent sfx1 -> read_only sfx1 ->
    run_case w (Raise e) (pre ++ sfx1)
| case_no_answer pre sfx1 :
    at_prompt w pre sfx1 ->
    stdin_line w = None ->
    run_case w (Raise (Exn "EOFError" "EOF when reading a line"))
             ((pre ++ sfx1) ++ [EPrint [] nl; EInput prompt None])
| case_declined pre sfx1 a q :
    at_prompt w pre sfx1 ->
    stdin_line w = Some a -> lower a ≠ "y" ->
    Forall quiet q ->
    run_case w (Exit 0) ((pre ++ sfx1) ++ EPrint [] nl :: EInput prompt (Some a) :: q)
| case_loop_raised pre sfx1 a q sfx2 e :
    at_prompt w pre sfx1 ->
    stdin_line w = Some a -> lower a = "y" ->
    Forall quiet q ->
    submit w (default "" (environ w "GITHUB_TOKEN")) (discovered w) [] []
           ((pre ++ sfx1) ++ EPrint [] nl :: EInput prompt (Some a) :: q)
      = (Raise e, ((pre ++ sfx1) ++ EPrint [] nl :: EInput prompt (Some a) :: q) ++ sfx2) ->
    paced sfx2 -> read_only sfx2 ->
    run_case w (Raise e)
             (((pre ++ sfx1) ++ EPrint [] nl :: EInput prompt (Some a) :: q) ++ sfx2)
| case_reported pre sfx1 a q sfx2 c f sfx3 :
    at_prompt w pre sfx1 ->
    stdin_line w = Some a -> lower a = "y" ->
    Forall quiet q ->
    submit w (default "" (environ w "GITHUB_TOKEN")) (discovered w) [] []
           ((pre ++ sfx1) ++ EPrint [] nl :: EInput prompt (Some a) :: q)
      = (Ret (c, f),
         ((pre ++ sfx1) ++ EPrint [] nl :: EInput prompt (Some a) :: q) ++ sfx2) ->
    paced sfx2 -> read_only sfx2 ->
    Forall quiet sfx3 ->
    run_case w (if nonempty f then Exit 1 else Ret tt)
             ((((pre ++ sfx1) ++ EPrint [] nl :: EInput prompt (Some a) :: q) ++ sfx2)
                ++ sfx3).

(** ** Worlds to run the submitter in *)

(** A record holding just the title [t]. *)
Definition titled (t : string) : json := JObj [("title", JStr t)].

(** A world with the directory and the token in place, the given names in
    the directory, every record titled after its path, the given answer at
    the prompt and the given tracker. *)
Definition world_with (names : list string) (answer : option string)
           (reply : trace -> json -> exn + response) : World :=
  {| path_exists := fun _ => true;
     environ := fun name => if String.eqb name "GITHUB_TOKEN" then Some "t0ken" else None;
     scandir := fun _ => names;
     load := fun _ path => inr (titled path);
     stdin_line := answer;
     tracker := fun h _ _ data => reply h data |}.

Definition created_with (number : Z) : exn + response :=
  inr {| status_code := 201;
         json_result := inr (JObj [("number", JInt number);
                                   ("html_url", JStr "https://tracker.example/issue")]) |}.

Definition validation_failed : exn + response :=
  inr {| status_code := 422;
         json_result := inr (JObj [("message", JStr "validation failed")]) |}.

(** The tracker of the scenarios: it creates the first [k] issues, numbered
    from 100, and rejects the rest. *)
Definition accept_first (k : nat) (h : trace) (data : json) : exn + response :=
  let index := length (posted h) in
  if (index <? k)%nat then created_with (100 + Z.of_nat index) else validation_failed.

Definition three_names : list string :=
  ["phase2-issue01.json"; "phase1-issue02.json"; "phase1-issue01.json"].

(** Three records, the operator agrees, the tracker creates two. *)
Definition two_of_three : World := world_with three_names (Some "y") (accept_first 2).

(** The same, the operator answering no. *)
Definition declined_world : World := world_with three_names (Some "n") (accept_first 2).

(** No token in the environment. *)
Definition tokenless_world : World :=
  {| path_exists := fun _ => true;
     environ := fun _ => None;
     scandir := fun _ => three_names;
     load := fun _ path => inr (titled path);
     stdin_line := Some "y";
     tracker := fun h _ _ data => accept_first 3 h data |}.

(** The first record is not JSON. *)
Definition broken_world : World :=
  {| path_exists := fun _ => true;
     environ := fun name => if String.eqb name "GITHUB_TOKEN" then Some "t0ken" else None;
     scandir := fun _ => three_names;
     load := fun _ path =>
       if String.eqb path "github-issues/phase1-issue01.json"
       then inl (Exn "JSONDecodeError" "Expecting value: line 1 column 1 (char 0)")
       else inr (titled path);
     stdin_line := Some "y";
     tracker := fun h _ _ data => accept_first 3 h data |}.

Definition content_of (name : string) : json := titled (issue_path name).

(** What a successful run [materialize l d = (Ret tt, d1)] leaves, and what
    a second run on its result does: the directory is there, every issue
    has its file holding the bytes written last under that name, and the
    second run succeeds, leaves the store as it is and prints again what
    the first printed. *)
Definition settled (materialize : list issue -> M disk unit)
           (fn ct : issue -> string) (l : list issue) (d d1 : disk) : Prop :=
  fs d1 !! "github-issues" = Some Dir ∧
  (∀ i, i ∈ l -> ∃ j, j ∈ l ∧ fn j = fn i ∧ fs d1 !! fn i = Some (File (ct j))) ∧
  ∃ d2 out,
    materialize l d1 = (Ret tt, d2) ∧
    fs d2 = fs d1 ∧
    console d1 = console d ++ out ∧
    console d2 = console d1 ++ out.

(** ** Inputs for the examples *)

(** The second record disappears once the first request has been made. *)
Definition vanishing_world : World :=
  {| path_exists := fun _ => true;
     environ := fun name => if String.eqb name "GITHUB_TOKEN" then Some "t0ken" else None;
     scandir := fun _ => three_names;
     load := fun h path =>
       if (negb (length (posted h) =? 0)%nat &&
           String.eqb path "github-issues/phase1-issue02.json")%bool
       then inl (Exn "FileNotFoundError"
                   "[Errno 2] No such file or directory: 'github-issues/phase1-issue02.json'")
       else inr (titled path);
     stdin_line := Some "Y";
     tracker := fun h _ _ data => accept_first 3 h data |}.

(** A tracker that fails in every way but one. *)
Definition failing_tracker (h : trace) (data : json) : exn + response :=
  match length (posted h) with
  | O => inl (Exn "ConnectionError" "Connection refused")
  | S O => inr {| status_code := 500;
                  json_result := inl (Exn "JSONDecodeError" "Expecting value") |}
  | _ => created_with 7
  end.

Definition failing_world : World := world_with three_names (Some "y") failing_tracker.

(** A tracker that answers in five ways, by the number of requests made. *)
Definition varied_tracker (h : trace) (data : json) : exn + response :=
  match length (posted h) with
  | 0%nat => created_with 100
  | 1%nat => validation_failed
  | 2%nat => inl (Exn "ConnectionError" "Connection refused")
  | 3%nat => inr {| status_code := 502;
                    json_result := inl (Exn "JSONDecodeError" "Expecting value") |}
  | _ => inr {| status_code := 200; json_result := inr (JArr []) |}
  end.

Definition varied_world : World := world_with three_names (Some "y") varied_tracker.

Definition rejecting_world : World := world_with three_names (Some "y") (accept_first 0).

(** A trace in which [k] requests have been made. *)
Definition after_requests (k : nat) : trace :=
  replicate k (EPost GITHUB_API_URL [] JNull validation_failed).

(** Two issues of the first list, bodies and encoder kept short. *)
Definition two_issues : list issue :=
  firstn 2 (create_github_issues.issues (fun _ => "## Problem")).

Definition short_dump (v : json) : string :=
  match v with
  | JObj (("title", JStr t) :: _) => "{" +:+ t +:+ "}"
  | _ => "{}"
  end.

(** A directory that lists the 25 records last to first. *)
Definition reversed_batch_world : World :=
  world_with (rev (map record_name (batch (fun _ => "")))) (Some "n") (accept_first 0).

(** ** Vocabulary of the further properties *)

(** The address and the headers of the create-requests of a trace. *)
Definition requests (tr : trace) : list (string * list (string * string)) :=
  flat_map (fun e => match e with EPost u h _ _ => [(u, h)] | _ => [] end) tr.

(** The banner [main] starts with. *)
Definition banner : trace :=
  [EPrint [Txt (rule "=" 60)] nl;
   EPrint [Txt "  GitHub Bulk Issue Creator"] nl;
   EPrint [Txt "  Architecture Review - Location Tracker"] nl;
   EPrint [Txt (rule "=" 60)] nl;
   EPrint [] nl].

(** The guidance [get_github_token] prints before it gives up. *)
Definition token_guidance : trace :=
  [EPrint [Txt "❌ Error: GITHUB_TOKEN environment variable not set"] nl;
   EPrint [] nl;
   EPrint [Txt "To fix this:"] nl;
   EPrint [Txt "  1. Go to https://github.com/settings/tokens"] nl;
   EPrint [Txt "  2. Generate new token (classic)"] nl;
   EPrint [Txt "  3. Select 'repo' scope"] nl;
   EPrint [Txt "  4. Copy the token"] nl;
   EPrint [Txt "  5. Run: export GITHUB_TOKEN='your_token_here'"] nl;
   EPrint [] nl].

(** The directory is there, the token is set but empty. *)
Definition empty_token_world : World :=
  {| path_exists := fun _ => true;
     environ := fun _ => Some "";
     scandir := fun _ => three_names;
     load := fun _ path => inr (titled path);
     stdin_line := Some "y";
     tracker := fun h _ _ data => accept_first 3 h data |}.

(** Neither the directory nor the token is there. *)
Definition bare_world : World :=
  {| path_exists := fun _ => false;
     environ := fun _ => None;
     scandir := fun _ => [];
     load := fun _ path => inl (Exn "FileNotFoundError" "[Errno 2] No such file or directory");
     stdin_line := None;
     tracker := fun h _ _ data => accept_first 0 h data |}.

(** Three records and a token, but nobody at the keyboard. *)
Definition unattended_world : World := world_with three_names None (accept_first 3).

(** What [main] does between the banner and the preview, in a world with
    the directory and a token. *)
Definition setup (w : World) : trace :=
  banner ++
  [EExists ISSUES_DIR true;
   EGetenv "GITHUB_TOKEN" (environ w "GITHUB_TOKEN");
   EPrint [Txt "✓ GitHub token found"] nl;
   EPrint [] nl;
   EGlob ISSUES_DIR "phase*.json"
     (filter (fun name => glob_match name = true) (scandir w ISSUES_DIR));
   EPrint [Txt "Found "; Txt (len (discovered w)); Txt " issue files"] nl;
   EPrint [] nl;
   EPrint [Txt "This will create the following issues:"] nl].

(** The lines between the answer and the loop. *)
Definition loop_header : trace :=
  [EPrint [] nl; EPrint [Txt "Creating issues..."] nl; EPrint [Txt (rule "-" 60)] nl].

(** What the preview does for records that hold [content]. *)
Definition shown (content : string -> json) (files : list string) : trace :=
  flat_map (fun name =>
    [EOpen (issue_path name) "r" (inr (content name));
     EPrint [Txt "  - "; Txt name; Txt ": ";
             Val (match title_of (content name) with inr t => t | inl _ => JNull end)] nl])
    files.

(** The summary of a batch without records. *)
Definition empty_summary : trace :=
  [EPrint [] nl;
   EPrint [Txt (rule "=" 60)] nl;
   EPrint [Txt "  Summary"] nl;
   EPrint [Txt (rule "=" 60)] nl;
   EPrint [Txt "Total issues: "; Txt "0"] nl;
   EPrint [Txt "Created:      "; Txt "0"; Txt " ✓"] nl;
   EPrint [Txt "Failed:       "; Txt "0"; Txt " ✗"] nl;
   EPrint [] nl;
   EPrint [] nl;
   EPrint [Txt "✓ All issues created successfully!"] nl].

(** A directory that holds no record, only other files. *)
Definition no_records_world : World :=
  world_with ["README.md"; "phase1-issue01.txt"; "notes.json"] (Some "Y") (accept_first 0).

(** The summary [report] prints for the lists [c] and [f]. *)
Definition summary (files : list string)
           (c : list (string * json * json)) (f : list (string * json)) : trace :=
  [EPrint [] nl;
   EPrint [Txt (rule "=" 60)] nl;
   EPrint [Txt "  Summary"] nl;
   EPrint [Txt (rule "=" 60)] nl;
   EPrint [Txt "Total issues: "; Txt (len files)] nl;
   EPrint [Txt "Created:      "; Txt (len c); Txt " ✓"] nl;
   EPrint [Txt "Failed:       "; Txt (len f); Txt " ✗"] nl;
   EPrint [] nl] ++
  (if nonempty c
   then EPrint [Txt "Successfully created issues:"] nl :: map created_line c ++
        [EPrint [] nl;
         EPrint [Txt "View all issues: https://github.com/"; Txt REPO_OWNER;
                 Txt "/"; Txt REPO_NAME; Txt "/issues"] nl]
   else []) ++
  (if nonempty f
   then EPrint [] nl :: EPrint [Txt "Failed issues:"] nl :: map failed_line f
   else [EPrint [] nl; EPrint [Txt "✓ All issues created successfully!"] nl]).

(** The records of a batch, each with what [create_issue] made of the
    answer to its request. *)
Definition results_of (files : list string) (answers : list (json * (exn + response)))
  : list (string * (bool * json * json)) :=
  zip files (map (fun a => classify (snd a)) answers).

Definition created_of (rs : list (string * (bool * json * json)))
  : list (string * json * json) :=
  flat_map (fun '(name, (success, number, result)) =>
              if success : bool then [(name, number, result)] else []) rs.

Definition failed_of (rs : list (string * (bool * json * json)))
  : list (string * json) :=
  flat_map (fun '(name, (success, number, result)) =>
              if success : bool then [] else [(name, result)]) rs.

(** The lines [create_github_issues.py] prints after its loop, and the
    lines [generate_all_issues.py] prints before and after its loop. *)
Definition create_trailer (l : list issue) : list string :=
  [nl +:+ "✅ Generated " +:+ str_int (Z.of_nat (length l)) +:+ " issue JSON files";
   nl +:+ "To create these issues in GitHub, you can:";
   "1. Use the GitHub CLI: gh issue create --title 'TITLE' --body 'BODY' --label 'label1,label2'";
   "2. Use the GitHub API with curl";
   "3. Import manually via GitHub web interface";
   nl +:+ "Next: Create remaining Phase 3 and Phase 4 issues (Issues #15-25)"].

Definition generate_header : list string :=
  ["Generating Phase 3 & Phase 4 issues..."; String.concat "" (replicate 50 "=")].

Definition generate_trailer (l : list issue) : list string :=
  [""; "✅ Generated " +:+ str_int (Z.of_nat (length l)) +:+ " additional issue files";
   ""; "All 25 issues are now ready in github-issues/"; "";
   "To upload to GitHub:";
   "1. Set your GitHub token: export GITHUB_TOKEN='your_token'";
   "2. Run: ./upload_issues_to_github.sh"].

(** The exception [open(path, 'w')] raises on a store. *)
Definition open_error (m : gmap string node) (path : string) : exn :=
  if is_dir m (dirname path)
  then Exn "IsADirectoryError" ("[Errno 21] Is a directory: '" +:+ path +:+ "'")
  else Exn "FileNotFoundError" ("[Errno 2] No such file or directory: '" +:+ path +:+ "'").

(** [os.makedirs] finds no regular file in its way. *)
Definition dir_free (m : gmap string node) : Prop :=
  ∀ c, m !! "github-issues" ≠ Some (File c).

(** A disk where a regular file has the name of the directory, and one
    where the second record of [two_issues] is a directory. *)
Definition blocked_disk : disk :=
  {| fs := {["github-issues" := File "notes"]}; console := [] |}.

Definition obstructed_disk : disk :=
  {| fs := {["github-issues/phase1-issue02.json" := Dir]} ; console := [] |}.

(** A disk that holds other files. *)
Definition used_disk : disk :=
  {| fs := {["README.md" := File "# Tracker"]} ; console := ["$ ls"] |}.

(** [int(s)] on a decimal numeral, sign first. *)
Definition digit_of (c : ascii) : N := N.of_nat (nat_of_ascii c) - 48.

Fixpoint read_from (acc : N) (s : string) : N :=
  match s with
  | EmptyString => acc
  | String c rest => read_from (10 * acc + digit_of c) rest
  end.

Definition read_int (s : string) : Z :=
  match s with
  | String c rest =>
      if Ascii.eqb c "-" then - Z.of_N (read_from 0 rest) else Z.of_N (read_from 0 s)
  | EmptyString => 0
  end.

(** The character [c] occurs in [s]. *)
Fixpoint mentions (c : ascii) (s : string) : bool :=
  match s with
  | EmptyString => false
  | String a rest => Ascii.eqb a c || mentions c rest
  end.

(** The place of a key in ascending (phase, sequence) order, for a phase
    of one digit and a number below 100, and the record name at a place. *)
Definition place (i : issue) : nat :=
  Z.to_nat (100 * phase_value (phase i) + number i).

Definition name_at (j : nat) : string :=
  basename (filename_of (String (ascii_of_nat (48 + j / 100)) "")
                        (Z.of_nat (j mod 100))).

(** Three issues out of key order in the directory listing. *)
Definition sample_batch : list issue :=
  [ {| phase := "1"; number := 9; title := "a"; labels := []; effort := "1 day";
       dependencies := "None"; body := "" |};
    {| phase := "1"; number := 10; title := "b"; labels := []; effort := "1 day";
       dependencies := "None"; body := "" |};
    {| phase := "2"; number := 1; title := "c"; labels := []; effort := "1 day";
       dependencies := "None"; body := "" |} ].

Definition sample_world : World :=
  world_with ["phase2-issue01.json"; "phase1-issue10.json"; "phase1-issue09.json"]
             (Some "n") (accept_first 0).

(** The file name of an issue, the same in both scripts. *)
Definition file_of (i : issue) : string := filename_of (phase i) (number i).

(** The names directly under [dir] on a store. *)
Definition listdir (m : gmap string node) (dir : string) : list string :=
  map basename (filter (fun p => dirname p = dir) (map fst (map_to_list m))).

(** The world the submitter finds on a disk: [os.path.exists], the
    directory listing and [open] look at the store, [json.load] reads the
    text of a file with [json_load]. *)
Definition world_on (d : disk) (json_load : string -> exn + json)
           (token answer : option string)
           (reply : trace -> string -> list (string * string) -> json -> exn + response)
  : World :=
  {| path_exists := fun p => bool_decide (is_Some (fs d !! p));
     environ := fun name => if String.eqb name "GITHUB_TOKEN" then token else None;
     scandir := listdir (fs d);
     load := fun _ path =>
       match fs d !! path with
       | Some (File text) => json_load text
       | Some Dir =>
           inl (Exn "IsADirectoryError" ("[Errno 21] Is a directory: '" +:+ path +:+ "'"))
       | None =>
           inl (Exn "FileNotFoundError"
                  ("[Errno 2] No such file or directory: '" +:+ path +:+ "'"))
       end;
     stdin_line := answer;
     tracker := reply |}.

(** What a disk holds for a record, as the submitter reads it. *)
Definition on_disk (d : disk) (json_load : string -> exn + json) (name : string) : json :=
  match fs d !! issue_path name with
  | Some (File text) => match json_load text with inr v => v | inl _ => JNull end
  | _ => JNull
  end.

(** An encoder and a decoder that agree on the 25 issues with empty
    bodies: the text is the title. *)
Definition title_dump (v : json) : string :=
  match v with
  | JObj (("title", JStr t) :: _) => t
  | _ => ""
  end.

Definition title_load (text : string) : exn + json :=
  match
    find (fun v => String.eqb (title_dump v) text)
         (map create_github_issues.issue_data (create_github_issues.issues (fun _ => "")) ++
          map generate_all_issues.issue_data
              (generate_all_issues.additional_issues (fun _ => "")))
  with
  | Some v => inr v
  | None => inl (Exn "JSONDecodeError" "Expecting value: line 1 column 1 (char 0)")
  end.

(** * Proofs *)

(** ** The monad *)

Lemma bind_assoc {S A B C} (m : M S A) (k : A -> M S B) (h : B -> M S C) s :
  bind (bind m k) h s = bind m (fun x => bind (k x) h) s.
Proof. unfold bind. destruct (m s) as [[a|c|e] s']; done. Qed.

Lemma bind_print_line {A} line (k : unit -> M disk A) d :
  bind (print_line line) k d = k tt {| fs := fs d; console := console d ++ [line] |}.
Proof. reflexivity. Qed.

(** The affirmative answers are exactly [y] and [Y]. *)
Lemma lower_y (a : string) : lower a = "y" <-> a = "y" ∨ a = "Y".
Proof.
  destruct a as [|c [|c' rest]]; cbn [lower].
  - split; [discriminate|intros [H|H]; discriminate H].
  - destruct c as [[] [] [] [] [] [] [] []]; vm_compute;
      (split; [intros H; first [discriminate H | by left | by right]
              |intros [H|H]; first [discriminate H | reflexivity]]).
  - split; [discriminate|intros [H|H]; discriminate H].
Qed.

(** ** The materializers write the same files every time *)

Section WriteLoop.
Variables fn ct pm : issue -> string.

Lemma open_w_eq path content d :
  open_w path content d =
    if writable (fs d) path
    then (Ret tt, {| fs := <[path := File content]> (fs d); console := console d |})
    else (Raise (Exn (if is_dir (fs d) (dirname path)
                      then "IsADirectoryError" else "FileNotFoundError")
                     ((if is_dir (fs d) (dirname path)
                       then "[Errno 21] Is a directory: '"
                       else "[Errno 2] No such file or directory: '")
                      +:+ path +:+ "'")), d).
Proof.
  unfold open_w, writable.
  destruct (is_dir (fs d) (dirname path)); simpl; [|done].
  destruct (fs d !! path) as [[|c]|] eqn:E; done.
Qed.

Lemma is_dir_put m p c q :
  m !! p ≠ Some Dir -> is_dir (<[p := File c]> m) q = is_dir m q.
Proof.
  intros Hp. unfold is_dir. destruct q as [|a q]; [done|].
  destruct (decide (p = String a q)) as [->|Hne].
  - rewrite lookup_insert_eq. destruct (m !! String a q) as [[|?]|]; done.
  - rewrite lookup_insert_ne; done.
Qed.

Lemma writable_put m p c q :
  m !! p ≠ Some Dir -> writable (<[p := File c]> m) q = writable m q.
Proof.
  intros Hp. unfold writable. rewrite is_dir_put by done. f_equal.
  destruct (decide (p = q)) as [->|Hne].
  - rewrite lookup_insert_eq. destruct (m !! q) as [[|?]|]; done.
  - rewrite lookup_insert_ne; done.
Qed.

Lemma writable_not_dir m p : writable m p = true -> m !! p ≠ Some Dir.
Proof.
  unfold writable. intros [_ H]%andb_true_iff.
  destruct (m !! p) as [[|?]|]; done.
Qed.

Lemma all_writable_put m l i :
  writable m (fn i) = true -> all_writable fn m l -> all_writable fn (put fn ct m i) l.
Proof.
  intros Hw H. eapply Forall_impl; [exact H|]. intros j Hj. simpl. unfold put.
  rewrite writable_put; [done|]. by apply writable_not_dir.
Qed.

Lemma write_all_ok l d :
  all_writable fn (fs d) l ->
  write_all fn ct pm l d =
    (Ret tt, {| fs := foldl (put fn ct) (fs d) l; console := console d ++ map pm l |}).
Proof.
  revert d. induction l as [|i l IH]; intros [m out]; simpl.
  - intros _. unfold write_all, ret. simpl. by rewrite app_nil_r.
  - intros [Hw Hl]%Forall_cons. unfold write_all in *. simpl.
    unfold bind at 1 2. rewrite open_w_eq. simpl. rewrite Hw. simpl.
    rewrite IH; simpl.
    + by rewrite <- app_assoc.
    + by apply all_writable_put.
Qed.

Lemma write_all_ret l d :
  fst (write_all fn ct pm l d) = Ret tt -> all_writable fn (fs d) l.
Proof.
  revert d. induction l as [|i l IH]; intros [m out]; simpl; [constructor|].
  unfold write_all in *. simpl.
  unfold bind at 1 2. rewrite open_w_eq. simpl.
  destruct (writable m (fn i)) eqn:Hw; simpl; [|done].
  intros H%IH. simpl in H. constructor; [done|].
  eapply Forall_impl; [exact H|]. intros j. simpl. unfold put.
  rewrite writable_put; [done|]. by apply writable_not_dir.
Qed.

Lemma lookup_foldl_put l m path :
  foldl (put fn ct) m l !! path =
    match last_write fn ct l path with
    | Some c => Some (File c)
    | None => m !! path
    end.
Proof.
  revert m. induction l as [|i l IH]; intros m; simpl; [done|].
  rewrite IH. destruct (last_write fn ct l path); [done|].
  unfold put. case_decide as E.
  - subst. by rewrite lookup_insert_eq.
  - by rewrite lookup_insert_ne.
Qed.

Lemma foldl_put_idemp l m : foldl (put fn ct) (foldl (put fn ct) m l) l = foldl (put fn ct) m l.
Proof.
  apply map_eq. intros path. rewrite !lookup_foldl_put.
  by destruct (last_write fn ct l path).
Qed.

Lemma writable_foldl_put l m q :
  all_writable fn m l -> writable (foldl (put fn ct) m l) q = writable m q.
Proof.
  revert m. induction l as [|i l IH]; intros m; simpl; [done|].
  intros [Hw Hl]%Forall_cons.
  rewrite IH.
  - apply writable_put. by apply writable_not_dir.
  - by apply all_writable_put.
Qed.

Lemma last_write_Some l path :
  is_Some (last_write fn ct l path) -> path ∈ map fn l.
Proof.
  induction l as [|k l IH]; simpl; [by intros [? ?]|].
  destruct (last_write fn ct l path).
  - intros _. apply elem_of_cons. right. by apply IH.
  - case_decide as E; [|by intros [? ?]]. intros _. subst. apply elem_of_cons. by left.
Qed.

Lemma last_write_NoDup l i :
  NoDup (map fn l) -> i ∈ l -> last_write fn ct l (fn i) = Some (ct i).
Proof.
  induction l as [|j l IH]; simpl; intros Hnd Hi.
  - by apply elem_of_nil in Hi.
  - apply NoDup_cons in Hnd as [Hj Hnd].
    apply elem_of_cons in Hi as [->|Hi].
    + destruct (last_write fn ct l (fn j)) eqn:E.
      * exfalso. apply Hj. apply last_write_Some. by rewrite E.
      * by rewrite decide_True.
    + by rewrite IH.
Qed.

Lemma core_ret l d d1 :
  core fn ct pm l d = (Ret tt, d1) ->
  all_writable fn (made (fs d)) l ∧
  fs d1 = foldl (put fn ct) (made (fs d)) l ∧
  console d1 = console d ++ map pm l ∧
  made (fs d) !! "github-issues" = Some Dir.
Proof.
  unfold core, bind, os_makedirs, made. destruct d as [m out]; simpl.
  destruct (m !! "github-issues") as [[|c]|] eqn:E; [| done |].
  - intros H.
    assert (Hw : all_writable fn m l) by (apply (write_all_ret l (Disk m out)); by rewrite H).
    rewrite write_all_ok in H by done. by simplify_eq.
  - destruct (write_all fn ct pm l _) as [o d'] eqn:Hrun. intros H.
    assert (o = Ret tt ∧ d' = d1) as [-> ->] by (destruct o; by simplify_eq).
    match type of Hrun with
    | ?run = _ => assert (Hw : fst run = Ret tt) by (by rewrite Hrun)
    end.
    apply write_all_ret in Hw. simpl in Hw.
    rewrite write_all_ok in Hrun by done. simplify_eq. simpl.
    by rewrite lookup_insert_eq.
Qed.

Lemma core_ok l d :
  made (fs d) !! "github-issues" = Some Dir ->
  all_writable fn (made (fs d)) l ->
  core fn ct pm l d = (Ret tt, {| fs := foldl (put fn ct) (made (fs d)) l;
                         console := console d ++ map pm l |}).
Proof.
  unfold core, bind, os_makedirs, made. destruct d as [m out]; simpl.
  destruct (m !! "github-issues") as [[|c]|] eqn:E; [| congruence |].
  - intros _ Hw. by rewrite write_all_ok.
  - intros _ Hw. by rewrite write_all_ok.
Qed.

Lemma dir_kept l m p :
  all_writable fn m l -> m !! p = Some Dir -> foldl (put fn ct) m l !! p = Some Dir.
Proof.
  intros Hw Hp. rewrite lookup_foldl_put.
  destruct (last_write fn ct l p) eqn:E; [|done].
  exfalso. assert (Hin : p ∈ map fn l) by (apply last_write_Some; by rewrite E).
  apply list_elem_of_fmap in Hin as (i & -> & Hi).
  eapply Forall_forall in Hw; [|exact Hi].
  apply writable_not_dir in Hw. done.
Qed.

(** A second run finds the directory, meets no obstacle and rewrites
    every file with the bytes it already holds. *)
Lemma core_again l d d1 :
  core fn ct pm l d = (Ret tt, d1) ->
  core fn ct pm l d1 = (Ret tt, {| fs := fs d1; console := console d1 ++ map pm l |}).
Proof.
  intros (Hw & Hfs & Hout & Hdir)%core_ret.
  assert (Hd1 : fs d1 !! "github-issues" = Some Dir).
  { rewrite Hfs. by apply dir_kept. }
  assert (Hm : made (fs d1) = fs d1) by (unfold made; by rewrite Hd1).
  rewrite core_ok.
  - rewrite Hm, Hfs. by rewrite foldl_put_idemp.
  - by rewrite Hm.
  - rewrite Hm, Hfs. eapply Forall_impl; [exact Hw|]. intros i Hi. simpl.
    by rewrite writable_foldl_put.
Qed.

Lemma last_write_elem l path :
  path ∈ map fn l -> ∃ j, j ∈ l ∧ fn j = path ∧ last_write fn ct l path = Some (ct j).
Proof.
  induction l as [|k l IH]; [by intros ?%elem_of_nil|]. simpl.
  intros Hp. destruct (last_write fn ct l path) eqn:E.
  - destruct IH as (j & Hj & Hfn & Hc).
    { apply last_write_Some. by rewrite E. }
    exists j. split; [apply elem_of_cons; by right|done].
  - apply elem_of_cons in Hp as [->|Hp].
    + rewrite decide_True by done. exists k. split; [apply elem_of_cons; by left|done].
    + exfalso. destruct (IH Hp) as (j & _ & _ & Hc). done.
Qed.

Lemma core_files l d d1 i :
  core fn ct pm l d = (Ret tt, d1) -> i ∈ l ->
  ∃ j, j ∈ l ∧ fn j = fn i ∧ fs d1 !! fn i = Some (File (ct j)).
Proof.
  intros (_ & -> & _ & _)%core_ret Hi. rewrite lookup_foldl_put.
  destruct (last_write_elem l (fn i)) as (j & Hj & Hfn & ->); [|by exists j].
  apply list_elem_of_fmap. by exists i.
Qed.

Lemma core_fs_only l m out out' d1 :
  core fn ct pm l {| fs := m; console := out |} = (Ret tt, d1) ->
  core fn ct pm l {| fs := m; console := out' |} =
    (Ret tt, {| fs := fs d1; console := out' ++ map pm l |}).
Proof.
  intros (Hw & Hfs & _ & Hdir)%core_ret. simpl in *.
  rewrite core_ok by done. simpl. by rewrite Hfs.
Qed.

(** The properties of one run, and of a second run after it (which may
    start with more on the console). *)
Lemma shape_twice after l d d1 extra :
  console_only after ->
  shape fn ct pm after l d = (Ret tt, d1) ->
  fs d1 !! "github-issues" = Some Dir ∧
  (∀ i, i ∈ l -> ∃ j, j ∈ l ∧ fn j = fn i ∧ fs d1 !! fn i = Some (File (ct j))) ∧
  ∃ d2 out,
    shape fn ct pm after l {| fs := fs d1; console := console d1 ++ extra |} = (Ret tt, d2) ∧
    fs d2 = fs d1 ∧
    console d1 = console d ++ out ∧
    console d2 = (console d1 ++ extra) ++ out.
Proof.
  intros [la Ha]. unfold shape, bind.
  destruct (core fn ct pm l _) as [[[]|c|e] dc] eqn:Hc; [|done..].
  rewrite Ha. intros [= <-]. simpl.
  pose proof (core_ret _ _ _ Hc) as (Hw & Hfs & Hout & Hdir). simpl in *.
  split; [|split].
  - rewrite Hfs. by apply dir_kept.
  - intros i Hi. by eapply core_files.
  - pose proof (core_again _ _ _ Hc) as Hagain.
    destruct dc as [mc outc]. simpl in *.
    apply (core_fs_only _ _ _ ((outc ++ la) ++ extra)) in Hagain. simpl in Hagain.
    eexists _, (map pm l ++ la). rewrite Hagain, Ha. simpl.
    split; [done|]. split; [done|]. rewrite Hout.
    split; by rewrite <- !app_assoc.
Qed.

End WriteLoop.
Ltac console_only_tac :=
  eexists; intros [m out]; unfold bind, print_line, ret; simpl;
  rewrite <- ?app_assoc; simpl; reflexivity.

Section Scripts.
Variable json_dump_indent2 : json -> string.

Lemma create_twice l d d1 :
  create_github_issues.materialize json_dump_indent2 l d = (Ret tt, d1) ->
  settled (create_github_issues.materialize json_dump_indent2)
          create_github_issues.filename
          (fun i => json_dump_indent2 (create_github_issues.issue_data i)) l d d1.
Proof.
  unfold settled, create_github_issues.materialize.
  match goal with
  | |- context [bind (for_each l ?body) (fun _ => ?t)] => set (tail := t)
  end.
  intros H. rewrite <- bind_assoc in H.
  apply (shape_twice create_github_issues.filename
           (fun i => json_dump_indent2 (create_github_issues.issue_data i))
           created_message tail l d d1 []) in H.
  - destruct H as (H1 & H2 & d2 & out & H3 & H4 & H5 & H6).
    split; [done|]. split; [done|].
    exists d2, out. rewrite app_nil_r in H3, H6. destruct d1 as [m1 out1].
    split; [|done]. rewrite <- bind_assoc. exact H3.
  - subst tail. console_only_tac.
Qed.

Lemma generate_twice l d d1 :
  generate_all_issues.materialize json_dump_indent2 l d = (Ret tt, d1) ->
  settled (generate_all_issues.materialize json_dump_indent2)
          generate_all_issues.filename
          (fun i => json_dump_indent2 (generate_all_issues.issue_data i)) l d d1.
Proof.
  unfold settled, generate_all_issues.materialize.
  match goal with
  | |- context [bind (for_each l ?body) (fun _ => ?t)] => set (tail := t)
  end.
  intros H. rewrite !bind_print_line in H. simpl in H.
  rewrite <- bind_assoc in H.
  match type of H with
  | _ {| fs := _; console := (_ ++ [?a]) ++ [?b] |} = _ =>
      apply (shape_twice generate_all_issues.filename
           (fun i => json_dump_indent2 (generate_all_issues.issue_data i))
           created_message tail l _ d1 [a; b]) in H
  end.
  - destruct H as (H1 & H2 & d2 & out & H3 & H4 & H5 & H6).
    split; [done|]. split; [done|]. simpl in *.
    eexists d2, (_ :: _ :: out). rewrite !bind_print_line. simpl.
    split; [|split; [done|]].
    + rewrite <- bind_assoc. rewrite <- H3. by rewrite <- app_assoc.
    + split; [rewrite H5|rewrite H6]; by rewrite <- !app_assoc.
  - subst tail. console_only_tac.
Qed.

(** Where nothing stands in the way, the scripts run to their end. *)
Lemma create_ok l d :
  made (fs d) !! "github-issues" = Some Dir ->
  all_writable create_github_issues.filename (made (fs d)) l ->
  ∃ d1, create_github_issues.materialize json_dump_indent2 l d = (Ret tt, d1) ∧
        fs d1 = foldl (put create_github_issues.filename
                           (fun i => json_dump_indent2 (create_github_issues.issue_data i)))
                      (made (fs d)) l.
Proof.
  intros Hdir Hw. unfold create_github_issues.materialize.
  rewrite <- bind_assoc.
  pose proof (core_ok create_github_issues.filename
                (fun i => json_dump_indent2 (create_github_issues.issue_data i))
                created_message l d Hdir Hw) as Hc.
  unfold core in Hc. unfold bind at 1.
  unfold write_all, created_message, create_github_issues.filename in Hc.
  unfold create_github_issues.filename. rewrite Hc.
  rewrite !bind_print_line. unfold print_line. simpl. by eexists.
Qed.

Lemma generate_ok l d :
  made (fs d) !! "github-issues" = Some Dir ->
  all_writable generate_all_issues.filename (made (fs d)) l ->
  ∃ d1, generate_all_issues.materialize json_dump_indent2 l d = (Ret tt, d1) ∧
        fs d1 = foldl (put generate_all_issues.filename
                           (fun i => json_dump_indent2 (generate_all_issues.issue_data i)))
                      (made (fs d)) l.
Proof.
  intros Hdir Hw. unfold generate_all_issues.materialize.
  rewrite !bind_print_line. rewrite <- bind_assoc.
  match goal with
  | |- context [bind _ _ ?d'] =>
      pose proof (core_ok generate_all_issues.filename
                (fun i => json_dump_indent2 (generate_all_issues.issue_data i))
                created_message l d' Hdir Hw) as Hc
  end.
  unfold core in Hc. unfold bind at 1.
  unfold write_all, created_message, generate_all_issues.filename in Hc.
  unfold generate_all_issues.filename. rewrite Hc.
  rewrite !bind_print_line. unfold print_line. simpl. by eexists.
Qed.
End Scripts.

(** On a disk without [github-issues] every path directly under it can
    be written once the directory is made. *)
Lemma made_empty : made ∅ = <["github-issues" := Dir]> ∅.
Proof. unfold made. by rewrite lookup_empty. Qed.

Lemma writable_fresh path :
  dirname path = "github-issues" -> writable (made ∅) path = true.
Proof.
  intros Hd. rewrite made_empty. unfold writable. rewrite Hd.
  unfold is_dir. rewrite lookup_insert_eq. simpl.
  rewrite lookup_insert_ne; [by rewrite lookup_empty|].
  intros <-. vm_compute in Hd. discriminate Hd.
Qed.

(** The literal lists meet no obstacle there. *)
Lemma literal_writable (body_of : Z -> string) :
  all_writable create_github_issues.filename (made ∅)
               (create_github_issues.issues body_of) ∧
  all_writable generate_all_issues.filename (made ∅)
               (generate_all_issues.additional_issues body_of).
Proof.
  unfold all_writable, create_github_issues.issues, generate_all_issues.additional_issues.
  split;
    repeat (apply Forall_cons; split;
            [apply writable_fresh; vm_compute; reflexivity|]);
    constructor.
Qed.

Lemma literal_scripts_succeed (json_dump_indent2 : json -> string) (body_of : Z -> string) :
  ∃ d1 d2,
    create_github_issues.script json_dump_indent2 body_of empty_disk = (Ret tt, d1) ∧
    generate_all_issues.script json_dump_indent2 body_of d1 = (Ret tt, d2).
Proof.
  destruct (literal_writable body_of) as [Hw1 Hw2].
  assert (Hdir : made ∅ !! "github-issues" = Some Dir)
    by (rewrite made_empty; apply lookup_insert_eq).
  destruct (create_ok json_dump_indent2 (create_github_issues.issues body_of)
              empty_disk Hdir Hw1) as (d1 & Hrun1 & Hfs1).
  assert (Hd1 : fs d1 !! "github-issues" = Some Dir).
  { rewrite Hfs1. apply dir_kept; [exact Hw1|exact Hdir]. }
  assert (Hm : made (fs d1) = fs d1) by (unfold made; rewrite Hd1; reflexivity).
  destruct (generate_ok json_dump_indent2 (generate_all_issues.additional_issues body_of) d1)
    as (d2 & Hrun2 & _).
  - rewrite Hm. exact Hd1.
  - rewrite Hm, Hfs1. eapply Forall_impl; [exact Hw2|]. intros i Hi. cbv beta.
    rewrite (writable_foldl_put _ _ _ _ _ Hw1). exact Hi.
  - exists d1, d2. split; [exact Hrun1|exact Hrun2].
Qed.

(** C7. Materialization is idempotent and deterministic.  For either
    script, any list of issues and any disk: if a run succeeds, then the
    output directory exists, every issue has its file holding the bytes
    [json.dump] wrote last under that name (whatever was there before),
    and a second run on the result succeeds, leaves every file with the
    same bytes and writes the same names again.  On a disk without the
    directory the two scripts, run on their literal lists, do succeed. *)
Theorem materialization_idempotent
        (json_dump_indent2 : json -> string) (l : list issue) (d d1 : disk) :
  (create_github_issues.materialize json_dump_indent2 l d = (Ret tt, d1) ->
   settled (create_github_issues.materialize json_dump_indent2)
           create_github_issues.filename
           (fun i => json_dump_indent2 (create_github_issues.issue_data i)) l d d1) ∧
  (generate_all_issues.materialize json_dump_indent2 l d = (Ret tt, d1) ->
   settled (generate_all_issues.materialize json_dump_indent2)
           generate_all_issues.filename
           (fun i => json_dump_indent2 (generate_all_issues.issue_data i)) l d d1) ∧
  (∀ body_of, ∃ d' d'',
      create_github_issues.script json_dump_indent2 body_of empty_disk = (Ret tt, d') ∧
      generate_all_issues.script json_dump_indent2 body_of d' = (Ret tt, d'')).
Proof.
  split; [apply create_twice|]. split; [apply generate_twice|].
  apply literal_scripts_succeed.
Qed.

Lemma materialization_idempotent_witness :
  let d1 := snd (create_github_issues.materialize short_dump two_issues empty_disk) in
  let d2 := snd (generate_all_issues.materialize short_dump two_issues empty_disk) in
  (create_github_issues.materialize short_dump two_issues empty_disk = (Ret tt, d1) ∧
   settled (create_github_issues.materialize short_dump)
           create_github_issues.filename
           (fun i => short_dump (create_github_issues.issue_data i))
           two_issues empty_disk d1) ∧
  (generate_all_issues.materialize short_dump two_issues empty_disk = (Ret tt, d2) ∧
   settled (generate_all_issues.materialize short_dump)
           generate_all_issues.filename
           (fun i => short_dump (generate_all_issues.issue_data i))
           two_issues empty_disk d2).
Proof.
  intros d1 d2.
  assert (H1 : create_github_issues.materialize short_dump two_issues empty_disk
               = (Ret tt, d1)) by (vm_compute; reflexivity).
  assert (H2 : generate_all_issues.materialize short_dump two_issues empty_disk
               = (Ret tt, d2)) by (vm_compute; reflexivity).
  split.
  - split; [exact H1|].
    exact (proj1 (materialization_idempotent short_dump two_issues empty_disk d1) H1).
  - split; [exact H2|].
    exact (proj1 (proj2 (materialization_idempotent short_dump two_issues empty_disk d2)) H2).
Defined.

(** ** File names sort in the order of the batch *)

Lemma filter_all {A} (P : A -> Prop) `{!∀ x, Decision (P x)} (l : list A) :
  Forall P l -> filter P l = l.
Proof.
  induction 1 as [|x l Hx Hl IH]; [reflexivity|].
  rewrite filter_cons_True by exact Hx. by rewrite IH.
Qed.

(** A listing that holds exactly the names of a sorted list of matching
    names is discovered in that order, however the directory lists it. *)
Lemma discover_sorted names listing :
  Sorted String.le names ->
  Forall (fun name => glob_match name = true) names ->
  listing ≡ₚ names ->
  discover listing = names.
Proof.
  intros Hs Hg Hp. unfold discover, sorted.
  assert (Hf : filter (fun name => glob_match name = true) listing = listing).
  { apply filter_all. by rewrite Hp. }
  rewrite Hf.
  apply (Sorted_unique String.le); [apply Sorted_merge_sort; apply _ | exact Hs |].
  by rewrite merge_sort_Permutation.
Qed.

(** C2. The 25 issues of the two literal lists have a one-digit phase and
    a number below 100; their file names [phase{P}-issue{NN}.json] are
    pairwise distinct, one per issue; the batch is in ascending
    (phase, sequence) order; and whatever order the directory lists the
    files in, the discovery step of the submitter (glob, then sort by
    name) returns them in exactly that order. *)
Theorem batch_filenames_unique_and_sorted (body_of : Z -> string) :
  let names := map record_name (batch body_of) in
  Forall well_keyed (batch body_of) ∧
  length names = length (batch body_of) ∧
  NoDup names ∧
  StronglySorted key_lt (batch body_of) ∧
  ∀ w, scandir w ISSUES_DIR ≡ₚ names -> discovered w = names.
Proof.
  intros names.
  split; [|split; [|split; [|split]]].
  - unfold well_keyed. repeat constructor; simpl; lia.
  - apply length_map.
  - apply (bool_decide_unpack _). vm_compute. exact I.
  - apply (bool_decide_unpack _). vm_compute. exact I.
  - intros w Hp. apply discover_sorted; [| |exact Hp].
    + apply (bool_decide_unpack _). vm_compute. exact I.
    + apply (bool_decide_unpack _). vm_compute. exact I.
Qed.

Lemma batch_filenames_unique_and_sorted_witness :
  scandir reversed_batch_world ISSUES_DIR ≡ₚ map record_name (batch (fun _ => "")) ∧
  discovered reversed_batch_world = map record_name (batch (fun _ => "")).
Proof.
  assert (H : scandir reversed_batch_world ISSUES_DIR
              ≡ₚ map record_name (batch (fun _ => ""))).
  { apply (bool_decide_unpack _). vm_compute. exact I. }
  split; [exact H|].
  exact (proj2 (proj2 (proj2 (proj2
           (batch_filenames_unique_and_sorted (fun _ => "")))))
           reversed_batch_world H).
Defined.

(** ** The submitter, step by step *)

Section Lemmas.
Variable w : World.

Lemma bind_Ret {S A B} (m : M S A) (k : A -> M S B) s a s' :
  m s = (Ret a, s') -> bind m k s = k a s'.
Proof. unfold bind. by intros ->. Qed.

Lemma bind_emit {A} e (k : unit -> M trace A) tr :
  bind (emit e) k tr = k tt (tr ++ [e]).
Proof. reflexivity. Qed.

Lemma bind_print {A} line (k : unit -> M trace A) tr :
  bind (print line) k tr = k tt (tr ++ [EPrint line nl]).
Proof. reflexivity. Qed.

Lemma create_issue_eq token data filename tr :
  let answer := tracker w tr GITHUB_API_URL (request_headers token) data in
  create_issue w token data filename tr =
    (Ret (classify answer),
     tr ++ [EPost GITHUB_API_URL (request_headers token) data answer]).
Proof.
  unfold create_issue, try_except, bind, requests_post, classify. simpl.
  destruct (tracker w tr _ _ data) as [e|[status [e|v]]]; simpl; [done| |].
  - unfold response_json. simpl. destruct (status =? 201); done.
  - unfold response_json. simpl. destruct (status =? 201); destruct v; done.
Qed.

Lemma submit_nil token c f tr : submit w token [] c f tr = (Ret (c, f), tr).
Proof. reflexivity. Qed.

Lemma submit_cons token name rest c f tr :
  submit w token (name :: rest) c f tr =
    match load w tr (issue_path name) with
    | inl e => (Raise e, tr ++ [EOpen (issue_path name) "r" (inl e)])
    | inr v =>
        let tr1 := tr ++ [EOpen (issue_path name) "r" (inr v);
                          EPrint [Txt "Creating: "; Txt name; Txt "..."] " "] in
        let answer := tracker w tr1 GITHUB_API_URL (request_headers token) v in
        let lists := record name (classify answer) (c, f) in
        submit w token rest (fst lists) (snd lists)
          (tr1 ++ EPost GITHUB_API_URL (request_headers token) v answer
               :: outcome_lines (classify answer) ++ [ESleep 1])
    end.
Proof.
  simpl. unfold bind at 1. unfold open_json_load.
  destruct (load w tr (issue_path name)) as [e|v]; [done|].
  unfold print_end. rewrite bind_emit.
  unfold bind at 1. rewrite create_issue_eq.
  rewrite <- !app_assoc. simpl.
  destruct (classify _) as [[[] number] result]; simpl.
  - unfold bind at 1. rewrite !bind_print. unfold ret at 1. unfold time_sleep.
    rewrite bind_emit. simpl. by rewrite <- !app_assoc.
  - unfold bind at 1. rewrite !bind_print. unfold ret at 1. unfold time_sleep.
    rewrite bind_emit. simpl. by rewrite <- !app_assoc.
Qed.

Lemma preview_nil tr : preview w [] tr = (Ret tt, tr).
Proof. reflexivity. Qed.

Lemma py_getitem_eq v tr :
  py_getitem v "title" tr =
    (match title_of v with inl e => Raise e | inr t => Ret t end, tr).
Proof.
  unfold title_of, py_getitem.
  destruct v; try done. destruct (lookup_key "title" members); done.
Qed.

Lemma preview_cons name rest tr :
  preview w (name :: rest) tr =
    match load w tr (issue_path name) with
    | inl e => (Raise e, tr ++ [EOpen (issue_path name) "r" (inl e)])
    | inr v =>
        match title_of v with
        | inl e => (Raise e, tr ++ [EOpen (issue_path name) "r" (inr v)])
        | inr t =>
            preview w rest
              (tr ++ [EOpen (issue_path name) "r" (inr v);
                      EPrint [Txt "  - "; Txt name; Txt ": "; Val t] nl])
        end
    end.
Proof.
  unfold preview. simpl. unfold bind at 1 2. unfold open_json_load.
  destruct (load w tr (issue_path name)) as [e|v]; [done|].
  unfold bind at 1. rewrite py_getitem_eq.
  destruct (title_of v) as [e|t]; [done|].
  unfold print, emit. simpl. by rewrite <- app_assoc.
Qed.

Lemma for_each_emit {A} (body : A -> M trace unit) (ev : A -> event) xs tr :
  (∀ x tr, body x tr = (Ret tt, tr ++ [ev x])) ->
  for_each xs body tr = (Ret tt, tr ++ map ev xs).
Proof.
  intros Hbody. revert tr. induction xs as [|x xs IH]; intros tr; simpl.
  - unfold ret. by rewrite app_nil_r.
  - unfold bind. rewrite Hbody, IH. by rewrite <- app_assoc.
Qed.

Lemma bind_for_each_emit {A B} (body : A -> M trace unit) (ev : A -> event) xs
      (k : unit -> M trace B) tr :
  (∀ x tr, body x tr = (Ret tt, tr ++ [ev x])) ->
  bind (for_each xs body) k tr = k tt (tr ++ map ev xs).
Proof. intros H. unfold bind. by rewrite (for_each_emit body ev). Qed.

Lemma quiet_prints {A} (ev : A -> event) xs :
  (∀ x, quiet (ev x)) -> Forall quiet (map ev xs).
Proof. intros H. apply Forall_forall. intros e (x & -> & _)%list_elem_of_fmap. apply H. Qed.

Ltac quiet_tac :=
  repeat first
    [ by apply quiet_prints | apply Forall_app; split | apply Forall_cons; split
    | apply Forall_nil | exact I ].

Ltac members_tac :=
  try match goal with
      | |- ∀ x, In x ?l -> In (?g x) _ =>
          let H := fresh in intros x H; apply (in_map g) in H; revert H
      end;
  rewrite ?in_app_iff; simpl; tauto.

Lemma report_spec files c f tr :
  ∃ sfx,
    report files c f tr = (if nonempty f then Exit 1 else Ret tt, tr ++ sfx) ∧
    Forall quiet sfx ∧
    In (EPrint [Txt "Total issues: "; Txt (len files)] nl) sfx ∧
    In (EPrint [Txt "Created:      "; Txt (len c); Txt " ✓"] nl) sfx ∧
    In (EPrint [Txt "Failed:       "; Txt (len f); Txt " ✗"] nl) sfx ∧
    (∀ x, In x c -> In (created_line x) sfx) ∧
    (∀ x, In x f -> In (failed_line x) sfx).
Proof.
  unfold report. rewrite !bind_print.
  assert (Hc : ∀ x tr, (let '(filename, number, url) := x in
               print [Txt "  #"; Val number; Txt ": "; Txt filename]) tr
             = (Ret tt, tr ++ [created_line x])) by (by intros [[??]?] ?).
  assert (Hf : ∀ x tr, (let '(filename, error) := x in
               print [Txt "  "; Txt filename; Txt ": "; Val error]) tr
             = (Ret tt, tr ++ [failed_line x])) by (by intros [??] ?).
  assert (Qc : ∀ x, quiet (created_line x)) by (by intros [[??]?]).
  assert (Qf : ∀ x, quiet (failed_line x)) by (by intros [??]).
  destruct c as [|c0 c], f as [|f0 f]; cbn [nonempty].
  - unfold bind at 1 2, ret at 1 2. rewrite !bind_print. unfold print, emit.
    eexists. split; [rewrite <- !app_assoc; reflexivity|].
    split; [quiet_tac|]. repeat split; members_tac.
  - unfold bind at 1, ret at 1. unfold bind at 1. rewrite !bind_print.
    rewrite (for_each_emit _ _ _ _ Hf). unfold sys_exit.
    eexists. split; [rewrite <- !app_assoc; reflexivity|].
    split; [quiet_tac|]. repeat split; members_tac.
  - unfold bind at 1. rewrite !bind_print.
    rewrite (bind_for_each_emit _ _ _ _ _ Hc). rewrite !bind_print.
    unfold print at 1, emit at 1. unfold bind at 1, ret at 1. rewrite !bind_print.
    unfold print, emit.
    eexists. split; [rewrite <- !app_assoc; reflexivity|].
    split; [quiet_tac|]. repeat split; members_tac.
  - unfold bind at 1. rewrite !bind_print.
    rewrite (bind_for_each_emit _ _ _ _ _ Hc). rewrite !bind_print.
    unfold print at 1, emit at 1. unfold bind at 1. rewrite !bind_print.
    rewrite (for_each_emit _ _ _ _ Hf). unfold sys_exit.
    eexists. split; [rewrite <- !app_assoc; reflexivity|].
    split; [quiet_tac|]. repeat split; members_tac.
Qed.

Lemma posted_app tr1 tr2 : posted (tr1 ++ tr2) = posted tr1 ++ posted tr2.
Proof. apply flat_map_app. Qed.
Lemma opened_app tr1 tr2 : opened (tr1 ++ tr2) = opened tr1 ++ opened tr2.
Proof. apply flat_map_app. Qed.
Lemma answers_app tr1 tr2 : answers (tr1 ++ tr2) = answers tr1 ++ answers tr2.
Proof. apply flat_map_app. Qed.
Lemma pace_app tr1 tr2 : pace (tr1 ++ tr2) = pace tr1 ++ pace tr2.
Proof. apply flat_map_app. Qed.

Lemma quiet_silent tr :
  Forall quiet tr ->
  posted tr = [] ∧ opened tr = [] ∧ answers tr = [] ∧ pace tr = [].
Proof.
  induction 1 as [|e tr He _ (IH1 & IH2 & IH3 & IH4)]; [done|].
  unfold posted, opened, answers, pace in *. simpl.
  rewrite IH1, IH2, IH3, IH4. by destruct e.
Qed.

Lemma outcome_lines_quiet r : Forall quiet (outcome_lines r).
Proof. destruct r as [[[] ?] ?]; repeat constructor. Qed.

Lemma classify_accepted answer : fst (fst (classify answer)) = accepted answer.
Proof.
  destruct answer as [e|[status [e|v]]]; simpl; try done.
  destruct v; simpl; try done. by destruct (status =? 201).
Qed.

(** The preview in any world: it only reads and prints. *)
Lemma preview_any files tr :
  ∃ o sfx,
    preview w files tr = (o, tr ++ sfx) ∧
    posted sfx = [] ∧ answers sfx = [] ∧ pace sfx = [] ∧ read_only sfx ∧
    (∀ code, o ≠ Exit code).
Proof.
  revert tr. induction files as [|name rest IH]; intros tr.
  - exists (Ret tt), []. rewrite preview_nil, app_nil_r. repeat split; try done. constructor.
  - rewrite preview_cons.
    destruct (load w tr (issue_path name)) as [e|v].
    { eexists _, _. split; [reflexivity|]. repeat split; try done. repeat constructor. }
    destruct (title_of v) as [e|t].
    { eexists _, _. split; [reflexivity|]. repeat split; try done. repeat constructor. }
    destruct (IH (tr ++ [EOpen (issue_path name) "r" (inr v);
                         EPrint [Txt "  - "; Txt name; Txt ": "; Val t] nl]))
      as (o & sfx & -> & Hp & Ha & Hpace & Hr & Ho).
    eexists o, _. split; [rewrite <- app_assoc; reflexivity|].
    rewrite posted_app, answers_app, pace_app. unfold read_only. rewrite opened_app.
    rewrite Hp, Ha, Hpace. repeat split; try done.
    apply Forall_app. split; [repeat constructor|done].
Qed.

(** The submission loop in any world. *)
Lemma submit_any token files c f tr :
  ∃ o sfx,
    submit w token files c f tr = (o, tr ++ sfx) ∧
    answers sfx = [] ∧
    pace sfx = flat_map (fun _ => [Request; Pause 1]) (posted sfx) ∧
    read_only sfx ∧
    (∀ code, o ≠ Exit code).
Proof.
  revert c f tr. induction files as [|name rest IH]; intros c f tr.
  - eexists _, []. rewrite submit_nil, app_nil_r. repeat split; try done. constructor.
  - rewrite submit_cons.
    destruct (load w tr (issue_path name)) as [e|v].
    { eexists _, _. split; [reflexivity|]. repeat split; try done. repeat constructor. }
    cbv zeta.
    match goal with
    | |- context [submit w token rest ?c' ?f' ?tr'] =>
        destruct (IH c' f' tr') as (o & sfx & -> & Ha & Hpace & Hr & Ho)
    end.
    eexists o, _. split; [rewrite <- !app_assoc; reflexivity|].
    pose proof (quiet_silent _ (outcome_lines_quiet
      (classify (tracker w (tr ++ [EOpen (issue_path name) "r" (inr v);
          EPrint [Txt "Creating: "; Txt name; Txt "..."] " "])
        GITHUB_API_URL (request_headers token) v)))) as (Q1 & Q2 & Q3 & Q4).
    repeat split; try done.
    + rewrite answers_app. simpl. rewrite answers_app, answers_app. rewrite Q3, Ha. done.
    + rewrite pace_app, posted_app. simpl.
      rewrite !pace_app, !posted_app. rewrite Q4, Q1. simpl. by rewrite Hpace.
    + unfold read_only. rewrite opened_app. simpl. rewrite !opened_app. rewrite Q2. simpl.
      constructor; done.
Qed.

Lemma has_title_of v : has_title v = true -> ∃ t, title_of v = inr t.
Proof.
  destruct v; try done. unfold has_title, title_of. simpl.
  intros [t Ht]%bool_decide_eq_true. rewrite Ht. by exists t.
Qed.

Lemma title_of_has v e : title_of v = inl e -> has_title v = false.
Proof.
  destruct v; try done. unfold has_title, title_of. simpl.
  destruct (lookup_key "title" members) eqn:E; [done|]. intros _.
  apply bool_decide_eq_false. by intros [? ?].
Qed.

Lemma title_of_inr v t : title_of v = inr t -> has_title v = true.
Proof.
  destruct v; try done. unfold has_title, title_of. simpl.
  destruct (lookup_key "title" members) eqn:E; [|done]. intros _.
  by apply bool_decide_eq_true.
Qed.

(** The preview over records that hold still and have a title. *)
Lemma preview_ok content files tr :
  stable w files content ->
  (∀ name, In name files -> has_title (content name) = true) ->
  ∃ sfx, preview w files tr = (Ret tt, tr ++ sfx) ∧ opened sfx = reads files.
Proof.
  revert tr. induction files as [|name rest IH]; intros tr Hs Ht.
  - exists []. by rewrite preview_nil, app_nil_r.
  - rewrite preview_cons. rewrite (Hs tr name) by (by left).
    destruct (has_title_of (content name)) as [t ->]; [apply Ht; by left|].
    destruct (IH (tr ++ [EOpen (issue_path name) "r" (inr (content name));
                         EPrint [Txt "  - "; Txt name; Txt ": "; Val t] nl]))
      as (sfx & -> & Ho).
    { intros h n Hn. apply Hs. by right. }
    { intros n Hn. apply Ht. by right. }
    eexists. split; [rewrite <- app_assoc; reflexivity|].
    rewrite opened_app. simpl. by rewrite Ho.
Qed.

(** The preview stops at the first record that cannot be shown. *)
Lemma preview_bad files name tr :
  In name files ->
  (∀ h, match load w h (issue_path name) with
        | inl _ => True
        | inr v => has_title v = false
        end) ->
  ∃ e sfx, preview w files tr = (Raise e, tr ++ sfx).
Proof.
  revert tr. induction files as [|first rest IH]; intros tr Hin Hbad; [done|].
  rewrite preview_cons.
  destruct (load w tr (issue_path first)) as [e|v] eqn:Hload; [by eexists _, _|].
  destruct (title_of v) as [e|t] eqn:Htitle; [by eexists _, _|].
  destruct Hin as [->|Hin].
  - specialize (Hbad tr). rewrite Hload in Hbad.
    apply title_of_inr in Htitle. congruence.
  - destruct (IH (tr ++ [EOpen (issue_path first) "r" (inr v);
                         EPrint [Txt "  - "; Txt first; Txt ": "; Val t] nl]) Hin Hbad)
      as (e & sfx & ->).
    eexists e, _. by rewrite <- app_assoc.
Qed.

Lemma posted_turn name v token answer sfx :
  posted (turn name v token answer ++ sfx) = (v, answer) :: posted sfx.
Proof.
  unfold turn. rewrite !posted_app. simpl. rewrite !posted_app.
  destruct (quiet_silent _ (outcome_lines_quiet (classify answer))) as (-> & _). done.
Qed.

Lemma opened_turn name v token answer sfx :
  opened (turn name v token answer ++ sfx) = (issue_path name, "r") :: opened sfx.
Proof.
  unfold turn. rewrite !opened_app. simpl. rewrite !opened_app.
  destruct (quiet_silent _ (outcome_lines_quiet (classify answer))) as (_ & -> & _). done.
Qed.

(** The submission loop over records that hold still. *)
Lemma submit_ok content token files c f tr :
  stable w files content ->
  ∃ c' f' sfx,
    submit w token files c f tr = (Ret (c', f'), tr ++ sfx) ∧
    opened sfx = reads files ∧
    map fst (posted sfx) = map content files ∧
    length c' = (length c + successes (posted sfx))%nat ∧
    (length c' + length f' = length c + length f + length files)%nat ∧
    (∀ x, In x f -> In x f') ∧
    (∀ name err, In name files ->
       (∀ h hd, classify (tracker w h GITHUB_API_URL hd (content name))
                = (false, JNull, err)) ->
       In (name, err) f').
Proof.
  revert c f tr. induction files as [|name rest IH]; intros c f tr Hs.
  - exists c, f, []. rewrite submit_nil, app_nil_r. unfold successes. simpl.
    repeat split; try done; lia.
  - rewrite submit_cons. rewrite (Hs tr name) by (by left). cbv zeta.
    set (tr1 := tr ++ _).
    set (answer := tracker w tr1 _ _ _).
    destruct (IH (fst (record name (classify answer) (c, f)))
                 (snd (record name (classify answer) (c, f)))
                 (tr1 ++ EPost GITHUB_API_URL (request_headers token) (content name) answer
                      :: outcome_lines (classify answer) ++ [ESleep 1]))
      as (c' & f' & sfx & -> & Ho & Hp & Hc & Hlen & Hf & H422).
    { intros h n Hn. apply Hs. by right. }
    pose proof (quiet_silent _ (outcome_lines_quiet (classify answer)))
      as (Q1 & Q2 & Q3 & Q4).
    exists c', f', (turn name (content name) token answer ++ sfx).
    split; [subst tr1; unfold turn; rewrite <- !app_assoc; reflexivity|].
    pose proof (classify_accepted answer) as Hacc.
    rewrite posted_turn, opened_turn. unfold successes in *. simpl map.
    rewrite Ho, Hp.
    assert (Hsucc : length (filter (fun a => accepted (snd a) = true)
                              ((content name, answer) :: posted sfx))
            = ((if accepted answer then 1 else 0) + 
               length (filter (fun a => accepted (snd a) = true) (posted sfx)))%nat).
    { destruct (accepted answer) eqn:E.
      - rewrite filter_cons_True by done. done.
      - rewrite filter_cons_False; [done|]. simpl. congruence. }
    rewrite Hsucc. clear Hsucc.
    destruct (classify answer) as [[success number] result] eqn:Hcl. simpl in Hacc.
    rewrite <- Hacc.
    destruct success; simpl in *.
    + rewrite length_app in Hc, Hlen. simpl in *.
      repeat split; try done; try lia.
      intros n err [<-|Hn] Herr.
      * specialize (Herr tr1 (request_headers token)). fold answer in Herr. congruence.
      * by apply H422.
    + rewrite length_app in Hlen. simpl in *.
      repeat split; try done; try lia.
      * intros x Hx. apply Hf. apply in_or_app. by left.
      * intros n err [<-|Hn] Herr.
        -- specialize (Herr tr1 (request_headers token)). fold answer in Herr.
           assert (result = err) as -> by congruence.
           apply Hf. apply in_or_app. right. by left.
        -- by apply H422.
Qed.

Lemma get_github_token_spec tr :
  ∃ q, Forall quiet q ∧
    get_github_token w tr =
      (if falsy (environ w "GITHUB_TOKEN") then Exit 1
       else Ret (default "" (environ w "GITHUB_TOKEN")), tr ++ q).
Proof.
  unfold get_github_token, bind at 1, os_environ_get. cbv zeta.
  destruct (falsy (environ w "GITHUB_TOKEN")).
  - rewrite !bind_print. unfold sys_exit.
    eexists. split; [|rewrite <- !app_assoc; reflexivity]. repeat constructor.
  - unfold ret. eexists. split; [|reflexivity]. repeat constructor.
Qed.

(** [main] as one case analysis over what the world answers. *)
Lemma run_eq :
  let files := discovered w in
  let token := default "" (environ w "GITHUB_TOKEN") in
  ∃ pre no go, Forall quiet pre ∧ Forall quiet no ∧ Forall quiet go ∧
    run w =
      if negb (path_exists w ISSUES_DIR) || falsy (environ w "GITHUB_TOKEN")
      then (Exit 1, pre)
      else
        match preview w files pre with
        | (Ret _, tr1) =>
            match stdin_line w with
            | None => (Raise (Exn "EOFError" "EOF when reading a line"),
                       tr1 ++ [EPrint [] nl; EInput prompt None])
            | Some a =>
                if String.eqb (lower a) "y" then
                  match submit w token files [] []
                          (tr1 ++ EPrint [] nl :: EInput prompt (Some a) :: go) with
                  | (Ret (c, f), tr2) => report files c f tr2
                  | (Exit code, tr2) => (Exit code, tr2)
                  | (Raise e, tr2) => (Raise e, tr2)
                  end
                else (Exit 0, tr1 ++ EPrint [] nl :: EInput prompt (Some a) :: no)
            end
        | (Exit code, tr1) => (Exit code, tr1)
        | (Raise e, tr1) => (Raise e, tr1)
        end.
Proof.
  intros files token. unfold run, main. rewrite !bind_print.
  unfold bind at 1, os_path_exists at 1. cbv zeta.
  destruct (path_exists w ISSUES_DIR) eqn:Hdir; cbn [negb orb].
  2:{ unfold bind at 1. rewrite bind_print. unfold sys_exit.
      eexists _, [], []. split; [|split; [constructor|split; [constructor|reflexivity]]].
      repeat constructor. }
  unfold bind at 1, ret at 1. unfold bind at 1.
  match goal with |- context [get_github_token w ?tr] =>
    destruct (get_github_token_spec tr) as (q0 & Hq0 & ->) end.
  destruct (falsy (environ w "GITHUB_TOKEN")) eqn:Htok.
  { eexists _, [], []. split; [|split; [constructor|split; [constructor|reflexivity]]].
    rewrite <- !app_assoc. simpl. repeat constructor. done. }
  rewrite !bind_print. unfold bind at 1, glob at 1. cbv zeta.
  change (sorted (filter _ (scandir w ISSUES_DIR))) with files. rewrite !bind_print. fold token.
  rewrite <- !app_assoc.
  match goal with |- context [bind (preview w files) _ ?tr] => set (pre := tr) end.
  exists pre, [EPrint [Txt "Cancelled."] nl],
    [EPrint [] nl; EPrint [Txt "Creating issues..."] nl; EPrint [Txt (rule "-" 60)] nl].
  split.
  { subst pre. simpl. repeat constructor. apply Forall_app. split; [done|repeat constructor]. }
  split; [repeat constructor|]. split; [repeat constructor|].
  unfold bind at 1.
  destruct (preview w files pre) as [[[]|code|e] tr1]; [|done..].
  rewrite bind_print. unfold bind at 1, input at 1. fold prompt.
  destruct (stdin_line w) as [a|]; [|by rewrite <- !app_assoc].
  destruct (String.eqb (lower a) "y"); cbn [negb].
  - unfold bind at 1, ret at 1. rewrite !bind_print.
    rewrite <- !app_assoc. simpl app. unfold bind at 1.
    destruct (submit w token files [] [] _) as [[[c f]|code|e] tr2]; done.
  - unfold bind at 1. rewrite bind_print. unfold sys_exit.
    by rewrite <- !app_assoc.
Qed.

(** Every run is one of the cases of [run_case]. *)
Lemma run_cases : run_case w (fst (run w)) (snd (run w)).
Proof.
  destruct run_eq as (pre & no & go & Hpre & Hno & Hgo & ->).
  destruct (path_exists w ISSUES_DIR) eqn:Hdir; cbn [negb orb];
    [|apply case_setup_failed; [exact Hpre|by left]].
  destruct (falsy (environ w "GITHUB_TOKEN")) eqn:Htok;
    [apply case_setup_failed; [exact Hpre|by right]|].
  destruct (preview_any (discovered w) pre)
    as (o1 & sfx1 & Hprev & Hp1 & Ha1 & Hc1 & Hr1 & Ho1).
  rewrite Hprev.
  destruct o1 as [[]|code|e]; [|by destruct (Ho1 code)|].
  2:{ by apply case_preview_raised. }
  assert (Hat : at_prompt w pre sfx1) by (by repeat split).
  destruct (stdin_line w) as [a|] eqn:Hin; [|by apply case_no_answer].
  destruct (String.eqb (lower a) "y") eqn:Hy.
  - apply String.eqb_eq in Hy.
    destruct (submit_any (default "" (environ w "GITHUB_TOKEN")) (discovered w) [] []
                ((pre ++ sfx1) ++ EPrint [] nl :: EInput prompt (Some a) :: go))
      as (o2 & sfx2 & Hsub & Ha2 & Hc2 & Hr2 & Ho2).
    rewrite Hsub.
    destruct o2 as [[c f]|code|e]; [|by destruct (Ho2 code)|].
    + destruct (report_spec (discovered w) c f
                  (((pre ++ sfx1) ++ EPrint [] nl :: EInput prompt (Some a) :: go) ++ sfx2))
        as (sfx3 & -> & Hq3 & _).
      cbn [fst snd]. by eapply case_reported.
    + cbn [fst snd]. by eapply case_loop_raised.
  - apply String.eqb_neq in Hy. cbn [fst snd]. by apply case_declined.
Qed.

End Lemmas.

(** ** Runs *)

Lemma quiet_no_answer (tr : trace) : Forall quiet tr -> answers tr = [].
Proof. intros H. by destruct (quiet_silent tr H) as (_ & _ & -> & _). Qed.

Lemma quiet_no_post (tr : trace) : Forall quiet tr -> posted tr = [].
Proof. intros H. by destruct (quiet_silent tr H) as (-> & _). Qed.

Lemma quiet_no_beat (tr : trace) : Forall quiet tr -> pace tr = [].
Proof. intros H. by destruct (quiet_silent tr H) as (_ & _ & _ & ->). Qed.

Lemma quiet_no_open (tr : trace) : Forall quiet tr -> opened tr = [].
Proof. intros H. by destruct (quiet_silent tr H) as (_ & -> & _). Qed.

Lemma answers_In tr p a : In (EInput p a) tr -> In a (answers tr).
Proof.
  intros H. unfold answers. apply in_flat_map. exists (EInput p a). split; [done|by left].
Qed.

(** Up to the prompt nothing is posted and nothing answered. *)
Lemma at_prompt_silent w pre sfx1 :
  at_prompt w pre sfx1 ->
  posted (pre ++ sfx1) = [] ∧ answers (pre ++ sfx1) = [] ∧ pace (pre ++ sfx1) = [].
Proof.
  intros (Hpre & _ & _ & _ & (Hp & Ha & Hc) & _).
  rewrite posted_app, answers_app, pace_app, Hp, Ha, Hc.
  by rewrite (quiet_no_post pre), (quiet_no_answer pre), (quiet_no_beat pre).
Qed.

Lemma after_prompt_silent w pre sfx1 a q :
  at_prompt w pre sfx1 -> Forall quiet q ->
  posted ((pre ++ sfx1) ++ EPrint [] nl :: EInput prompt a :: q) = [] ∧
  answers ((pre ++ sfx1) ++ EPrint [] nl :: EInput prompt a :: q) = [a] ∧
  pace ((pre ++ sfx1) ++ EPrint [] nl :: EInput prompt a :: q) = [].
Proof.
  intros Hat Hq. destruct (at_prompt_silent w pre sfx1 Hat) as (Hp & Ha & Hc).
  rewrite posted_app, answers_app, pace_app, Hp, Ha, Hc.
  change (posted q = [] ∧ a :: answers q = [a] ∧ pace q = []).
  by rewrite (quiet_no_post q Hq), (quiet_no_answer q Hq), (quiet_no_beat q Hq).
Qed.

(** C5. If the directory of records does not exist or the token is not in
    the environment, the run ends with exit status 1 and has issued no
    create-request. *)
Theorem fatal_setup_errors_before_network (w : World) :
  path_exists w ISSUES_DIR = false ∨ environ w "GITHUB_TOKEN" = None ->
  fst (run w) = Exit 1 ∧
  exit_status (fst (run w)) ≠ 0 ∧
  posted (snd (run w)) = [].
Proof.
  intros H.
  assert (Hfail : path_exists w ISSUES_DIR = false ∨
                  falsy (environ w "GITHUB_TOKEN") = true).
  { destruct H as [H|H]; [by left|right; by rewrite H]. }
  destruct (run_cases w) as
    [ pre Hpre _
    | pre sfx1 e _ Hdir Htok _ _ _
    | pre sfx1 (_ & Hdir & Htok & _) _
    | pre sfx1 a q (_ & Hdir & Htok & _) _ _ _
    | pre sfx1 a q sfx2 e (_ & Hdir & Htok & _) _ _ _ _ _ _
    | pre sfx1 a q sfx2 c f sfx3 (_ & Hdir & Htok & _) _ _ _ _ _ _ _ ];
    try (destruct Hfail; congruence).
  cbn. by rewrite (quiet_no_post pre).
Qed.

Lemma fatal_setup_errors_before_network_witness :
  (path_exists tokenless_world ISSUES_DIR = false ∨
   environ tokenless_world "GITHUB_TOKEN" = None) ∧
  fst (run tokenless_world) = Exit 1 ∧
  exit_status (fst (run tokenless_world)) ≠ 0 ∧
  posted (snd (run tokenless_world)) = [].
Proof.
  assert (H : path_exists tokenless_world ISSUES_DIR = false ∨
              environ tokenless_world "GITHUB_TOKEN" = None)
    by (right; reflexivity).
  split; [exact H|].
  exact (fatal_setup_errors_before_network tokenless_world H).
Defined.

(** C6. Whenever the operator's answer at the prompt is anything but [y]
    or [Y], the run ends with exit status 0 and has issued no
    create-request; and a run that did issue one has, before the first,
    an answer that lowers to [y]. *)
Theorem declined_confirmation_no_network (w : World) :
  (∀ a, In (EInput prompt (Some a)) (snd (run w)) -> lower a ≠ "y" ->
     fst (run w) = Exit 0 ∧ posted (snd (run w)) = []) ∧
  (posted (snd (run w)) ≠ [] ->
     ∃ before a after,
       snd (run w) = before ++ EInput prompt (Some a) :: after ∧
       lower a = "y" ∧
       posted before = []).
Proof.
  destruct (run_cases w) as
    [ pre Hpre _
    | pre sfx1 e Hpre _ _ _ (Hp1 & Ha1 & _) _
    | pre sfx1 Hat _
    | pre sfx1 a' q Hat _ Hno Hq
    | pre sfx1 a' q sfx2 e Hat _ Hyes Hq _ (Ha2 & _) _
    | pre sfx1 a' q sfx2 c f sfx3 Hat _ Hyes Hq _ (Ha2 & _) _ Hq3 ].
  - split.
    + intros a Hin%answers_In. rewrite (quiet_no_answer pre Hpre) in Hin. destruct Hin.
    + intros H. destruct H. apply (quiet_no_post pre Hpre).
  - assert (Hp : posted (pre ++ sfx1) = [])
      by (by rewrite posted_app, Hp1, (quiet_no_post pre Hpre)).
    split.
    + intros a Hin%answers_In.
      rewrite answers_app, Ha1, (quiet_no_answer pre Hpre) in Hin. destruct Hin.
    + intros H. by destruct H.
  - destruct (at_prompt_silent w pre sfx1 Hat) as (Hp & Ha & _). split.
    + intros a Hin%answers_In. rewrite answers_app, Ha in Hin.
      destruct Hin as [Hin|[]]. discriminate Hin.
    + intros H. destruct H. by rewrite posted_app, Hp.
  - destruct (after_prompt_silent w pre sfx1 (Some a') q Hat Hq) as (Hp & _).
    split; [by intros _ _ _|]. intros H. by destruct H.
  - destruct (after_prompt_silent w pre sfx1 (Some a') q Hat Hq) as (_ & Ha & _).
    destruct (at_prompt_silent w pre sfx1 Hat) as (Hp & _). split.
    + intros a Hin%answers_In.
      rewrite answers_app, Ha, Ha2 in Hin.
      destruct Hin as [[= <-]|[]]. intros Hne. by destruct Hne.
    + intros _. exists ((pre ++ sfx1) ++ [EPrint [] nl]), a', (q ++ sfx2).
      split; [by rewrite <- !app_assoc|]. split; [exact Hyes|].
      by rewrite posted_app, Hp.
  - destruct (after_prompt_silent w pre sfx1 (Some a') q Hat Hq) as (_ & Ha & _).
    destruct (at_prompt_silent w pre sfx1 Hat) as (Hp & _). split.
    + intros a Hin%answers_In.
      rewrite (answers_app _ sfx3), (answers_app _ sfx2) in Hin.
      rewrite Ha, Ha2, (quiet_no_answer sfx3 Hq3) in Hin.
      destruct Hin as [[= <-]|[]]. intros Hne. by destruct Hne.
    + intros _. exists ((pre ++ sfx1) ++ [EPrint [] nl]), a', (q ++ sfx2 ++ sfx3).
      split; [by rewrite <- !app_assoc|]. split; [exact Hyes|].
      by rewrite posted_app, Hp.
Qed.

(** C9. In every run, whatever the tracker answers, the requests and the
    pauses alternate: each create-request is followed by a pause of one
    second before the next, the same after a success and after a failure. *)
Theorem fixed_pause_after_each_request (w : World) :
  pace (snd (run w)) =
    flat_map (fun _ => [Request; Pause 1]) (posted (snd (run w))).
Proof.
  destruct (run_cases w) as
    [ pre Hpre _
    | pre sfx1 e Hpre _ _ _ (Hp1 & _ & Hc1) _
    | pre sfx1 Hat _
    | pre sfx1 a' q Hat _ Hno Hq
    | pre sfx1 a' q sfx2 e Hat _ Hyes Hq _ (_ & Hc2) _
    | pre sfx1 a' q sfx2 c f sfx3 Hat _ Hyes Hq _ (_ & Hc2) _ Hq3 ].
  - by rewrite (quiet_no_post pre Hpre), (quiet_no_beat pre Hpre).
  - rewrite posted_app, pace_app, Hp1, Hc1.
    by rewrite (quiet_no_post pre Hpre), (quiet_no_beat pre Hpre).
  - destruct (at_prompt_silent w pre sfx1 Hat) as (Hp & _ & Hc).
    by rewrite posted_app, pace_app, Hp, Hc.
  - destruct (after_prompt_silent w pre sfx1 (Some a') q Hat Hq) as (Hp & _ & Hc).
    by rewrite Hp, Hc.
  - destruct (after_prompt_silent w pre sfx1 (Some a') q Hat Hq) as (Hp & _ & Hc).
    by rewrite posted_app, pace_app, Hp, Hc.
  - destruct (after_prompt_silent w pre sfx1 (Some a') q Hat Hq) as (Hp & _ & Hc).
    rewrite (posted_app _ sfx3), (pace_app _ sfx3), (posted_app _ sfx2), (pace_app _ sfx2).
    rewrite Hp, Hc, (quiet_no_post sfx3 Hq3), (quiet_no_beat sfx3 Hq3), !app_nil_r.
    exact Hc2.
Qed.

Lemma declined_confirmation_no_network_witness :
  (In (EInput prompt (Some "n")) (snd (run declined_world)) ∧
   lower "n" ≠ "y" ∧
   fst (run declined_world) = Exit 0 ∧ posted (snd (run declined_world)) = []) ∧
  (posted (snd (run two_of_three)) ≠ [] ∧
   ∃ before a after,
     snd (run two_of_three) = before ++ EInput prompt (Some a) :: after ∧
     lower a = "y" ∧
     posted before = []).
Proof.
  assert (H1 : In (EInput prompt (Some "n")) (snd (run declined_world))).
  { vm_compute. repeat (first [left; reflexivity | right]). }
  assert (H2 : lower "n" ≠ "y") by (vm_compute; discriminate).
  assert (H3 : posted (snd (run two_of_three)) ≠ []) by (vm_compute; discriminate).
  split.
  - split; [exact H1|]. split; [exact H2|].
    exact (proj1 (declined_confirmation_no_network declined_world) "n" H1 H2).
  - split; [exact H3|].
    exact (proj2 (declined_confirmation_no_network two_of_three) H3).
Defined.

(** A full run: the records hold still and the operator says yes. *)
Lemma run_full w content :
  ready w content -> confirmed w ->
  ∃ pre sfx1 mid (c : list (string * json * json)) (f : list (string * json))
    sfx2 sfx3,
    run w = (if nonempty f then Exit 1 else Ret tt,
             pre ++ sfx1 ++ mid ++ sfx2 ++ sfx3) ∧
    Forall quiet pre ∧
    opened sfx1 = reads (discovered w) ∧ posted sfx1 = [] ∧
    opened mid = [] ∧ posted mid = [] ∧
    opened sfx2 = reads (discovered w) ∧
    map fst (posted sfx2) = map content (discovered w) ∧
    length c = successes (posted sfx2) ∧
    (length c + length f = length (discovered w))%nat ∧
    (∀ name err, In name (discovered w) ->
       (∀ h hd, classify (tracker w h GITHUB_API_URL hd (content name))
                = (false, JNull, err)) ->
       In (name, err) f) ∧
    Forall quiet sfx3 ∧
    In (EPrint [Txt "Total issues: "; Txt (len (discovered w))] nl) sfx3 ∧
    In (EPrint [Txt "Created:      "; Txt (len c); Txt " ✓"] nl) sfx3 ∧
    In (EPrint [Txt "Failed:       "; Txt (len f); Txt " ✗"] nl) sfx3 ∧
    (∀ x, In x f -> In (failed_line x) sfx3).
Proof.
  intros (Hdir & Htok & Hst & Htitle) (a & Hin & Hy).
  destruct (run_eq w) as (pre & no & go & Hpre & Hno & Hgo & ->).
  rewrite Hdir, Htok. cbn [negb orb].
  destruct (preview_ok w content (discovered w) pre Hst Htitle) as (sfx1 & Hprev & Ho1).
  destruct (preview_any w (discovered w) pre) as (o1 & sfx1' & Heq & Hp1 & _).
  rewrite Hprev in Heq |- *.
  assert (sfx1' = sfx1) as ->.
  { injection Heq as _ Heq. by apply app_inv_head in Heq. }
  rewrite Hin, Hy, String.eqb_refl.
  destruct (submit_ok w content (default "" (environ w "GITHUB_TOKEN")) (discovered w)
              [] [] ((pre ++ sfx1) ++ EPrint [] nl :: EInput prompt (Some a) :: go) Hst)
    as (c & f & sfx2 & -> & Ho2 & Hp2 & Hc & Hlen & _ & H422).
  destruct (report_spec (discovered w) c f
              (((pre ++ sfx1) ++ EPrint [] nl :: EInput prompt (Some a) :: go) ++ sfx2))
    as (sfx3 & -> & Hq3 & Ht & Hcr & Hfa & _ & Hfl).
  exists pre, sfx1, (EPrint [] nl :: EInput prompt (Some a) :: go), c, f, sfx2, sfx3.
  split; [by rewrite <- !app_assoc|].
  assert (Ho : opened (EPrint [] nl :: EInput prompt (Some a) :: go) = [])
    by (change (opened go = []); by apply quiet_no_open).
  assert (Hp : posted (EPrint [] nl :: EInput prompt (Some a) :: go) = [])
    by (change (posted go = []); by apply quiet_no_post).
  repeat split; done.
Qed.

Lemma posted_run_full pre sfx1 mid sfx2 sfx3 :
  Forall quiet pre -> posted sfx1 = [] -> posted mid = [] -> Forall quiet sfx3 ->
  posted (pre ++ sfx1 ++ mid ++ sfx2 ++ sfx3) = posted sfx2.
Proof.
  intros Hpre H1 Hmid H3.
  rewrite !posted_app, H1, Hmid, (quiet_no_post pre Hpre), (quiet_no_post sfx3 H3).
  by rewrite app_nil_r.
Qed.

(** C1. In a run that reaches the submission loop over N records, where
    the tracker accepts K of the create-requests and rejects or fails the
    others, N requests are made, the summary prints total N, created K and
    failed N-K, and the exit status is non-zero exactly when N-K > 0; with
    no failure the script runs to its end. *)
Theorem summary_counts_and_exit_status (w : World) (content : string -> json) :
  ready w content -> confirmed w ->
  let N := length (discovered w) in
  let K := successes (posted (snd (run w))) in
  length (posted (snd (run w))) = N ∧
  (K <= N)%nat ∧
  In (EPrint [Txt "Total issues: "; Txt (str_int (Z.of_nat N))] nl) (snd (run w)) ∧
  In (EPrint [Txt "Created:      "; Txt (str_int (Z.of_nat K)); Txt " ✓"] nl)
     (snd (run w)) ∧
  In (EPrint [Txt "Failed:       "; Txt (str_int (Z.of_nat (N - K))); Txt " ✗"] nl)
     (snd (run w)) ∧
  (exit_status (fst (run w)) ≠ 0 <-> (N - K > 0)%nat) ∧
  ((N - K = 0)%nat -> fst (run w) = Ret tt).
Proof.
  intros Hready Hyes N K.
  destruct (run_full w content Hready Hyes)
    as (pre & sfx1 & mid & c & f & sfx2 & sfx3 & Hrun & Hpre & _ & Hp1 & _ & Hpm & _ &
        Hdata & Hc & Hlen & _ & Hq3 & Ht & Hcr & Hfa & _).
  assert (Hposted : posted (snd (run w)) = posted sfx2).
  { rewrite Hrun. cbn [snd]. by apply posted_run_full. }
  assert (HN : length (posted sfx2) = N).
  { unfold N. rewrite <- (length_map fst), Hdata. apply length_map. }
  assert (Hin : ∀ e, In e sfx3 -> In e (snd (run w))).
  { intros e He. rewrite Hrun. cbn [snd]. rewrite !in_app_iff. tauto. }
  subst K. rewrite Hposted, <- Hc.
  assert (Hf : (N - length c)%nat = length f) by (unfold N; lia).
  rewrite Hf.
  split; [exact HN|]. split; [unfold N; lia|].
  split; [by apply Hin|]. split; [by apply Hin|]. split; [by apply Hin|].
  rewrite Hrun. cbn [fst]. destruct f as [|x f]; cbn [nonempty exit_status length].
  - split; [split; [done|lia]|done].
  - split; [split; [lia|done]|lia].
Qed.

Lemma ready_world_with names answer reply :
  ready (world_with names answer reply) content_of.
Proof.
  split; [reflexivity|]. split; [reflexivity|]. split.
  - intros h name _. reflexivity.
  - intros name _. reflexivity.
Qed.

Lemma summary_counts_and_exit_status_witness :
  ready two_of_three content_of ∧ confirmed two_of_three ∧
  length (posted (snd (run two_of_three))) = 3%nat ∧
  In (EPrint [Txt "Total issues: "; Txt "3"] nl) (snd (run two_of_three)) ∧
  In (EPrint [Txt "Created:      "; Txt "2"; Txt " ✓"] nl) (snd (run two_of_three)) ∧
  In (EPrint [Txt "Failed:       "; Txt "1"; Txt " ✗"] nl) (snd (run two_of_three)) ∧
  exit_status (fst (run two_of_three)) ≠ 0.
Proof.
  assert (Hr : ready two_of_three content_of) by apply ready_world_with.
  assert (Hc : confirmed two_of_three) by (exists "y"; split; reflexivity).
  split; [exact Hr|]. split; [exact Hc|].
  pose proof (summary_counts_and_exit_status two_of_three content_of Hr Hc) as H.
  cbv zeta in H.
  change (length (discovered two_of_three)) with 3%nat in H.
  assert (HK : successes (posted (snd (run two_of_three))) = 2%nat)
    by (vm_compute; reflexivity).
  rewrite HK in H.
  destruct H as (H1 & _ & H2 & H3 & H4 & H5 & _).
  split; [exact H1|]. split; [exact H2|]. split; [exact H3|]. split; [exact H4|].
  apply H5. vm_compute. lia.
Defined.

(** [create_issue] always returns: whatever [requests.post] or the
    decoding of the answer raises ends as a result. *)
Lemma create_issue_returns w token data filename tr :
  ∃ r tr', create_issue w token data filename tr = (Ret r, tr').
Proof. rewrite create_issue_eq. by eexists _, _. Qed.

(** C3. In a run that reaches the submission loop, whatever the tracker
    answers or raises, the create-requests made are exactly one per
    discovered record, in order, each carrying what the record holds; no
    exception leaves the run; and [create_issue] itself always returns a
    result. *)
Theorem every_record_attempted_once (w : World) (content : string -> json) :
  ready w content -> confirmed w ->
  map fst (posted (snd (run w))) = map content (discovered w) ∧
  (∀ e, fst (run w) ≠ Raise e) ∧
  (fst (run w) = Ret tt ∨ fst (run w) = Exit 1) ∧
  (∀ token data filename tr,
     ∃ r tr', create_issue w token data filename tr = (Ret r, tr')).
Proof.
  intros Hready Hyes.
  destruct (run_full w content Hready Hyes)
    as (pre & sfx1 & mid & c & f & sfx2 & sfx3 & Hrun & Hpre & _ & Hp1 & _ & Hpm & _ &
        Hdata & _ & _ & _ & Hq3 & _).
  rewrite Hrun. cbn [fst snd].
  rewrite (posted_run_full pre sfx1 mid sfx2 sfx3 Hpre Hp1 Hpm Hq3).
  split; [exact Hdata|]. split; [by destruct (nonempty f)|].
  split; [destruct (nonempty f); [by right|by left]|].
  apply create_issue_returns.
Qed.

Lemma every_record_attempted_once_witness :
  ready failing_world content_of ∧ confirmed failing_world ∧
  map fst (posted (snd (run failing_world))) = map content_of (discovered failing_world) ∧
  (∀ e, fst (run failing_world) ≠ Raise e).
Proof.
  assert (Hr : ready failing_world content_of) by apply ready_world_with.
  assert (Hc : confirmed failing_world) by (exists "y"; split; reflexivity).
  split; [exact Hr|]. split; [exact Hc|].
  destruct (every_record_attempted_once failing_world content_of Hr Hc) as (H1 & H2 & _).
  split; [exact H1|exact H2].
Defined.

(** C4. How [create_issue] classifies the answer to a create-request:
    status 201 with a JSON object gives success with the object's [number]
    and [html_url]; any other status with a JSON object gives failure with
    its [message], or ["Unknown error"] without one; an exception (raised
    by the transport, or by decoding the answer) gives failure with the
    text of the exception; a JSON body that is no object gives failure
    with the text of the [AttributeError].  A 422 answer with message
    ["validation failed"] gives that text, and in a run the summary lists
    the record's file name with it. *)
Theorem create_issue_classification
        (w : World) (token : string) (data : json) (filename : string) (tr : trace) :
  let answer := tracker w tr GITHUB_API_URL (request_headers token) data in
  let result := fst (create_issue w token data filename tr) in
  (∀ members,
     answer = inr {| status_code := 201; json_result := inr (JObj members) |} ->
     result = Ret (true, from_option id JNull (lookup_key "number" members),
                         from_option id JNull (lookup_key "html_url" members))) ∧
  (∀ status members,
     status ≠ 201 ->
     answer = inr {| status_code := status; json_result := inr (JObj members) |} ->
     result = Ret (false, JNull,
                   from_option id (JStr "Unknown error") (lookup_key "message" members))) ∧
  (∀ e, answer = inl e -> result = Ret (false, JNull, JStr (exn_str e))) ∧
  (∀ status e,
     answer = inr {| status_code := status; json_result := inl e |} ->
     result = Ret (false, JNull, JStr (exn_str e))) ∧
  (∀ status v,
     answer = inr {| status_code := status; json_result := inr v |} ->
     type_name v ≠ "dict" ->
     result = Ret (false, JNull,
                   JStr ("'" +:+ type_name v +:+ "' object has no attribute 'get'"))) ∧
  (answer = validation_failed ->
     result = Ret (false, JNull, JStr "validation failed")) ∧
  (∀ content name,
     ready w content -> confirmed w -> In name (discovered w) ->
     (∀ h hd, tracker w h GITHUB_API_URL hd (content name) = validation_failed) ->
     In (EPrint [Txt "  "; Txt name; Txt ": "; Val (JStr "validation failed")] nl)
        (snd (run w))).
Proof.
  intros answer result. subst result. rewrite create_issue_eq. cbn [fst]. fold answer.
  split; [by intros members ->|].
  split.
  { intros status members Hs ->. cbn. by rewrite (proj2 (Z.eqb_neq status 201) Hs). }
  split; [by intros e ->|].
  split; [by intros status e ->|].
  split.
  { intros status v -> Hv. destruct v; try reflexivity. by destruct Hv. }
  split; [by intros ->|].
  intros content name Hready Hyes Hname H422.
  destruct (run_full w content Hready Hyes)
    as (pre & sfx1 & mid & c & f & sfx2 & sfx3 & Hrun & _ & _ & _ & _ & _ & _ & _ & _ & _ &
        Hfailed & _ & _ & _ & _ & Hlines).
  rewrite Hrun. cbn [snd]. rewrite !in_app_iff. do 4 right.
  apply (Hlines (name, JStr "validation failed")).
  apply Hfailed; [exact Hname|]. intros h hd. by rewrite H422.
Qed.

Lemma create_issue_classification_witness :
  fst (create_issue varied_world "t0ken" JNull "f.json" (after_requests 0))
    = Ret (true, JInt 100, JStr "https://tracker.example/issue") ∧
  fst (create_issue varied_world "t0ken" JNull "f.json" (after_requests 1))
    = Ret (false, JNull, JStr "validation failed") ∧
  fst (create_issue varied_world "t0ken" JNull "f.json" (after_requests 2))
    = Ret (false, JNull, JStr "Connection refused") ∧
  fst (create_issue varied_world "t0ken" JNull "f.json" (after_requests 3))
    = Ret (false, JNull, JStr "Expecting value") ∧
  fst (create_issue varied_world "t0ken" JNull "f.json" (after_requests 4))
    = Ret (false, JNull, JStr "'list' object has no attribute 'get'") ∧
  In (EPrint [Txt "  "; Txt "phase1-issue02.json"; Txt ": ";
              Val (JStr "validation failed")] nl)
     (snd (run rejecting_world)).
Proof.
  pose proof (create_issue_classification varied_world "t0ken" JNull "f.json") as H.
  split; [exact (proj1 (H (after_requests 0)) _ eq_refl)|].
  split.
  { refine (proj1 (proj2 (H (after_requests 1))) 422 _ _ eq_refl). lia. }
  split; [exact (proj1 (proj2 (proj2 (H (after_requests 2)))) _ eq_refl)|].
  split; [exact (proj1 (proj2 (proj2 (proj2 (H (after_requests 3))))) _ _ eq_refl)|].
  split.
  { refine (proj1 (proj2 (proj2 (proj2 (proj2 (H (after_requests 4)))))) _ _ eq_refl _).
    vm_compute. discriminate. }
  refine (proj2 (proj2 (proj2 (proj2 (proj2 (proj2
            (create_issue_classification rejecting_world "t0ken" JNull "f.json" []))))))
          content_of "phase1-issue02.json" _ _ _ _).
  - apply ready_world_with.
  - exists "y"; split; reflexivity.
  - vm_compute. tauto.
  - intros h hd. reflexivity.
Defined.

(** The records read by a run, in any world, are opened for reading. *)
Lemma run_read_only w : read_only (snd (run w)).
Proof.
  unfold read_only.
  destruct (run_cases w) as
    [ pre Hpre _
    | pre sfx1 e Hpre _ _ _ _ Hr1
    | pre sfx1 (Hpre & _ & _ & _ & _ & Hr1) _
    | pre sfx1 a' q (Hpre & _ & _ & _ & _ & Hr1) _ Hno Hq
    | pre sfx1 a' q sfx2 e (Hpre & _ & _ & _ & _ & Hr1) _ Hyes Hq _ _ Hr2
    | pre sfx1 a' q sfx2 c f sfx3 (Hpre & _ & _ & _ & _ & Hr1) _ Hyes Hq _ _ Hr2 Hq3 ].
  - rewrite (quiet_no_open pre Hpre). constructor.
  - by rewrite opened_app, (quiet_no_open pre Hpre).
  - rewrite !opened_app, (quiet_no_open pre Hpre). cbn. by rewrite app_nil_r.
  - rewrite !opened_app, (quiet_no_open pre Hpre).
    change (Forall (fun pm => snd pm = "r") ([] ++ opened sfx1 ++ opened q)).
    by rewrite (quiet_no_open q Hq), app_nil_r.
  - rewrite !opened_app, (quiet_no_open pre Hpre).
    change (Forall (fun pm => snd pm = "r") ((([] ++ opened sfx1) ++ opened q) ++ opened sfx2)).
    rewrite (quiet_no_open q Hq), app_nil_r. apply Forall_app. by split.
  - rewrite !opened_app, (quiet_no_open pre Hpre), (quiet_no_open sfx3 Hq3).
    change (Forall (fun pm => snd pm = "r")
              (((([] ++ opened sfx1) ++ opened q) ++ opened sfx2) ++ [])).
    rewrite (quiet_no_open q Hq), !app_nil_r. apply Forall_app. by split.
Qed.

Lemma issue_path_inj a b : issue_path a = issue_path b -> a = b.
Proof. unfold issue_path. intros H. by repeat apply String.app_inj in H. Qed.

Lemma reads_none files name :
  ¬ In name files ->
  filter (fun pm => fst pm = issue_path name) (reads files) = [].
Proof.
  induction files as [|first rest IH]; [done|]. intros Hnot. cbn [reads map].
  rewrite filter_cons_False.
  - apply IH. intros Hin. apply Hnot. by right.
  - cbn. intros Heq%issue_path_inj. apply Hnot. by left.
Qed.

Lemma reads_once files name :
  NoDup files -> In name files ->
  length (filter (fun pm => fst pm = issue_path name) (reads files)) = 1%nat.
Proof.
  induction 1 as [|first rest Hfirst Hnd IH]; [done|].
  intros [->|Hin]; cbn [reads map].
  - rewrite filter_cons_True by done. cbn [length]. f_equal.
    fold (reads rest). rewrite reads_none; [done|].
    intros Hin. apply Hfirst. by apply list_elem_of_In.
  - rewrite filter_cons_False.
    + by apply IH.
    + cbn. intros Heq%issue_path_inj. subst first. apply Hfirst. by apply list_elem_of_In.
Qed.

Lemma discovered_NoDup w : NoDup (scandir w ISSUES_DIR) -> NoDup (discovered w).
Proof.
  intros Hnd. unfold discovered, discover, sorted.
  rewrite merge_sort_Permutation. by apply NoDup_filter.
Qed.

(** C8 as written, a full run reading each record exactly once, fails: the
    preview reads it and the loop reads it again. *)
Lemma record_not_read_once :
  In "phase1-issue01.json" (discovered two_of_three) ∧
  fst (run two_of_three) = Exit 1 ∧
  times_read (issue_path "phase1-issue01.json") (snd (run two_of_three)) = 2%nat ∧
  times_read (issue_path "phase1-issue01.json") (snd (run two_of_three)) ≠ 1%nat.
Proof.
  split; [vm_compute; tauto|]. split; [vm_compute; reflexivity|].
  split; [vm_compute; reflexivity|]. vm_compute. discriminate.
Qed.

(** C8, amended. In every run each file the submitter opens is opened for
    reading, never for writing.  In a full run over records that hold
    still, the files opened are the discovered records, all of them for
    the preview and all of them again for the loop: each record is read
    exactly twice. *)
Theorem records_read_twice_never_written (w : World) (content : string -> json) :
  read_only (snd (run w)) ∧
  (ready w content -> confirmed w ->
   opened (snd (run w)) = reads (discovered w) ++ reads (discovered w) ∧
   (NoDup (scandir w ISSUES_DIR) ->
    ∀ name, In name (discovered w) ->
      times_read (issue_path name) (snd (run w)) = 2%nat)).
Proof.
  split; [apply run_read_only|]. intros Hready Hyes.
  destruct (run_full w content Hready Hyes)
    as (pre & sfx1 & mid & c & f & sfx2 & sfx3 & Hrun & Hpre & Ho1 & _ & Hom & _ & Ho2 &
        _ & _ & _ & _ & Hq3 & _).
  assert (Hopened : opened (snd (run w)) = reads (discovered w) ++ reads (discovered w)).
  { rewrite Hrun. cbn [snd].
    rewrite !opened_app, Ho1, Hom, Ho2, (quiet_no_open pre Hpre), (quiet_no_open sfx3 Hq3).
    by rewrite app_nil_r. }
  split; [exact Hopened|].
  intros Hnd name Hname. unfold times_read. rewrite Hopened, filter_app, length_app.
  by rewrite (reads_once _ _ (discovered_NoDup w Hnd) Hname).
Qed.

Lemma records_read_twice_never_written_witness :
  ready two_of_three content_of ∧ confirmed two_of_three ∧
  NoDup (scandir two_of_three ISSUES_DIR) ∧
  In "phase2-issue01.json" (discovered two_of_three) ∧
  read_only (snd (run two_of_three)) ∧
  times_read (issue_path "phase2-issue01.json") (snd (run two_of_three)) = 2%nat.
Proof.
  assert (Hr : ready two_of_three content_of) by apply ready_world_with.
  assert (Hc : confirmed two_of_three) by (exists "y"; split; reflexivity).
  assert (Hnd : NoDup (scandir two_of_three ISSUES_DIR)).
  { apply (bool_decide_unpack _). vm_compute. exact I. }
  assert (Hin : In "phase2-issue01.json" (discovered two_of_three))
    by (vm_compute; tauto).
  split; [exact Hr|]. split; [exact Hc|]. split; [exact Hnd|]. split; [exact Hin|].
  destruct (records_read_twice_never_written two_of_three content_of) as [H1 H2].
  split; [exact H1|].
  exact (proj2 (H2 Hr Hc) Hnd "phase2-issue01.json" Hin).
Defined.

(** C10. Reading the records is not isolated.  If some discovered record
    cannot be shown (the file is unreadable or not JSON, or the value has
    no [title]), the run ends in an uncaught exception before the prompt
    and before any create-request.  In the loop too, a record that cannot
    be read raises out of the loop: nothing is recorded for it and the
    records after it are not attempted. *)
Theorem unreadable_record_aborts_run (w : World) :
  (path_exists w ISSUES_DIR = true ->
   falsy (environ w "GITHUB_TOKEN") = false ->
   ∀ name, In name (discovered w) ->
     (∀ h, unshowable (load w h (issue_path name))) ->
     ∃ e, fst (run w) = Raise e ∧
          answers (snd (run w)) = [] ∧
          posted (snd (run w)) = []) ∧
  (∀ token name rest created failed tr e,
     load w tr (issue_path name) = inl e ->
     submit w token (name :: rest) created failed tr
       = (Raise e, tr ++ [EOpen (issue_path name) "r" (inl e)])).
Proof.
  split.
  - intros Hdir Htok name Hname Hbad.
    destruct (run_eq w) as (pre & no & go & Hpre & _ & _ & ->).
    rewrite Hdir, Htok. cbn [negb orb].
    destruct (preview_bad w (discovered w) name pre Hname Hbad) as (e & sfx & Hprev).
    destruct (preview_any w (discovered w) pre) as (o & sfx' & Heq & Hp & Ha & _).
    rewrite Heq in Hprev. injection Hprev as -> Hsfx. apply app_inv_head in Hsfx. subst sfx'.
    rewrite Heq. exists e. cbn [fst snd].
    rewrite answers_app, posted_app, Hp, Ha.
    by rewrite (quiet_no_answer pre Hpre), (quiet_no_post pre Hpre).
  - intros token name rest created failed tr e Hload.
    rewrite submit_cons. by rewrite Hload.
Qed.

Lemma unreadable_record_aborts_run_witness :
  (path_exists broken_world ISSUES_DIR = true ∧
   falsy (environ broken_world "GITHUB_TOKEN") = false ∧
   In "phase1-issue01.json" (discovered broken_world) ∧
   (∀ h, unshowable (load broken_world h (issue_path "phase1-issue01.json"))) ∧
   ∃ e, fst (run broken_world) = Raise e ∧
        answers (snd (run broken_world)) = [] ∧
        posted (snd (run broken_world)) = []) ∧
  (load vanishing_world (after_requests 1) (issue_path "phase1-issue02.json")
     = inl (Exn "FileNotFoundError"
              "[Errno 2] No such file or directory: 'github-issues/phase1-issue02.json'") ∧
   fst (submit vanishing_world "t0ken" ["phase1-issue02.json"; "phase2-issue01.json"]
          [] [] (after_requests 1))
     = Raise (Exn "FileNotFoundError"
                "[Errno 2] No such file or directory: 'github-issues/phase1-issue02.json'")).
Proof.
  split.
  - assert (H1 : path_exists broken_world ISSUES_DIR = true) by reflexivity.
    assert (H2 : falsy (environ broken_world "GITHUB_TOKEN") = false) by reflexivity.
    assert (H3 : In "phase1-issue01.json" (discovered broken_world))
      by (vm_compute; tauto).
    assert (H4 : ∀ h, unshowable (load broken_world h (issue_path "phase1-issue01.json")))
      by (intros h; exact I).
    split; [exact H1|]. split; [exact H2|]. split; [exact H3|]. split; [exact H4|].
    exact (proj1 (unreadable_record_aborts_run broken_world) H1 H2 _ H3 H4).
  - assert (H : load vanishing_world (after_requests 1) (issue_path "phase1-issue02.json")
                = inl (Exn "FileNotFoundError"
                  "[Errno 2] No such file or directory: 'github-issues/phase1-issue02.json'"))
      by reflexivity.
    split; [exact H|].
    rewrite (proj2 (unreadable_record_aborts_run vanishing_world) "t0ken"
               "phase1-issue02.json" ["phase2-issue01.json"] [] [] (after_requests 1) _ H).
    reflexivity.
Defined.

(** The second record vanishes after the first request: the run dies in
    the loop with one request made and two records never attempted. *)
Example vanishing_record_aborts_loop :
  fst (run vanishing_world)
    = Raise (Exn "FileNotFoundError"
               "[Errno 2] No such file or directory: 'github-issues/phase1-issue02.json'") ∧
  map fst (posted (snd (run vanishing_world)))
    = [titled "github-issues/phase1-issue01.json"] ∧
  length (discovered vanishing_world) = 3%nat.
Proof. vm_compute. repeat split. Qed.

(** The scenario of the specification: three records, a tracker that
    numbers what it creates from 100. *)
Example three_created :
  let tr := snd (run (world_with three_names (Some "y") (accept_first 3))) in
  fst (run (world_with three_names (Some "y") (accept_first 3))) = Ret tt ∧
  In (EPrint [Txt "Created:      "; Txt "3"; Txt " ✓"] nl) tr ∧
  In (EPrint [Txt "Failed:       "; Txt "0"; Txt " ✗"] nl) tr ∧
  In (EPrint [Txt "  #"; Val (JInt 100); Txt ": "; Txt "phase1-issue01.json"] nl) tr ∧
  In (EPrint [Txt "  #"; Val (JInt 101); Txt ": "; Txt "phase1-issue02.json"] nl) tr ∧
  In (EPrint [Txt "  #"; Val (JInt 102); Txt ": "; Txt "phase2-issue01.json"] nl) tr.
Proof.
  vm_compute. split; [reflexivity|]. repeat split; tauto.
Qed.

(** * Further properties of the three scripts *)

(** X1. Without the directory the run is the banner, the one test for the
    directory and the error line, then exit status 1: the environment, the
    directory listing, the records, the operator and the tracker are left
    alone, also when the token is missing too. *)
Theorem missing_directory_run (w : World) :
  path_exists w ISSUES_DIR = false ->
  run w = (Exit 1,
           banner ++
           [EExists ISSUES_DIR false;
            EPrint [Txt "❌ Error: "; Txt ISSUES_DIR; Txt " directory not found"] nl]).
Proof.
  intros Hdir. unfold run, main. rewrite !bind_print.
  unfold bind at 1, os_path_exists at 1. cbv zeta. rewrite Hdir. cbn [negb].
  unfold bind at 1. rewrite bind_print. reflexivity.
Qed.

Lemma missing_directory_run_witness :
  path_exists bare_world ISSUES_DIR = false ∧
  run bare_world =
    (Exit 1,
     banner ++
     [EExists ISSUES_DIR false;
      EPrint [Txt "❌ Error: "; Txt ISSUES_DIR; Txt " directory not found"] nl]).
Proof.
  split; [reflexivity|]. apply missing_directory_run. reflexivity.
Defined.

(** X2. A token that is missing or set to the empty string stops the run
    the same way: after the test for the directory and the one look into
    the environment the guidance on how to get and export a token is
    printed and the exit status is 1; no directory listing, no record, no
    prompt, no request. *)
Theorem missing_or_empty_token_run (w : World) :
  path_exists w ISSUES_DIR = true ->
  environ w "GITHUB_TOKEN" = None ∨ environ w "GITHUB_TOKEN" = Some "" ->
  run w = (Exit 1,
           banner ++
           [EExists ISSUES_DIR true;
            EGetenv "GITHUB_TOKEN" (environ w "GITHUB_TOKEN")] ++
           token_guidance).
Proof.
  intros Hdir Htok. unfold run, main. rewrite !bind_print.
  unfold bind at 1, os_path_exists at 1. cbv zeta. rewrite Hdir. cbn [negb].
  unfold bind at 1, ret at 1. unfold bind at 1.
  unfold get_github_token, bind at 1, os_environ_get at 1. cbv zeta.
  assert (Hf : falsy (environ w "GITHUB_TOKEN") = true)
    by (destruct Htok as [-> | ->]; reflexivity).
  rewrite Hf. rewrite !bind_print. reflexivity.
Qed.

Lemma missing_or_empty_token_run_witness :
  path_exists empty_token_world ISSUES_DIR = true ∧
  (environ empty_token_world "GITHUB_TOKEN" = None ∨
   environ empty_token_world "GITHUB_TOKEN" = Some "") ∧
  run empty_token_world =
    (Exit 1,
     banner ++
     [EExists ISSUES_DIR true; EGetenv "GITHUB_TOKEN" (Some "")] ++ token_guidance).
Proof.
  assert (H1 : path_exists empty_token_world ISSUES_DIR = true) by reflexivity.
  assert (H2 : environ empty_token_world "GITHUB_TOKEN" = None ∨
               environ empty_token_world "GITHUB_TOKEN" = Some "")
    by (right; reflexivity).
  split; [exact H1|]. split; [exact H2|].
  exact (missing_or_empty_token_run empty_token_world H1 H2).
Defined.

Lemma requests_app tr1 tr2 : requests (tr1 ++ tr2) = requests tr1 ++ requests tr2.
Proof. apply flat_map_app. Qed.

Lemma quiet_no_request (tr : trace) : Forall quiet tr -> requests tr = [].
Proof.
  induction 1 as [|e tr He _ IH]; [reflexivity|].
  unfold requests in *. cbn [flat_map]. rewrite IH. by destruct e.
Qed.

Lemma requests_posted tr : length (requests tr) = length (posted tr).
Proof.
  induction tr as [|e tr IH]; [reflexivity|].
  unfold requests, posted in *. cbn [flat_map]. rewrite !length_app, IH. by destruct e.
Qed.

Lemma requests_turn name v token answer sfx :
  requests (turn name v token answer ++ sfx)
    = (GITHUB_API_URL, request_headers token) :: requests sfx.
Proof.
  unfold turn. rewrite !requests_app. cbn [requests flat_map app].
  rewrite !requests_app. fold (requests (outcome_lines (classify answer))).
  by rewrite (quiet_no_request _ (outcome_lines_quiet (classify answer))).
Qed.

(** The files the preview opens are discovered records. *)
Lemma preview_opens w files tr o sfx :
  preview w files tr = (o, tr ++ sfx) ->
  ∀ p m, In (p, m) (opened sfx) -> ∃ name, In name files ∧ p = issue_path name.
Proof.
  revert tr sfx o. induction files as [|name rest IH]; intros tr sfx o.
  - rewrite preview_nil. intros [= _ Hsfx] p m Hin.
    rewrite <- (app_nil_r tr) in Hsfx at 1. apply app_inv_head in Hsfx. by subst sfx.
  - rewrite preview_cons.
    destruct (load w tr (issue_path name)) as [e|v].
    { intros [= _ Hsfx] p m Hin. apply app_inv_head in Hsfx. subst sfx.
      destruct Hin as [[= <- _]|[]]. exists name. split; [by left|done]. }
    destruct (title_of v) as [e|t].
    { intros [= _ Hsfx] p m Hin. apply app_inv_head in Hsfx. subst sfx.
      destruct Hin as [[= <- _]|[]]. exists name. split; [by left|done]. }
    intros Hrun p m Hin.
    destruct (preview_any w rest
                (tr ++ [EOpen (issue_path name) "r" (inr v);
                        EPrint [Txt "  - "; Txt name; Txt ": "; Val t] nl]))
      as (o' & sfx' & Hrest & _).
    rewrite Hrest in Hrun. injection Hrun as _ Hsfx.
    rewrite <- app_assoc in Hsfx. apply app_inv_head in Hsfx. subst sfx.
    rewrite opened_app in Hin. apply in_app_iff in Hin as [Hin|Hin].
    + destruct Hin as [[= <- _]|[]]. exists name. split; [by left|done].
    + destruct (IH _ _ _ Hrest p m Hin) as (n & Hn & ->). exists n. split; [by right|done].
Qed.

(** The loop in any world: where its requests go, how many there are, the
    files it opens, and what the lists hold when it returns. *)
Lemma submit_bounds w token files c f tr o sfx :
  submit w token files c f tr = (o, tr ++ sfx) ->
  Forall (fun r => r = (GITHUB_API_URL, request_headers token)) (requests sfx) ∧
  (length (posted sfx) <= length files)%nat ∧
  (∀ p m, In (p, m) (opened sfx) -> ∃ name, In name files ∧ p = issue_path name) ∧
  (∀ c' f', o = Ret (c', f') ->
     length (posted sfx) = length files ∧
     length c' = (length c + successes (posted sfx))%nat ∧
     (length c' + length f' = length c + length f + length files)%nat).
Proof.
  revert c f tr sfx o. induction files as [|name rest IH]; intros c f tr sfx o.
  - rewrite submit_nil. intros [= <- Hsfx].
    rewrite <- (app_nil_r tr) in Hsfx at 1. apply app_inv_head in Hsfx. subst sfx.
    split; [constructor|]. split; [done|]. split; [by intros p m []|].
    intros c' f' [= <- <-]. unfold successes. cbn. lia.
  - rewrite submit_cons.
    destruct (load w tr (issue_path name)) as [e|v].
    { intros [= <- Hsfx]. apply app_inv_head in Hsfx. subst sfx.
      split; [constructor|]. split; [cbn; lia|]. split; [|by intros c' f' [=]].
      intros p m [[= <- _]|[]]. exists name. split; [by left|done]. }
    cbv zeta. set (tr1 := tr ++ _). set (answer := tracker w tr1 _ _ _).
    intros Hrun.
    destruct (submit_any w token rest
                (fst (record name (classify answer) (c, f)))
                (snd (record name (classify answer) (c, f)))
                (tr1 ++ EPost GITHUB_API_URL (request_headers token) v answer
                     :: outcome_lines (classify answer) ++ [ESleep 1]))
      as (o' & sfx' & Hrest & _).
    rewrite Hrest in Hrun. injection Hrun as -> Hsfx.
    assert (sfx = turn name v token answer ++ sfx') as ->.
    { subst tr1. unfold turn. rewrite <- !app_assoc in Hsfx.
      apply app_inv_head in Hsfx. rewrite <- Hsfx. by rewrite <- !app_assoc. }
    destruct (IH _ _ _ _ _ Hrest) as (Hreq & Hlen & Hopen & Hret).
    rewrite requests_turn, posted_turn, opened_turn.
    split; [by constructor|]. split; [cbn; lia|]. split.
    + intros p m [[= <- _]|Hin]; [exists name; split; [by left|done]|].
      destruct (Hopen p m Hin) as (n & Hn & ->). exists n. split; [by right|done].
    + intros c' f' ->. destruct (Hret c' f' eq_refl) as (H1 & H2 & H3).
      pose proof (classify_accepted answer) as Hacc.
      unfold successes in *. cbn [length].
      destruct (classify answer) as [[success number] result]. cbn in Hacc. subst success.
      destruct (accepted answer) eqn:E; cbn [record fst snd] in H2, H3.
      * rewrite filter_cons_True by done. rewrite length_app in H2, H3. cbn in *. lia.
      * rewrite filter_cons_False by (cbn; congruence).
        rewrite length_app in H3. cbn in *. lia.
Qed.

Lemma no_post_no_request tr : posted tr = [] -> requests tr = [].
Proof.
  intros H. apply length_zero_iff_nil. by rewrite requests_posted, H.
Qed.

(** Every trace of [main], whichever way the run goes, cut at the preview
    and at the loop: only these two stretches open files, only the second
    talks to the tracker. *)
Lemma run_shape w :
  ∃ pre sfx1 mid sfx2 sfx3,
    snd (run w) = pre ++ sfx1 ++ mid ++ sfx2 ++ sfx3 ∧
    (posted pre = [] ∧ opened pre = []) ∧
    (posted sfx1 = [] ∧
     ∀ p m, In (p, m) (opened sfx1) -> ∃ name, In name (discovered w) ∧ p = issue_path name) ∧
    (posted mid = [] ∧ opened mid = []) ∧
    (sfx2 = [] ∨
     ∃ o tr, submit w (default "" (environ w "GITHUB_TOKEN")) (discovered w) [] [] tr
             = (o, tr ++ sfx2)) ∧
    (posted sfx3 = [] ∧ opened sfx3 = []).
Proof.
  destruct (run_cases w) as
    [ pre Hpre _
    | pre sfx1 e Hpre _ _ Hprev (Hp1 & _) _
    | pre sfx1 (Hpre & _ & _ & Hprev & (Hp1 & _) & _) _
    | pre sfx1 a q (Hpre & _ & _ & Hprev & (Hp1 & _) & _) _ _ Hq
    | pre sfx1 a q sfx2 e (Hpre & _ & _ & Hprev & (Hp1 & _) & _) _ _ Hq Hsub _ _
    | pre sfx1 a q sfx2 c f sfx3 (Hpre & _ & _ & Hprev & (Hp1 & _) & _) _ _ Hq Hsub _ _ Hq3 ].
  - exists pre, [], [], [], []. rewrite !app_nil_r.
    split; [done|]. split; [by rewrite (quiet_no_post pre), (quiet_no_open pre)|].
    split; [split; [done|by intros p m []]|]. split; [done|]. split; [by left|done].
  - exists pre, sfx1, [], [], []. rewrite !app_nil_r.
    split; [done|]. split; [by rewrite (quiet_no_post pre), (quiet_no_open pre)|].
    split; [split; [done|by apply (preview_opens _ _ _ _ _ Hprev)]|].
    split; [done|]. split; [by left|done].
  - exists pre, sfx1, [EPrint [] nl; EInput prompt None], [], [].
    split; [by rewrite <- !app_assoc|].
    split; [by rewrite (quiet_no_post pre), (quiet_no_open pre)|].
    split; [split; [done|by apply (preview_opens _ _ _ _ _ Hprev)]|].
    split; [done|]. split; [by left|done].
  - exists pre, sfx1, (EPrint [] nl :: EInput prompt (Some a) :: q), [], [].
    split; [by rewrite <- !app_assoc, !app_nil_r|].
    split; [by rewrite (quiet_no_post pre), (quiet_no_open pre)|].
    split; [split; [done|by apply (preview_opens _ _ _ _ _ Hprev)]|].
    split.
    { split; [change (posted q = []); by apply quiet_no_post
             |change (opened q = []); by apply quiet_no_open]. }
    split; [by left|done].
  - exists pre, sfx1, (EPrint [] nl :: EInput prompt (Some a) :: q), sfx2, [].
    split; [by rewrite <- !app_assoc, !app_nil_r|].
    split; [by rewrite (quiet_no_post pre), (quiet_no_open pre)|].
    split; [split; [done|by apply (preview_opens _ _ _ _ _ Hprev)]|].
    split.
    { split; [change (posted q = []); by apply quiet_no_post
             |change (opened q = []); by apply quiet_no_open]. }
    split; [right; by eexists _, _|done].
  - exists pre, sfx1, (EPrint [] nl :: EInput prompt (Some a) :: q), sfx2, sfx3.
    split; [by rewrite <- !app_assoc|].
    split; [by rewrite (quiet_no_post pre), (quiet_no_open pre)|].
    split; [split; [done|by apply (preview_opens _ _ _ _ _ Hprev)]|].
    split.
    { split; [change (posted q = []); by apply quiet_no_post
             |change (opened q = []); by apply quiet_no_open]. }
    split; [right; by eexists _, _|].
    by rewrite (quiet_no_post sfx3), (quiet_no_open sfx3).
Qed.

(** X3. In every run every create-request goes to the one address of the
    tracker's issues and carries the three headers of [create_issue], the
    [Authorization] header built from the token found in the environment;
    nothing is posted anywhere else. *)
Theorem requests_go_to_the_tracker (w : World) :
  Forall (fun r => r = (GITHUB_API_URL,
                        [("Authorization", "token " +:+ default "" (environ w "GITHUB_TOKEN"));
                         ("Accept", "application/vnd.github.v3+json");
                         ("Content-Type", "application/json")]))
         (requests (snd (run w))).
Proof.
  destruct (run_shape w)
    as (pre & sfx1 & mid & sfx2 & sfx3 & -> & (Hp0 & _) & (Hp1 & _) & (Hpm & _) & H2 & (Hp3 & _)).
  rewrite !requests_app.
  rewrite (no_post_no_request pre Hp0), (no_post_no_request sfx1 Hp1),
    (no_post_no_request mid Hpm), (no_post_no_request sfx3 Hp3), app_nil_r.
  cbn [app]. destruct H2 as [->|(o & tr & Hsub)]; [constructor|].
  exact (proj1 (submit_bounds _ _ _ _ _ _ _ _ Hsub)).
Qed.

(** X4. In every run, whatever the tracker answers and however the records
    change underneath, there are at most as many create-requests as
    discovered records: no request is retried. *)
Theorem no_request_is_retried (w : World) :
  (length (posted (snd (run w))) <= length (discovered w))%nat.
Proof.
  destruct (run_shape w)
    as (pre & sfx1 & mid & sfx2 & sfx3 & -> & (Hp0 & _) & (Hp1 & _) & (Hpm & _) & H2 & (Hp3 & _)).
  rewrite !posted_app, Hp0, Hp1, Hpm, Hp3, app_nil_r. cbn [app].
  destruct H2 as [->|(o & tr & Hsub)]; [cbn; lia|].
  exact (proj1 (proj2 (submit_bounds _ _ _ _ _ _ _ _ Hsub))).
Qed.

Lemma append_cons c s t : String c s +:+ t = String c (s +:+ t).
Proof. reflexivity. Qed.

Lemma length_append s t :
  String.length (s +:+ t) = (String.length s + String.length t)%nat.
Proof. induction s as [|c s IH]; [reflexivity|]. rewrite append_cons. cbn. by rewrite IH. Qed.

Lemma substring_over s k :
  (String.length s <= k)%nat -> String.substring 0 k s = s.
Proof.
  revert k. induction s as [|c s IH]; intros k Hk; [by destruct k|].
  destruct k as [|k]; [cbn in Hk; lia|]. cbn. rewrite IH; [done|]. cbn in Hk. lia.
Qed.

Lemma substring_split s n k :
  (n <= String.length s)%nat -> (String.length s <= n + k)%nat ->
  String.substring 0 n s +:+ String.substring n k s = s.
Proof.
  revert s. induction n as [|n IH]; intros s Hn Hk.
  - replace (String.substring 0 0 s) with "" by (by destruct s).
    change ("" +:+ String.substring 0 k s) with (String.substring 0 k s).
    by apply substring_over.
  - destruct s as [|c s]; [cbn in Hn; lia|]. cbn [String.substring].
    rewrite append_cons. f_equal. apply IH; cbn in *; lia.
Qed.

Lemma substring_suffix m t :
  String.substring (String.length m) (String.length t) (m +:+ t) = t.
Proof.
  induction m as [|c m IH]; [apply substring_over; lia|].
  rewrite append_cons. cbn. exact IH.
Qed.

(** A string ends with a suffix when it is something followed by it. *)
Lemma ends_with_spec suffix s :
  ends_with suffix s = true <-> ∃ m, s = m +:+ suffix.
Proof.
  unfold ends_with. split.
  - intros H%String.eqb_eq.
    exists (String.substring 0 (String.length s - String.length suffix) s).
    rewrite H at 2. symmetry. apply substring_split; lia.
  - intros [m ->]. apply String.eqb_eq.
    rewrite length_append.
    replace (String.length m + String.length suffix - String.length suffix)%nat
      with (String.length m) by lia.
    symmetry. apply substring_suffix.
Qed.

(** The names the pattern [phase*.json] matches. *)
Lemma glob_match_spec name :
  glob_match name = true <-> ∃ middle, name = "phase" +:+ middle +:+ ".json".
Proof.
  unfold glob_match. rewrite andb_true_iff. split.
  - intros [Hp He].
    destruct name as [|c1 [|c2 [|c3 [|c4 [|c5 rest]]]]]; cbn in Hp;
      repeat match type of Hp with
             | (if ?d then _ else _) = true => destruct d as [<-|]; [|discriminate Hp]
             end;
      try discriminate Hp.
    cbn [String.length Nat.sub String.substring] in He.
    rewrite substring_over in He by lia.
    apply ends_with_spec in He as [m ->]. by exists m.
  - intros [middle ->].
    change ("phase" +:+ middle +:+ ".json")
      with (String "p" (String "h" (String "a" (String "s" (String "e" (middle +:+ ".json")))))).
    split.
    { apply String.prefix_correct. cbn. by destruct (middle +:+ ".json"). }
    cbn [String.length Nat.sub String.substring].
    rewrite substring_over by lia. apply ends_with_spec. by exists middle.
Qed.

Lemma discovered_In w name :
  In name (discovered w) <->
  In name (scandir w ISSUES_DIR) ∧ glob_match name = true.
Proof.
  unfold discovered, discover, sorted. rewrite <- !list_elem_of_In.
  rewrite merge_sort_Permutation. rewrite list_elem_of_filter. tauto.
Qed.

(** X5. In every run, every file the submitter opens is an entry of the
    directory [github-issues] whose name starts with [phase] and ends with
    [.json], and it is opened for reading: other entries of the directory
    and files elsewhere are never touched. *)
Theorem only_matching_records_opened (w : World) (path mode : string) :
  In (path, mode) (opened (snd (run w))) ->
  mode = "r" ∧
  ∃ middle,
    path = "github-issues/phase" +:+ middle +:+ ".json" ∧
    In ("phase" +:+ middle +:+ ".json") (scandir w ISSUES_DIR).
Proof.
  intros Hin. split.
  { pose proof (run_read_only w) as Hr. unfold read_only in Hr.
    rewrite Forall_forall in Hr. apply (Hr (path, mode)). by apply list_elem_of_In. }
  destruct (run_shape w)
    as (pre & sfx1 & mid & sfx2 & sfx3 & Heq & (_ & Ho0) & (_ & Ho1) & (_ & Hom) & H2 & (_ & Ho3)).
  rewrite Heq in Hin. rewrite !opened_app, Ho0, Hom, Ho3, app_nil_r in Hin. cbn [app] in Hin.
  assert (Hname : ∃ name, In name (discovered w) ∧ path = issue_path name).
  { apply in_app_iff in Hin as [Hin|Hin]; [by apply (Ho1 path mode)|].
    destruct H2 as [->|(o & tr & Hsub)]; [by destruct Hin|].
    exact (proj1 (proj2 (proj2 (submit_bounds _ _ _ _ _ _ _ _ Hsub))) path mode Hin). }
  destruct Hname as (name & Hname & ->).
  apply discovered_In in Hname as [Hdir Hglob].
  apply glob_match_spec in Hglob as [middle ->]. exists middle. split; [reflexivity|done].
Qed.

Lemma only_matching_records_opened_witness :
  In ("github-issues/phase1-issue02.json", "r") (opened (snd (run two_of_three))) ∧
  ∃ middle,
    "github-issues/phase1-issue02.json" = "github-issues/phase" +:+ middle +:+ ".json" ∧
    In ("phase" +:+ middle +:+ ".json") (scandir two_of_three ISSUES_DIR).
Proof.
  assert (H : In ("github-issues/phase1-issue02.json", "r")
                 (opened (snd (run two_of_three)))) by (vm_compute; tauto).
  split; [exact H|].
  exact (proj2 (only_matching_records_opened two_of_three _ _ H)).
Defined.

(** X6. What exit status 0 tells, in every world: either the operator
    declined and nothing was sent, or the script ran to its end and then
    one request was made for every discovered record and the tracker
    accepted every one of them. *)
Theorem zero_exit_status_means (w : World) :
  exit_status (fst (run w)) = 0 ->
  (fst (run w) = Exit 0 ∧
   (∃ a, stdin_line w = Some a ∧ lower a ≠ "y") ∧
   posted (snd (run w)) = []) ∨
  (fst (run w) = Ret tt ∧
   length (posted (snd (run w))) = length (discovered w) ∧
   successes (posted (snd (run w))) = length (discovered w)).
Proof.
  destruct (run_cases w) as
    [ pre Hpre _
    | pre sfx1 e Hpre _ _ _ _ _
    | pre sfx1 Hat _
    | pre sfx1 a q Hat Hin Hno Hq
    | pre sfx1 a q sfx2 e Hat _ _ Hq _ _ _
    | pre sfx1 a q sfx2 c f sfx3 Hat _ _ Hq Hsub _ _ Hq3 ];
    cbn [exit_status]; try discriminate.
  - intros _. left. split; [done|]. split; [by exists a|].
    exact (proj1 (after_prompt_silent w pre sfx1 (Some a) q Hat Hq)).
  - destruct f as [|x f]; cbn [nonempty exit_status]; [|discriminate].
    intros _. right. split; [done|].
    destruct (proj2 (proj2 (proj2 (submit_bounds _ _ _ _ _ _ _ _ Hsub))) c [] eq_refl)
      as (Hn & Hc & Hlen).
    assert (Hp : posted ((((pre ++ sfx1) ++ EPrint [] nl :: EInput prompt (Some a) :: q)
                            ++ sfx2) ++ sfx3) = posted sfx2).
    { rewrite (posted_app _ sfx3), (posted_app _ sfx2).
      rewrite (proj1 (after_prompt_silent w pre sfx1 (Some a) q Hat Hq)).
      by rewrite (quiet_no_post sfx3 Hq3), app_nil_r. }
    rewrite Hp. split; [exact Hn|]. cbn in Hc, Hlen. lia.
Qed.

Lemma zero_exit_status_means_witness :
  exit_status (fst (run (world_with three_names (Some "Y") (accept_first 3)))) = 0 ∧
  length (posted (snd (run (world_with three_names (Some "Y") (accept_first 3))))) = 3%nat ∧
  successes (posted (snd (run (world_with three_names (Some "Y") (accept_first 3))))) = 3%nat.
Proof.
  assert (H : exit_status (fst (run (world_with three_names (Some "Y") (accept_first 3)))) = 0)
    by (vm_compute; reflexivity).
  split; [exact H|].
  destruct (zero_exit_status_means _ H) as [(Hexit & _)|(_ & H1 & H2)].
  - vm_compute in Hexit. discriminate Hexit.
  - split; [exact H1|exact H2].
Defined.

(** X7. When standard input is at its end there is no cancelling: the run
    sends nothing and ends with exit status 1, not the 0 of a declined
    prompt; if it got as far as the prompt, it ends there in an uncaught
    [EOFError]. *)
Theorem closed_stdin_is_an_error (w : World) :
  stdin_line w = None ->
  exit_status (fst (run w)) = 1 ∧
  posted (snd (run w)) = [] ∧
  (answers (snd (run w)) ≠ [] ->
   fst (run w) = Raise (Exn "EOFError" "EOF when reading a line")).
Proof.
  intros Hin.
  destruct (run_cases w) as
    [ pre Hpre _
    | pre sfx1 e Hpre _ _ _ (Hp1 & Ha1 & _) _
    | pre sfx1 Hat _
    | pre sfx1 a q Hat Hin' _ _
    | pre sfx1 a q sfx2 e Hat Hin' _ _ _ _ _
    | pre sfx1 a q sfx2 c f sfx3 Hat Hin' _ _ _ _ _ _ ];
    try congruence; cbn [fst snd exit_status].
  - split; [done|]. split; [by apply quiet_no_post|].
    intros H. destruct H. by apply quiet_no_answer.
  - split; [done|]. rewrite posted_app, answers_app, Hp1, Ha1.
    rewrite (quiet_no_post pre Hpre), (quiet_no_answer pre Hpre). split; [done|].
    intros H. by destruct H.
  - destruct (at_prompt_silent w pre sfx1 Hat) as (Hp & _).
    split; [done|]. split; [by rewrite posted_app, Hp|done].
Qed.

Lemma closed_stdin_is_an_error_witness :
  stdin_line unattended_world = None ∧
  exit_status (fst (run unattended_world)) = 1 ∧
  posted (snd (run unattended_world)) = [] ∧
  fst (run unattended_world) = Raise (Exn "EOFError" "EOF when reading a line").
Proof.
  assert (H : stdin_line unattended_world = None) by reflexivity.
  destruct (closed_stdin_is_an_error unattended_world H) as (H1 & H2 & H3).
  split; [exact H|]. split; [exact H1|]. split; [exact H2|].
  apply H3. vm_compute. discriminate.
Defined.

Lemma run_from_setup w :
  path_exists w ISSUES_DIR = true ->
  falsy (environ w "GITHUB_TOKEN") = false ->
  let files := discovered w in
  let token := default "" (environ w "GITHUB_TOKEN") in
  run w =
    match preview w files (setup w) with
    | (Ret _, tr1) =>
        match stdin_line w with
        | None => (Raise (Exn "EOFError" "EOF when reading a line"),
                   tr1 ++ [EPrint [] nl; EInput prompt None])
        | Some a =>
            if String.eqb (lower a) "y" then
              match submit w token files [] []
                      (tr1 ++ EPrint [] nl :: EInput prompt (Some a) :: loop_header) with
              | (Ret (c, f), tr2) => report files c f tr2
              | (Exit code, tr2) => (Exit code, tr2)
              | (Raise e, tr2) => (Raise e, tr2)
              end
            else (Exit 0, tr1 ++ [EPrint [] nl; EInput prompt (Some a);
                                  EPrint [Txt "Cancelled."] nl])
        end
    | (Exit code, tr1) => (Exit code, tr1)
    | (Raise e, tr1) => (Raise e, tr1)
    end.
Proof.
  intros Hdir Htok files token. unfold run, main. rewrite !bind_print.
  unfold bind at 1, os_path_exists at 1. cbv zeta. rewrite Hdir. cbn [negb].
  unfold bind at 1, ret at 1. unfold bind at 1.
  unfold get_github_token, bind at 1, os_environ_get at 1. cbv zeta.
  rewrite Htok. unfold ret at 1.
  rewrite !bind_print. unfold bind at 1, glob at 1. cbv zeta.
  change (sorted (filter _ (scandir w ISSUES_DIR))) with files. rewrite !bind_print. fold token.
  rewrite <- !app_assoc.
  change ([] ++ ?l) with l.
  match goal with |- context [bind (preview w files) _ ?tr] =>
    change tr with (setup w) end.
  unfold bind at 1.
  destruct (preview w files (setup w)) as [[[]|code|e] tr1]; [|reflexivity..].
  rewrite bind_print. unfold bind at 1, input at 1. fold prompt.
  destruct (stdin_line w) as [a|]; [|by rewrite <- !app_assoc].
  destruct (String.eqb (lower a) "y"); cbn [negb].
  - unfold bind at 1, ret at 1. rewrite !bind_print.
    rewrite <- !app_assoc. simpl app. unfold bind at 1.
    destruct (submit w token files [] [] _) as [[[c f]|code|e] tr2]; reflexivity.
  - unfold bind at 1. rewrite bind_print. unfold sys_exit.
    by rewrite <- !app_assoc.
Qed.

Lemma preview_shown w content files tr :
  stable w files content ->
  (∀ name, In name files -> has_title (content name) = true) ->
  preview w files tr = (Ret tt, tr ++ shown content files).
Proof.
  revert tr. induction files as [|name rest IH]; intros tr Hs Ht.
  - by rewrite preview_nil, app_nil_r.
  - rewrite preview_cons. rewrite (Hs tr name) by (by left).
    destruct (has_title_of (content name)) as [t Htitle]; [apply Ht; by left|].
    rewrite Htitle. rewrite IH.
    + unfold shown. cbn [flat_map]. rewrite Htitle. by rewrite <- app_assoc.
    + intros h n Hn. apply Hs. by right.
    + intros n Hn. apply Ht. by right.
Qed.

(** X8. Before the operator is asked anything, the title of every
    discovered record has been shown: in a world with the directory, a
    token and readable, titled records, the run starts with the setup
    lines, then reads each discovered record and prints its name and title,
    in discovery order, and only then prompts, whatever the answer will
    be. *)
Theorem every_title_shown_before_prompt (w : World) (content : string -> json) :
  ready w content ->
  ∃ rest,
    snd (run w) =
      setup w ++ shown content (discovered w) ++
      EPrint [] nl :: EInput prompt (stdin_line w) :: rest.
Proof.
  intros (Hdir & Htok & Hst & Htitle).
  rewrite (run_from_setup w Hdir Htok). cbv zeta.
  rewrite (preview_shown w content (discovered w) (setup w) Hst Htitle).
  destruct (stdin_line w) as [a|].
  - destruct (String.eqb (lower a) "y").
    + destruct (submit_any w (default "" (environ w "GITHUB_TOKEN")) (discovered w) [] []
                  ((setup w ++ shown content (discovered w)) ++
                   EPrint [] nl :: EInput prompt (Some a) :: loop_header))
        as (o & sfx2 & Hsub & _).
      rewrite Hsub.
      destruct o as [[c f]|code|e].
      * destruct (report_spec (discovered w) c f
                    (((setup w ++ shown content (discovered w)) ++
                      EPrint [] nl :: EInput prompt (Some a) :: loop_header) ++ sfx2))
          as (sfx3 & -> & _).
        exists (loop_header ++ sfx2 ++ sfx3). cbn [snd].
        by rewrite <- !app_assoc.
      * exists (loop_header ++ sfx2). cbn [snd]. by rewrite <- !app_assoc.
      * exists (loop_header ++ sfx2). cbn [snd]. by rewrite <- !app_assoc.
    + exists [EPrint [Txt "Cancelled."] nl]. cbn [snd]. by rewrite <- !app_assoc.
  - exists []. cbn [snd]. by rewrite <- !app_assoc.
Qed.

Lemma every_title_shown_before_prompt_witness :
  ready declined_world content_of ∧
  ∃ rest,
    snd (run declined_world) =
      setup declined_world ++ shown content_of (discovered declined_world) ++
      EPrint [] nl :: EInput prompt (Some "n") :: rest.
Proof.
  assert (H : ready declined_world content_of) by apply ready_world_with.
  split; [exact H|].
  exact (every_title_shown_before_prompt declined_world content_of H).
Defined.

Lemma sorted_nil_inv l : sorted l = [] -> l = [].
Proof.
  unfold sorted. intros H. apply Permutation_nil_r.
  rewrite <- H. by rewrite merge_sort_Permutation.
Qed.

(** X9. A directory without a matching record is no error: the operator
    is still asked, and on [y] the loop makes no request, the summary
    counts 0, 0 and 0, the success line is printed and the script runs to
    its end. *)
Theorem empty_batch_run (w : World) (a : string) :
  path_exists w ISSUES_DIR = true ->
  falsy (environ w "GITHUB_TOKEN") = false ->
  discovered w = [] ->
  stdin_line w = Some a -> lower a = "y" ->
  run w =
    (Ret tt,
     banner ++
     [EExists ISSUES_DIR true;
      EGetenv "GITHUB_TOKEN" (environ w "GITHUB_TOKEN");
      EPrint [Txt "✓ GitHub token found"] nl;
      EPrint [] nl;
      EGlob ISSUES_DIR "phase*.json" [];
      EPrint [Txt "Found "; Txt "0"; Txt " issue files"] nl;
      EPrint [] nl;
      EPrint [Txt "This will create the following issues:"] nl;
      EPrint [] nl;
      EInput prompt (Some a)] ++
     loop_header ++ empty_summary).
Proof.
  intros Hdir Htok Hnone Hin Hy.
  rewrite (run_from_setup w Hdir Htok). cbv zeta.
  unfold setup. rewrite Hnone.
  rewrite (sorted_nil_inv _ Hnone).
  rewrite preview_nil, Hin, Hy, String.eqb_refl, submit_nil.
  unfold report. rewrite !bind_print. cbn [nonempty].
  unfold bind at 1 2, ret at 1 2. rewrite !bind_print.
  unfold print, emit. rewrite <- !app_assoc. reflexivity.
Qed.

Lemma empty_batch_run_witness :
  discovered no_records_world = [] ∧
  fst (run no_records_world) = Ret tt ∧
  posted (snd (run no_records_world)) = [].
Proof.
  assert (H : discovered no_records_world = []) by (vm_compute; reflexivity).
  split; [exact H|].
  rewrite (empty_batch_run no_records_world "Y" eq_refl eq_refl H eq_refl eq_refl).
  split; reflexivity.
Defined.

Lemma report_eq files c f tr :
  report files c f tr = (if nonempty f then Exit 1 else Ret tt, tr ++ summary files c f).
Proof.
  unfold report, summary. rewrite !bind_print.
  assert (Hc : ∀ x tr, (let '(filename, number, url) := x in
               print [Txt "  #"; Val number; Txt ": "; Txt filename]) tr
             = (Ret tt, tr ++ [created_line x])) by (by intros [[??]?] ?).
  assert (Hf : ∀ x tr, (let '(filename, error) := x in
               print [Txt "  "; Txt filename; Txt ": "; Val error]) tr
             = (Ret tt, tr ++ [failed_line x])) by (by intros [??] ?).
  destruct c as [|c0 c], f as [|f0 f]; cbn [nonempty].
  - unfold bind at 1 2, ret at 1 2. rewrite !bind_print. unfold print, emit.
    cbn [app]. rewrite <- !app_assoc. reflexivity.
  - unfold bind at 1, ret at 1. unfold bind at 1. rewrite !bind_print.
    rewrite (for_each_emit _ _ _ _ Hf). unfold sys_exit.
    cbn [app]. rewrite <- !app_assoc. reflexivity.
  - unfold bind at 1. rewrite !bind_print.
    rewrite (bind_for_each_emit _ _ _ _ _ Hc). rewrite !bind_print.
    unfold print at 1, emit at 1. unfold bind at 1, ret at 1. rewrite !bind_print.
    unfold print, emit.
    cbn [app]. rewrite <- !app_assoc. reflexivity.
  - unfold bind at 1. rewrite !bind_print.
    rewrite (bind_for_each_emit _ _ _ _ _ Hc). rewrite !bind_print.
    unfold print at 1, emit at 1. unfold bind at 1. rewrite !bind_print.
    rewrite (for_each_emit _ _ _ _ Hf). unfold sys_exit.
    cbn [app]. rewrite <- !app_assoc. reflexivity.
Qed.

Lemma created_of_app rs1 rs2 : created_of (rs1 ++ rs2) = created_of rs1 ++ created_of rs2.
Proof. apply flat_map_app. Qed.

Lemma failed_of_app rs1 rs2 : failed_of (rs1 ++ rs2) = failed_of rs1 ++ failed_of rs2.
Proof. apply flat_map_app. Qed.

(** The lists the loop returns are read off the answers, record by
    record. *)
Lemma submit_results w token files c f tr c' f' sfx :
  submit w token files c f tr = (Ret (c', f'), tr ++ sfx) ->
  c' = c ++ created_of (results_of files (posted sfx)) ∧
  f' = f ++ failed_of (results_of files (posted sfx)).
Proof.
  revert c f tr sfx. induction files as [|name rest IH]; intros c f tr sfx.
  - rewrite submit_nil. intros [= -> -> Hsfx].
    assert (sfx = []) as -> by (apply (app_inv_head tr); by rewrite app_nil_r).
    by rewrite !app_nil_r.
  - rewrite submit_cons.
    destruct (load w tr (issue_path name)) as [e|v]; [discriminate|]. cbv zeta.
    set (tr1 := tr ++ _).
    set (answer := tracker w tr1 _ _ _).
    destruct (submit_any w token rest
                (fst (record name (classify answer) (c, f)))
                (snd (record name (classify answer) (c, f)))
                (tr1 ++ EPost GITHUB_API_URL (request_headers token) v answer
                     :: outcome_lines (classify answer) ++ [ESleep 1]))
      as (o & sfx' & Hsub & _).
    rewrite Hsub. intros [= -> Hsfx].
    apply IH in Hsub as [-> ->].
    assert (Hs : sfx = turn name v token answer ++ sfx').
    { apply (app_inv_head tr). rewrite <- Hsfx. subst tr1. unfold turn.
      by rewrite <- !app_assoc. }
    rewrite Hs, posted_turn. unfold results_of. cbn [map zip zip_with snd].
    change (zip_with pair rest ?l) with (zip rest l).
    unfold created_of, failed_of. cbn [flat_map].
    destruct (classify answer) as [[[] number] result]; cbn [record fst snd];
      by rewrite <- ?app_assoc.
Qed.

Lemma posted_shown content files : posted (shown content files) = [].
Proof. induction files as [|n l IH]; [reflexivity|exact IH]. Qed.

(** X10. The summary of a run follows from the answers of the tracker:
    when the loop has run, the trace ends with the summary block whose
    created list holds, in submission order, each record whose request
    [create_issue] counted as a success, with the number it extracted, and
    whose failed list holds each other record with its error text. *)
Theorem summary_lists_follow_answers (w : World) (content : string -> json) :
  ready w content -> confirmed w ->
  let rs := results_of (discovered w) (posted (snd (run w))) in
  map fst rs = discovered w ∧
  ∃ before,
    posted before = posted (snd (run w)) ∧
    snd (run w) = before ++ summary (discovered w) (created_of rs) (failed_of rs) ∧
    fst (run w) = if nonempty (failed_of rs) then Exit 1 else Ret tt.
Proof.
  intros Hready (a & Hin & Hy).
  pose proof Hready as (Hdir & Htok & Hst & Htitle).
  cbv zeta.
  rewrite (run_from_setup w Hdir Htok). cbv zeta.
  rewrite (preview_shown w content (discovered w) (setup w) Hst Htitle).
  rewrite Hin, Hy, String.eqb_refl.
  set (tr0 := (setup w ++ shown content (discovered w)) ++
              EPrint [] nl :: EInput prompt (Some a) :: loop_header).
  destruct (submit_ok w content (default "" (environ w "GITHUB_TOKEN")) (discovered w)
              [] [] tr0 Hst)
    as (c & f & sfx2 & Hsub & _ & Hp2 & _).
  rewrite Hsub. rewrite report_eq. cbn [fst snd].
  apply submit_results in Hsub as [-> ->]. cbn [app].
  assert (Hp0 : posted tr0 = []).
  { subst tr0. rewrite !posted_app.
    assert (posted (setup w) = []) as -> by reflexivity.
    rewrite posted_shown.
    reflexivity. }
  assert (Hposted : posted ((tr0 ++ sfx2) ++
                      summary (discovered w)
                        (created_of (results_of (discovered w) (posted sfx2)))
                        (failed_of (results_of (discovered w) (posted sfx2))))
                    = posted sfx2).
  { rewrite !posted_app, Hp0. cbn [app].
    destruct (report_spec (discovered w)
                (created_of (results_of (discovered w) (posted sfx2)))
                (failed_of (results_of (discovered w) (posted sfx2))) [])
      as (sfx3 & Heq & Hq & _).
    rewrite report_eq in Heq. injection Heq as Heq. cbn [app] in Heq. rewrite Heq.
    by rewrite (quiet_no_post sfx3 Hq), app_nil_r. }
  rewrite Hposted.
  split.
  { unfold results_of. apply fst_zip. rewrite length_map, <- (length_map fst (posted sfx2)).
    rewrite Hp2, length_map. done. }
  exists (tr0 ++ sfx2). split; [by rewrite posted_app, Hp0|]. split; reflexivity.
Qed.

Lemma summary_lists_follow_answers_witness :
  ready two_of_three content_of ∧ confirmed two_of_three ∧
  ∃ before,
    snd (run two_of_three) =
      before ++
      summary ["phase1-issue01.json"; "phase1-issue02.json"; "phase2-issue01.json"]
        [("phase1-issue01.json", JInt 100, JStr "https://tracker.example/issue");
         ("phase1-issue02.json", JInt 101, JStr "https://tracker.example/issue")]
        [("phase2-issue01.json", JStr "validation failed")].
Proof.
  assert (Hr : ready two_of_three content_of) by apply ready_world_with.
  assert (Hc : confirmed two_of_three) by (exists "y"; split; reflexivity).
  split; [exact Hr|]. split; [exact Hc|].
  destruct (summary_lists_follow_answers two_of_three content_of Hr Hc)
    as (_ & before & _ & Heq & _).
  exists before. exact Heq.
Defined.

Section WriteLoopMore.
Variables fn ct pm : issue -> string.

Lemma open_w_error path content d :
  writable (fs d) path = false ->
  open_w path content d = (Raise (open_error (fs d) path), d).
Proof.
  intros Hw. rewrite open_w_eq, Hw. unfold open_error.
  by destruct (is_dir (fs d) (dirname path)).
Qed.

Lemma is_dir_foldl_put l m q :
  all_writable fn m l -> is_dir (foldl (put fn ct) m l) q = is_dir m q.
Proof.
  revert m. induction l as [|i l IH]; intros m; simpl; [done|].
  intros [Hw Hl]%Forall_cons.
  rewrite IH.
  - apply is_dir_put. by apply writable_not_dir.
  - by apply all_writable_put.
Qed.

(** The loop stops at the first file it cannot write: the files before it
    are written and announced, nothing after it is. *)
Lemma write_all_abort l1 i l2 d :
  all_writable fn (fs d) l1 ->
  writable (fs d) (fn i) = false ->
  write_all fn ct pm (l1 ++ i :: l2) d =
    (Raise (open_error (fs d) (fn i)),
     {| fs := foldl (put fn ct) (fs d) l1; console := console d ++ map pm l1 |}).
Proof.
  revert d. induction l1 as [|j l1 IH]; intros [m out]; simpl.
  - intros _ Hw. unfold write_all. simpl. unfold bind at 1 2.
    rewrite open_w_error by done. simpl. by rewrite app_nil_r.
  - intros [Hj Hl]%Forall_cons Hw. unfold write_all in *. simpl.
    unfold bind at 1 2. rewrite open_w_eq. simpl. rewrite Hj. simpl.
    rewrite IH; simpl.
    + rewrite <- app_assoc. simpl. do 2 f_equal. unfold open_error, put.
      rewrite is_dir_put by (by apply writable_not_dir). done.
    + by apply all_writable_put.
    + unfold put. rewrite writable_put by (by apply writable_not_dir). done.
Qed.

Lemma core_blocked l d c :
  fs d !! "github-issues" = Some (File c) ->
  core fn ct pm l d =
    (Raise (Exn "FileExistsError" "[Errno 17] File exists: 'github-issues'"), d).
Proof.
  intros H. unfold core, bind, os_makedirs. by rewrite H.
Qed.

Lemma os_makedirs_free d :
  dir_free (fs d) ->
  os_makedirs "github-issues" d = (Ret tt, {| fs := made (fs d); console := console d |}).
Proof.
  intros Hfree. unfold os_makedirs, made. destruct d as [m out]. simpl in *.
  destruct (m !! "github-issues") as [[|c]|] eqn:E; [done| |done].
  by destruct (Hfree c).
Qed.

Lemma core_abort l1 i l2 d :
  dir_free (fs d) ->
  all_writable fn (made (fs d)) l1 ->
  writable (made (fs d)) (fn i) = false ->
  core fn ct pm (l1 ++ i :: l2) d =
    (Raise (open_error (made (fs d)) (fn i)),
     {| fs := foldl (put fn ct) (made (fs d)) l1; console := console d ++ map pm l1 |}).
Proof.
  intros Hfree Hl Hw. unfold core, bind at 1. rewrite os_makedirs_free by done.
  by rewrite write_all_abort.
Qed.

Lemma made_other m path : path ≠ "github-issues" -> made m !! path = m !! path.
Proof.
  intros Hne. unfold made. destruct (m !! "github-issues"); [done|].
  by rewrite lookup_insert_ne.
Qed.

Lemma last_write_None l path : path ∉ map fn l -> last_write fn ct l path = None.
Proof.
  intros Hnot. destruct (last_write fn ct l path) eqn:E; [|done].
  destruct Hnot. apply (last_write_Some fn ct). by rewrite E.
Qed.

Lemma core_frame l d d1 path :
  core fn ct pm l d = (Ret tt, d1) ->
  path ≠ "github-issues" -> path ∉ map fn l ->
  fs d1 !! path = fs d !! path.
Proof.
  intros (_ & -> & _ & _)%core_ret Hne Hnot.
  rewrite lookup_foldl_put, last_write_None by done. by apply made_other.
Qed.

End WriteLoopMore.

Section ScriptsMore.
Variable json_dump_indent2 : json -> string.

(** Each script is its loop between fixed lines on the console. *)
Lemma create_run l d :
  create_github_issues.materialize json_dump_indent2 l d =
    match core create_github_issues.filename
               (fun i => json_dump_indent2 (create_github_issues.issue_data i))
               created_message l d with
    | (Ret _, dc) => (Ret tt, {| fs := fs dc; console := console dc ++ create_trailer l |})
    | (Exit code, dc) => (Exit code, dc)
    | (Raise e, dc) => (Raise e, dc)
    end.
Proof.
  unfold create_github_issues.materialize. rewrite <- bind_assoc.
  unfold bind at 1. unfold core, write_all, created_message, create_github_issues.filename.
  destruct (bind (os_makedirs "github-issues") _ d) as [[[]|code|e] dc]; [|done..].
  rewrite !bind_print_line. unfold print_line. cbn [fs console].
  by rewrite <- !app_assoc.
Qed.

Lemma generate_run l d :
  generate_all_issues.materialize json_dump_indent2 l d =
    match core generate_all_issues.filename
               (fun i => json_dump_indent2 (generate_all_issues.issue_data i))
               created_message l
               {| fs := fs d; console := console d ++ generate_header |} with
    | (Ret _, dc) => (Ret tt, {| fs := fs dc; console := console dc ++ generate_trailer l |})
    | (Exit code, dc) => (Exit code, dc)
    | (Raise e, dc) => (Raise e, dc)
    end.
Proof.
  unfold generate_all_issues.materialize. rewrite !bind_print_line. cbn [fs console].
  rewrite <- bind_assoc.
  unfold bind at 1. unfold core, write_all, created_message, generate_all_issues.filename.
  rewrite <- !app_assoc. cbn [app]. fold generate_header.
  change ["Generating Phase 3 & Phase 4 issues..."; String.concat "" (replicate 50 "=")]
    with generate_header.
  destruct (bind (os_makedirs "github-issues") _ _) as [[[]|code|e] dc]; [|done..].
  rewrite !bind_print_line. unfold print_line. cbn [fs console].
  by rewrite <- !app_assoc.
Qed.

End ScriptsMore.

(** X11. A successful run of either script touches nothing but the
    directory [github-issues] and the files named after its issues: every
    other path of the store holds what it held before. *)
Theorem materializers_leave_other_paths
        (json_dump_indent2 : json -> string) (l : list issue) (d d1 : disk)
        (path : string) :
  path ≠ "github-issues" ->
  path ∉ map (fun i => filename_of (phase i) (number i)) l ->
  (create_github_issues.materialize json_dump_indent2 l d = (Ret tt, d1) ->
   fs d1 !! path = fs d !! path) ∧
  (generate_all_issues.materialize json_dump_indent2 l d = (Ret tt, d1) ->
   fs d1 !! path = fs d !! path).
Proof.
  intros Hne Hnot. split.
  - rewrite create_run.
    destruct (core _ _ _ l d) as [[[]|code|e] dc] eqn:Hc; [|discriminate..].
    intros [= <-]. cbn [fs].
    exact (core_frame _ _ _ l d dc path Hc Hne Hnot).
  - rewrite generate_run.
    destruct (core _ _ _ l _) as [[[]|code|e] dc] eqn:Hc; [|discriminate..].
    intros [= <-]. cbn [fs].
    exact (core_frame _ _ _ l _ dc path Hc Hne Hnot).
Qed.

Lemma materializers_leave_other_paths_witness :
  let d1 := snd (create_github_issues.materialize short_dump two_issues used_disk) in
  create_github_issues.materialize short_dump two_issues used_disk = (Ret tt, d1) ∧
  fs d1 !! "README.md" = Some (File "# Tracker").
Proof.
  intros d1.
  assert (H : create_github_issues.materialize short_dump two_issues used_disk = (Ret tt, d1))
    by (vm_compute; reflexivity).
  split; [exact H|].
  assert (H1 : "README.md" ≠ "github-issues") by discriminate.
  assert (H2 : "README.md" ∉ map (fun i => filename_of (phase i) (number i)) two_issues).
  { apply (bool_decide_unpack _). vm_compute. exact I. }
  rewrite (proj1 (materializers_leave_other_paths short_dump two_issues used_disk d1
                    "README.md" H1 H2) H).
  reflexivity.
Defined.

(** X12. When [github-issues] exists as a regular file, both scripts end
    in [FileExistsError] at [os.makedirs], before any file is written: the
    store is left as it was, and nothing but the two heading lines of
    [generate_all_issues.py] reaches the console. *)
Theorem materializers_blocked_by_file
        (json_dump_indent2 : json -> string) (l : list issue) (d : disk) (c : string) :
  fs d !! "github-issues" = Some (File c) ->
  create_github_issues.materialize json_dump_indent2 l d =
    (Raise (Exn "FileExistsError" "[Errno 17] File exists: 'github-issues'"), d) ∧
  generate_all_issues.materialize json_dump_indent2 l d =
    (Raise (Exn "FileExistsError" "[Errno 17] File exists: 'github-issues'"),
     {| fs := fs d; console := console d ++ generate_header |}).
Proof.
  intros H. split.
  - rewrite create_run. by rewrite (core_blocked _ _ _ l d c H).
  - rewrite generate_run.
    by rewrite (core_blocked _ _ _ l {| fs := fs d; console := _ |} c H).
Qed.

Lemma materializers_blocked_by_file_witness :
  fs blocked_disk !! "github-issues" = Some (File "notes") ∧
  create_github_issues.materialize short_dump two_issues blocked_disk =
    (Raise (Exn "FileExistsError" "[Errno 17] File exists: 'github-issues'"), blocked_disk).
Proof.
  assert (H : fs blocked_disk !! "github-issues" = Some (File "notes")) by reflexivity.
  split; [exact H|].
  exact (proj1 (materializers_blocked_by_file short_dump two_issues blocked_disk "notes" H)).
Defined.

(** X13. Materialization is not atomic.  When the first file that cannot
    be written is that of issue [i], after the issues [l1], the run of
    either script ends there in the exception of [open]: the files of [l1]
    are written and announced, no file of [i] or of a later issue is
    written, and the closing lines are not printed. *)
Theorem materializers_stop_at_first_unwritable
        (json_dump_indent2 : json -> string) (l1 l2 : list issue) (i : issue) (d : disk) :
  let fn := fun i => filename_of (phase i) (number i) in
  dir_free (fs d) ->
  all_writable fn (made (fs d)) l1 ->
  writable (made (fs d)) (fn i) = false ->
  create_github_issues.materialize json_dump_indent2 (l1 ++ i :: l2) d =
    (Raise (open_error (made (fs d)) (fn i)),
     {| fs := foldl (put fn (fun i => json_dump_indent2 (create_github_issues.issue_data i)))
                    (made (fs d)) l1;
        console := console d ++ map created_message l1 |}) ∧
  generate_all_issues.materialize json_dump_indent2 (l1 ++ i :: l2) d =
    (Raise (open_error (made (fs d)) (fn i)),
     {| fs := foldl (put fn (fun i => json_dump_indent2 (generate_all_issues.issue_data i)))
                    (made (fs d)) l1;
        console := (console d ++ generate_header) ++ map created_message l1 |}).
Proof.
  intros fn Hfree Hl Hw. split.
  - rewrite create_run.
    by rewrite (core_abort create_github_issues.filename _ _ l1 i l2 d Hfree Hl Hw).
  - rewrite generate_run.
    by rewrite (core_abort generate_all_issues.filename _ _ l1 i l2
                  {| fs := fs d; console := _ |} Hfree Hl Hw).
Qed.

Lemma materializers_stop_at_first_unwritable_witness :
  ∃ i j,
    two_issues = [i] ++ j :: [] ∧
    create_github_issues.materialize short_dump two_issues obstructed_disk =
      (Raise (Exn "IsADirectoryError"
                "[Errno 21] Is a directory: 'github-issues/phase1-issue02.json'"),
       {| fs := <["github-issues/phase1-issue01.json" :=
                    File (short_dump (create_github_issues.issue_data i))]>
                  (made (fs obstructed_disk));
          console := ["✅ Created github-issues/phase1-issue01.json"] |}).
Proof.
  eexists _, _. split; [reflexivity|].
  refine (proj1 (materializers_stop_at_first_unwritable short_dump [_] [] _
                   obstructed_disk _ _ _)).
  - intros c. vm_compute. discriminate.
  - apply Forall_cons. split; [vm_compute; reflexivity|apply Forall_nil_2].
  - vm_compute. reflexivity.
Defined.

Lemma append_nil_l (s : string) : "" +:+ s = s.
Proof. reflexivity. Qed.

Lemma mentions_app c s t : mentions c (s +:+ t) = mentions c s || mentions c t.
Proof.
  induction s as [|a s IH]; [done|]. rewrite append_cons. cbn [mentions].
  by rewrite IH, orb_assoc.
Qed.

(** A string is cut in one way only at the last occurrence of a
    character. *)
Lemma cut_at_last c a b x y :
  mentions c x = false -> mentions c y = false ->
  a +:+ String c x = b +:+ String c y -> a = b ∧ x = y.
Proof.
  intros Hx Hy. revert b.
  induction a as [|a0 a IH]; intros [|b0 b]; rewrite ?append_cons, ?append_nil_l.
  - by intros [= ->].
  - intros [= <- ->]. rewrite mentions_app in Hx. cbn in Hx.
    rewrite Ascii.eqb_refl in Hx. cbn in Hx. by rewrite orb_true_r in Hx.
  - intros [= -> <-]. rewrite mentions_app in Hy. cbn in Hy.
    rewrite Ascii.eqb_refl in Hy. cbn in Hy. by rewrite orb_true_r in Hy.
  - intros [= -> H]. by destruct (IH b H) as [-> ->].
Qed.

Lemma app_assoc_string (s t u : string) : (s +:+ t) +:+ u = s +:+ (t +:+ u).
Proof. induction s as [|a s IH]; [done|]. by rewrite !append_cons, IH. Qed.

Lemma mentions_pretty_N_char c k :
  (k < 10)%N ->
  mentions c "0123456789" = false -> Ascii.eqb (pretty_N_char k) c = false.
Proof.
  intros Hk. cbn [mentions]. rewrite !orb_false_iff.
  intros (H0&H1&H2&H3&H4&H5&H6&H7&H8&H9&_).
  assert (k = 0 ∨ k = 1 ∨ k = 2 ∨ k = 3 ∨ k = 4 ∨ k = 5 ∨ k = 6 ∨ k = 7 ∨ k = 8 ∨ k = 9)%N
    as H by lia.
  repeat (destruct H as [->|H]; [assumption|]). by subst.
Qed.

Lemma mentions_zero c : mentions c "0123456789" = false -> mentions c "0" = false.
Proof.
  cbn [mentions]. intros [-> _]%orb_false_iff. reflexivity.
Qed.

Lemma mentions_pretty_N_go c x s :
  mentions c "0123456789" = false ->
  mentions c (pretty_N_go x s) = mentions c s.
Proof.
  intros Hc. revert s. induction (N.lt_wf_0 x) as [x _ IH]; intros s.
  assert (x = 0 ∨ 0 < x)%N as [->|?] by lia.
  - by rewrite pretty_N_go_0.
  - rewrite pretty_N_go_step by done. rewrite IH by (by apply N.div_lt).
    cbn [mentions]. rewrite mentions_pretty_N_char; [done|by apply N.mod_lt|done].
Qed.

Lemma mentions_pretty_N c (x : N) :
  mentions c "0123456789" = false -> mentions c (pretty x) = false.
Proof.
  intros Hc. unfold pretty, pretty_N. case_decide.
  - by apply mentions_zero.
  - by rewrite mentions_pretty_N_go.
Qed.

Lemma mentions_zeros c k :
  mentions c "0123456789" = false ->
  mentions c (String.concat "" (replicate k "0")) = false.
Proof.
  intros Hc. induction k as [|k IH]; [done|].
  assert (H : ∀ l, String.concat "" ("0" :: l) = String "0" (String.concat "" l)).
  { intros [|? ?]; reflexivity. }
  cbn [replicate]. rewrite H.
  change (String "0" ?s) with ("0" +:+ s). by rewrite mentions_app, IH, mentions_zero.
Qed.

(** The padded number is made of digits and, below zero, a sign. *)
Lemma mentions_format_02d c n :
  mentions c "-0123456789" = false -> mentions c (format_02d n) = false.
Proof.
  intros Hc. cbn [mentions] in Hc. apply orb_false_iff in Hc as [Hdash Hc].
  unfold format_02d, zfill, str_int, pretty, pretty_Z.
  destruct n as [|p|p]; cbn [Z.ltb Z.compare Z.opp].
  - rewrite mentions_app, mentions_zeros by done. by apply mentions_zero.
  - rewrite mentions_app, mentions_zeros by done. cbn [orb].
    by apply (mentions_pretty_N c (Npos p)).
  - rewrite append_cons, append_nil_l. cbn [mentions]. rewrite Hdash. cbn [orb].
    rewrite mentions_app, mentions_zeros by done. cbn [orb].
    by apply (mentions_pretty_N c (Npos p)).
Qed.

Lemma read_from_acc acc s :
  read_from acc s = (acc * 10 ^ N.of_nat (String.length s) + read_from 0 s)%N.
Proof.
  revert acc. induction s as [|c s IH]; intros acc.
  - cbn. lia.
  - cbn [read_from String.length]. rewrite IH. rewrite (IH (10 * 0 + digit_of c)%N).
    rewrite Nat2N.inj_succ, N.pow_succ_r'. lia.
Qed.

Lemma digit_of_pretty_N_char k : (k < 10)%N -> digit_of (pretty_N_char k) = k.
Proof.
  intros Hk.
  assert (k = 0 ∨ k = 1 ∨ k = 2 ∨ k = 3 ∨ k = 4 ∨ k = 5 ∨ k = 6 ∨ k = 7 ∨ k = 8 ∨ k = 9)%N
    as H by lia.
  repeat (destruct H as [->|H]; [reflexivity|]). by subst.
Qed.

Lemma read_pretty_N_go x s :
  read_from 0 (pretty_N_go x s)
  = (x * 10 ^ N.of_nat (String.length s) + read_from 0 s)%N.
Proof.
  revert s. induction (N.lt_wf_0 x) as [x _ IH]; intros s.
  assert (x = 0 ∨ 0 < x)%N as [->|?] by lia.
  - rewrite pretty_N_go_0. lia.
  - rewrite pretty_N_go_step by done. rewrite IH by (by apply N.div_lt).
    cbn [read_from String.length].
    rewrite (read_from_acc (10 * 0 + _)%N).
    rewrite digit_of_pretty_N_char by (by apply N.mod_lt).
    rewrite Nat2N.inj_succ, N.pow_succ_r'.
    pose proof (N.div_mod x 10). lia.
Qed.

Lemma read_pretty_N (x : N) : read_from 0 (pretty x) = x.
Proof.
  unfold pretty, pretty_N. case_decide as E; [by subst|].
  rewrite read_pretty_N_go. cbn. lia.
Qed.

Lemma read_zeros k s :
  read_from 0 (String.concat "" (replicate k "0") +:+ s) = read_from 0 s.
Proof.
  induction k as [|k IH]; [done|].
  assert (H : ∀ l, String.concat "" ("0" :: l) = String "0" (String.concat "" l)).
  { intros [|? ?]; reflexivity. }
  cbn [replicate]. rewrite H, append_cons. cbn [read_from]. exact IH.
Qed.

Lemma zeros_head k s c r :
  String.concat "" (replicate k "0") +:+ s = String c r ->
  c = "0"%char ∨ s = String c r.
Proof.
  destruct k as [|k]; [by right|].
  assert (H : ∀ l, String.concat "" ("0" :: l) = String "0" (String.concat "" l)).
  { intros [|? ?]; reflexivity. }
  cbn [replicate]. rewrite H, append_cons. intros [= <- _]. by left.
Qed.

(** The padded sequence number of a file name reads back as the
    number, for every integer: padding adds zeros in front only, and a
    sign stays in front of them. *)
Lemma format_02d_reads_back (n : Z) : read_int (format_02d n) = n.
Proof.
  unfold format_02d, zfill, str_int. destruct n as [|p|p]; cbn [Z.ltb Z.compare Z.opp].
  - reflexivity.
  - unfold read_int.
    destruct (_ +:+ pretty (Z.pos p)) as [|c r] eqn:E.
    + pose proof (f_equal (read_from 0) E) as H. rewrite read_zeros in H.
      change (pretty (Z.pos p)) with (pretty (N.pos p)) in H.
      rewrite read_pretty_N in H. discriminate H.
    + destruct (Ascii.eqb_spec c "-") as [->|_].
      * apply zeros_head in E as [E|E]; [discriminate E|].
        change (pretty (Z.pos p)) with (pretty (N.pos p)) in E.
        unfold pretty, pretty_N in E. rewrite decide_False in E by done.
        by destruct (pretty_N_go_ne_dash (N.pos p) "" r).
      * rewrite <- E, read_zeros.
        change (pretty (Z.pos p)) with (pretty (N.pos p)).
        by rewrite read_pretty_N.
  - rewrite append_cons, append_nil_l. cbn [read_int]. rewrite Ascii.eqb_refl, read_zeros.
    change (pretty (- Z.neg p)) with (pretty (N.pos p)).
    by rewrite read_pretty_N.
Qed.

(** X14. File names never collide: whatever the phase text and the
    number, two issues get the same file name only if they have the same
    phase and the same number. *)
Theorem filename_of_injective (p p' : string) (n n' : Z) :
  filename_of p n = filename_of p' n' -> p = p' ∧ n = n'.
Proof.
  unfold filename_of.
  intros H. apply (inj (String.app "github-issues/phase")) in H.
  assert (Hcut : ∀ q f, q +:+ "-issue" +:+ f +:+ ".json"
                        = (q +:+ "-issu") +:+ String "e" (f +:+ ".json")).
  { intros q f. by rewrite app_assoc_string, !append_cons, !append_nil_l. }
  rewrite !Hcut in H.
  assert (He : ∀ k, mentions "e" (format_02d k +:+ ".json") = false).
  { intros k. rewrite mentions_app, mentions_format_02d; reflexivity. }
  apply cut_at_last in H as [Hp Hf]; [|apply He..].
  apply (cut_at_last "-" p p' "issu" "issu") in Hp as [-> _]; [|reflexivity..].
  apply (cut_at_last "." _ _ "json" "json") in Hf as [Hf _]; [|reflexivity..].
  split; [reflexivity|].
  by rewrite <- (format_02d_reads_back n), Hf, format_02d_reads_back.
Qed.

Lemma filename_of_injective_witness :
  filename_of "1" 7 = filename_of "1" 7 ∧ ("1" = "1" ∧ 7 = 7).
Proof.
  split; [reflexivity|]. apply filename_of_injective. reflexivity.
Defined.

Lemma name_at_table :
  forallb (fun j => String.leb (name_at j) (name_at (S j)) && glob_match (name_at j))
          (seq 0 1000) = true.
Proof. vm_compute. reflexivity. Qed.

Lemma name_at_step j : (j < 1000)%nat -> String.le (name_at j) (name_at (S j)).
Proof.
  intros Hj. pose proof name_at_table as H. rewrite forallb_forall in H.
  assert (Hin : In j (seq 0 1000)) by (apply in_seq; lia).
  apply H in Hin. apply andb_true_iff in Hin as [H1 _].
  unfold String.le. by rewrite H1.
Qed.

Lemma name_at_glob j : (j < 1000)%nat -> glob_match (name_at j) = true.
Proof.
  intros Hj. pose proof name_at_table as H. rewrite forallb_forall in H.
  assert (Hin : In j (seq 0 1000)) by (apply in_seq; lia).
  apply H in Hin. by apply andb_true_iff in Hin as [_ H2].
Qed.

Lemma name_at_mono j k :
  (j <= k)%nat -> (k <= 1000)%nat -> String.le (name_at j) (name_at k).
Proof.
  induction 1 as [|k Hjk IH]; intros Hk; [reflexivity|].
  transitivity (name_at k); [apply IH; lia|apply name_at_step; lia].
Qed.

Lemma single_digit_inv s :
  single_digit s = true ->
  ∃ c, s = String c "" ∧ (48 <= nat_of_ascii c <= 57)%nat.
Proof.
  destruct s as [|c [|? ?]]; [discriminate| |discriminate].
  cbn [single_digit]. unfold is_digit. intros [H1 H2]%andb_true_iff.
  exists c. split; [reflexivity|].
  apply Nat.leb_le in H1, H2. lia.
Qed.

Lemma well_keyed_place i :
  well_keyed i -> (place i < 1000)%nat ∧ record_name i = name_at (place i).
Proof.
  intros [Hp Hn]. apply single_digit_inv in Hp as (c & Hc & Hd).
  unfold place, record_name, name_at. rewrite Hc. cbn [phase_value].
  set (k := (nat_of_ascii c - 48)%nat).
  assert (Hk : Z.of_nat (nat_of_ascii c) - 48 = Z.of_nat k) by (subst k; lia).
  rewrite Hk.
  assert (Hplace : Z.to_nat (100 * Z.of_nat k + number i)
                   = (k * 100 + Z.to_nat (number i))%nat) by lia.
  rewrite Hplace.
  assert (Hlt : (Z.to_nat (number i) < 100)%nat) by lia.
  split; [subst k; lia|].
  rewrite Nat.div_add_l by lia. rewrite (Nat.div_small _ _ Hlt), Nat.add_0_r.
  rewrite (Nat.add_comm (k * 100)), Nat.Div0.mod_add, (Nat.mod_small _ _ Hlt).
  replace (48 + k)%nat with (nat_of_ascii c) by (subst k; lia).
  rewrite ascii_nat_embedding. by rewrite Z2Nat.id by lia.
Qed.

Lemma key_lt_place a b : well_keyed a -> well_keyed b -> key_lt a b -> (place a < place b)%nat.
Proof.
  intros [Ha Hna] [Hb Hnb] Hlt.
  apply single_digit_inv in Ha as (ca & Hca & Hda).
  apply single_digit_inv in Hb as (cb & Hcb & Hdb).
  unfold place, key_lt in *. rewrite Hca, Hcb in *. cbn [phase_value] in *. lia.
Qed.

Lemma key_lt_names a b :
  well_keyed a -> well_keyed b -> key_lt a b ->
  String.le (record_name a) (record_name b).
Proof.
  intros Ha Hb Hlt.
  destruct (well_keyed_place a Ha) as [_ ->].
  destruct (well_keyed_place b Hb) as [Hpb ->].
  apply name_at_mono; [|lia]. pose proof (key_lt_place a b Ha Hb Hlt). lia.
Qed.

(** X15. For every batch whose phases are one digit and whose numbers
    are below 100, the submitter discovers the records in ascending
    (phase, sequence) order, however the directory lists them: zero
    padding to two digits makes the order of the names that of the keys. *)
Theorem well_keyed_batch_discovered_in_key_order (l : list issue) (w : World) :
  Forall well_keyed l ->
  StronglySorted key_lt l ->
  scandir w ISSUES_DIR ≡ₚ map record_name l ->
  discovered w = map record_name l.
Proof.
  intros Hwk Hsorted Hperm. apply discover_sorted; [| |exact Hperm].
  - apply StronglySorted_Sorted. clear Hperm. revert Hwk.
    induction Hsorted as [|a l Hl IH Ha]; intros Hwk; [constructor|].
    apply Forall_cons in Hwk as [Hwa Hwl].
    cbn [map]. constructor; [by apply IH|].
    apply Forall_forall. intros name (b & -> & Hb)%list_elem_of_fmap.
    apply key_lt_names; [exact Hwa| |].
    + rewrite Forall_forall in Hwl. by apply Hwl.
    + rewrite Forall_forall in Ha. by apply Ha.
  - apply Forall_forall. intros name (i & -> & Hi)%list_elem_of_fmap.
    rewrite Forall_forall in Hwk.
    destruct (well_keyed_place i (Hwk i Hi)) as [Hlt ->].
    by apply name_at_glob.
Qed.

Lemma well_keyed_batch_discovered_in_key_order_witness :
  discovered sample_world =
    ["phase1-issue09.json"; "phase1-issue10.json"; "phase2-issue01.json"].
Proof.
  refine (well_keyed_batch_discovered_in_key_order sample_batch sample_world _ _ _).
  - unfold well_keyed. repeat constructor; simpl; lia.
  - apply (bool_decide_unpack _). vm_compute. exact I.
  - apply (bool_decide_unpack _). vm_compute. exact I.
Defined.

(** X16. Two digits of padding keep the order only below 100: in any
    one-digit phase, the record of issue 100 is discovered, and so
    submitted, before that of every issue from 11 to 99. *)
Theorem issue_100_sorts_before_two_digit_issues (p : string) (n : Z) :
  single_digit p = true -> 11 <= n < 100 ->
  discover [basename (filename_of p n); basename (filename_of p 100)]
  = [basename (filename_of p 100); basename (filename_of p n)].
Proof.
  intros (c & -> & Hc)%single_digit_inv Hn.
  assert (Htable :
    forallb (fun j =>
      forallb (fun k =>
        let p := String (ascii_of_nat (48 + j)) "" in
        let n := Z.of_nat (11 + k) in
        bool_decide
          (discover [basename (filename_of p n); basename (filename_of p 100)]
           = [basename (filename_of p 100); basename (filename_of p n)]))
        (seq 0 89)) (seq 0 10) = true) by (vm_compute; reflexivity).
  rewrite forallb_forall in Htable.
  assert (Hj : In (nat_of_ascii c - 48)%nat (seq 0 10)) by (apply in_seq; lia).
  apply Htable in Hj. rewrite forallb_forall in Hj.
  assert (Hk : In (Z.to_nat n - 11)%nat (seq 0 89)) by (apply in_seq; lia).
  apply Hj in Hk. cbv zeta in Hk.
  replace (48 + (nat_of_ascii c - 48))%nat with (nat_of_ascii c) in Hk by lia.
  rewrite ascii_nat_embedding in Hk.
  replace (Z.of_nat (11 + (Z.to_nat n - 11))) with n in Hk by lia.
  by apply bool_decide_eq_true in Hk.
Qed.

Lemma issue_100_sorts_before_two_digit_issues_witness :
  discover ["phase3-issue99.json"; "phase3-issue100.json"]
  = ["phase3-issue100.json"; "phase3-issue99.json"].
Proof.
  refine (issue_100_sorts_before_two_digit_issues "3" 99 _ _).
  - reflexivity.
  - lia.
Defined.

Section TwoLoops.
Variables ct1 ct2 : issue -> string.

Lemma lookup_two_loops l1 l2 m path :
  foldl (put file_of ct2) (foldl (put file_of ct1) m l1) l2 !! path =
    match last_write file_of ct2 l2 path with
    | Some c => Some (File c)
    | None =>
        match last_write file_of ct1 l1 path with
        | Some c => Some (File c)
        | None => m !! path
        end
    end.
Proof. by rewrite !lookup_foldl_put. Qed.

Lemma two_loops_commute l1 l2 m :
  NoDup (map file_of (l1 ++ l2)) ->
  foldl (put file_of ct1) (foldl (put file_of ct2) m l2) l1
  = foldl (put file_of ct2) (foldl (put file_of ct1) m l1) l2.
Proof.
  intros Hnd. apply map_eq. intros path. rewrite !lookup_foldl_put.
  destruct (last_write file_of ct1 l1 path) eqn:E1,
           (last_write file_of ct2 l2 path) eqn:E2; try reflexivity.
  exfalso. rewrite map_app in Hnd. apply NoDup_app in Hnd as (_ & Hdis & _).
  apply (Hdis path).
  - apply (last_write_Some file_of ct1). by rewrite E1.
  - apply (last_write_Some file_of ct2). by rewrite E2.
Qed.

End TwoLoops.

Lemma made_dir m : m !! "github-issues" = Some Dir -> made m = m.
Proof. intros H. unfold made. by rewrite H. Qed.

(** X17. The two scripts write disjoint sets of files, so they compose:
    for lists whose file names are pairwise distinct, after
    [create_github_issues.py] and then [generate_all_issues.py] every
    issue of either list has its file, holding the text its own script
    dumped, and running the two scripts in the other order succeeds too
    and leaves the same store. *)
Theorem scripts_compose_in_either_order
        (json_dump_indent2 : json -> string) (l1 l2 : list issue) (d d1 d2 : disk) :
  NoDup (map file_of (l1 ++ l2)) ->
  create_github_issues.materialize json_dump_indent2 l1 d = (Ret tt, d1) ->
  generate_all_issues.materialize json_dump_indent2 l2 d1 = (Ret tt, d2) ->
  (∀ i, i ∈ l1 ->
     fs d2 !! file_of i
     = Some (File (json_dump_indent2 (create_github_issues.issue_data i)))) ∧
  (∀ i, i ∈ l2 ->
     fs d2 !! file_of i
     = Some (File (json_dump_indent2 (generate_all_issues.issue_data i)))) ∧
  ∃ e1 e2,
    generate_all_issues.materialize json_dump_indent2 l2 d = (Ret tt, e1) ∧
    create_github_issues.materialize json_dump_indent2 l1 e1 = (Ret tt, e2) ∧
    fs e2 = fs d2.
Proof.
  intros Hnd H1 H2.
  set (ct1 := fun i => json_dump_indent2 (create_github_issues.issue_data i)).
  set (ct2 := fun i => json_dump_indent2 (generate_all_issues.issue_data i)).
  rewrite create_run in H1.
  destruct (core _ _ _ l1 d) as [[[]|?|?] dc1] eqn:Hc1; [|discriminate..].
  injection H1 as <-.
  apply core_ret in Hc1 as (Hw1 & Hfs1 & _ & Hdir).
  rewrite generate_run in H2. cbn [fs console] in H2.
  destruct (core _ _ _ l2 _) as [[[]|?|?] dc2] eqn:Hc2; [|discriminate..].
  injection H2 as <-.
  apply core_ret in Hc2 as (Hw2 & Hfs2 & _ & _). cbn [fs] in *.
  assert (Hd1 : fs dc1 !! "github-issues" = Some Dir).
  { rewrite Hfs1. apply dir_kept; [exact Hw1|exact Hdir]. }
  rewrite (made_dir _ Hd1) in Hw2, Hfs2. rewrite Hfs1 in Hw2, Hfs2.
  fold file_of in Hw1, Hw2, Hfs1, Hfs2.
  change create_github_issues.filename with file_of in *.
  change generate_all_issues.filename with file_of in *.
  fold ct1 in Hfs2. fold ct2 in Hfs2.
  pose proof Hnd as Hnd'. rewrite map_app in Hnd'.
  apply NoDup_app in Hnd' as (Hnd1 & Hdis & Hnd2).
  split; [|split].
  - intros i Hi. rewrite Hfs2, lookup_two_loops.
    rewrite (last_write_None file_of ct2).
    + by rewrite (last_write_NoDup file_of ct1 l1 i Hnd1 Hi).
    + apply Hdis. apply list_elem_of_fmap. by exists i.
  - intros i Hi. rewrite Hfs2, lookup_two_loops.
    by rewrite (last_write_NoDup file_of ct2 l2 i Hnd2 Hi).
  - assert (Hw2' : all_writable file_of (made (fs d)) l2).
    { eapply Forall_impl; [exact Hw2|]. intros i Hi. cbv beta in Hi.
      by rewrite (writable_foldl_put file_of ct1 l1 _ _ Hw1) in Hi. }
    destruct (generate_ok json_dump_indent2 l2 d Hdir Hw2') as (e1 & He1 & Hfe1).
    change generate_all_issues.filename with file_of in Hfe1. fold ct2 in Hfe1.
    assert (Hde1 : fs e1 !! "github-issues" = Some Dir).
    { rewrite Hfe1. apply dir_kept; [exact Hw2'|exact Hdir]. }
    destruct (create_ok json_dump_indent2 l1 e1) as (e2 & He2 & Hfe2).
    { by rewrite (made_dir _ Hde1). }
    { rewrite (made_dir _ Hde1), Hfe1.
      eapply Forall_impl; [exact Hw1|]. intros i Hi. cbv beta.
      by rewrite (writable_foldl_put file_of ct2 l2 _ _ Hw2'). }
    exists e1, e2. split; [exact He1|]. split; [exact He2|].
    rewrite Hfe2, (made_dir _ Hde1), Hfe1, Hfs2.
    change create_github_issues.filename with file_of. fold ct1.
    by apply two_loops_commute.
Qed.

Lemma scripts_compose_in_either_order_witness :
  let d1 := snd (create_github_issues.materialize short_dump two_issues used_disk) in
  let d2 := snd (generate_all_issues.materialize short_dump sample_batch d1) in
  ∃ e1 e2,
    generate_all_issues.materialize short_dump sample_batch used_disk = (Ret tt, e1) ∧
    create_github_issues.materialize short_dump two_issues e1 = (Ret tt, e2) ∧
    fs e2 = fs d2.
Proof.
  intros d1 d2.
  assert (Hnd : NoDup (map file_of (two_issues ++ sample_batch))).
  { apply (bool_decide_unpack _). vm_compute. exact I. }
  assert (H1 : create_github_issues.materialize short_dump two_issues used_disk = (Ret tt, d1))
    by (vm_compute; reflexivity).
  assert (H2 : generate_all_issues.materialize short_dump sample_batch d1 = (Ret tt, d2))
    by (vm_compute; reflexivity).
  exact (proj2 (proj2 (scripts_compose_in_either_order short_dump two_issues sample_batch
                         used_disk d1 d2 Hnd H1 H2))).
Defined.

Section OnDisk.
Variables ct1 ct2 : issue -> string.

Lemma keys_two_loops l1 l2 path :
  is_Some (foldl (put file_of ct2) (foldl (put file_of ct1) (made ∅) l1) l2 !! path)
  <-> path = "github-issues" ∨ path ∈ map file_of (l1 ++ l2).
Proof.
  rewrite lookup_two_loops, map_app, elem_of_app.
  destruct (last_write file_of ct2 l2 path) eqn:E2.
  { split; [intros _|by eexists]. right. right.
    apply (last_write_Some file_of ct2). by rewrite E2. }
  destruct (last_write file_of ct1 l1 path) eqn:E1.
  { split; [intros _|by eexists]. right. left.
    apply (last_write_Some file_of ct1). by rewrite E1. }
  rewrite made_empty. split.
  - intros [x Hx]. apply lookup_insert_Some in Hx as [[<- _]|[_ Hx]]; [by left|].
    by rewrite lookup_empty in Hx.
  - intros [->|[H|H]].
    + rewrite lookup_insert_eq. by eexists.
    + apply (last_write_elem file_of ct1) in H as (j & _ & _ & Hj). congruence.
    + apply (last_write_elem file_of ct2) in H as (j & _ & _ & Hj). congruence.
Qed.

Lemma listdir_two_loops l1 l2 :
  Forall (fun i => dirname (file_of i) = "github-issues") (l1 ++ l2) ->
  NoDup (map file_of (l1 ++ l2)) ->
  listdir (foldl (put file_of ct2) (foldl (put file_of ct1) (made ∅) l1) l2)
          "github-issues"
  ≡ₚ map record_name (l1 ++ l2).
Proof.
  intros Hdir Hnd. unfold listdir.
  assert (Hrn : map record_name (l1 ++ l2) = map basename (map file_of (l1 ++ l2)))
    by (by rewrite map_map).
  rewrite Hrn. apply Permutation_map.
  apply NoDup_Permutation.
  - apply NoDup_filter. apply NoDup_fst_map_to_list.
  - exact Hnd.
  - intros p. rewrite list_elem_of_filter.
    assert (Hkey : ∀ (m : gmap string node), p ∈ map fst (map_to_list m) <-> is_Some (m !! p)).
    { intros m. split.
      - intros ([k x] & -> & Hin)%list_elem_of_fmap.
        apply elem_of_map_to_list in Hin. by eexists.
      - intros [x Hx]. apply list_elem_of_fmap. exists (p, x).
        split; [done|]. by apply elem_of_map_to_list. }
    rewrite Hkey, keys_two_loops. split.
    + intros [Hd [->|H]]; [vm_compute in Hd; discriminate Hd|exact H].
    + intros H. split; [|by right].
      apply list_elem_of_fmap in H as (i & -> & Hi).
      rewrite Forall_forall in Hdir. by apply Hdir.
Qed.

End OnDisk.

(** The names of the literal batch, once and for all. *)
Lemma batch_names (body_of : Z -> string) :
  NoDup (map file_of (batch body_of)) ∧
  Forall (fun i => dirname (file_of i) = "github-issues") (batch body_of) ∧
  Forall (fun i => issue_path (record_name i) = file_of i) (batch body_of) ∧
  Sorted String.le (map record_name (batch body_of)) ∧
  Forall (fun name => glob_match name = true) (map record_name (batch body_of)).
Proof.
  split; [|split; [|split; [|split]]];
    (apply (bool_decide_unpack _); vm_compute; exact I).
Qed.

(** The two scripts on an empty disk, then the submitter, for any two
    lists whose names are distinct, lie directly under the directory and
    sort in the order of the lists. *)
Lemma submitted_in_order
      (json_dump_indent2 : json -> string) (json_load : string -> exn + json)
      (l1 l2 : list issue) (token a : string)
      (reply : trace -> string -> list (string * string) -> json -> exn + response) :
  NoDup (map file_of (l1 ++ l2)) ->
  Forall (fun i => dirname (file_of i) = "github-issues") (l1 ++ l2) ->
  Forall (fun i => issue_path (record_name i) = file_of i) (l1 ++ l2) ->
  Sorted String.le (map record_name (l1 ++ l2)) ->
  Forall (fun name => glob_match name = true) (map record_name (l1 ++ l2)) ->
  all_writable file_of (made ∅) l1 ->
  all_writable file_of (made ∅) l2 ->
  (∀ i, i ∈ l1 ->
     json_load (json_dump_indent2 (create_github_issues.issue_data i))
     = inr (create_github_issues.issue_data i)) ->
  (∀ i, i ∈ l2 ->
     json_load (json_dump_indent2 (generate_all_issues.issue_data i))
     = inr (generate_all_issues.issue_data i)) ->
  token ≠ "" -> lower a = "y" ->
  ∃ d1 d2,
    create_github_issues.materialize json_dump_indent2 l1 empty_disk = (Ret tt, d1) ∧
    generate_all_issues.materialize json_dump_indent2 l2 d1 = (Ret tt, d2) ∧
    map fst (posted (snd (run (world_on d2 json_load (Some token) (Some a) reply))))
    = map create_github_issues.issue_data l1 ++ map generate_all_issues.issue_data l2.
Proof.
  intros Hnd Hdirn Hpath Hsorted Hglob Hw1 Hw2 Hload1 Hload2 Htoken Hy.
  set (ct1 := fun i => json_dump_indent2 (create_github_issues.issue_data i)).
  set (ct2 := fun i => json_dump_indent2 (generate_all_issues.issue_data i)).
  assert (Hdir : made ∅ !! "github-issues" = Some Dir)
    by (rewrite made_empty; apply lookup_insert_eq).
  destruct (create_ok json_dump_indent2 l1 empty_disk Hdir Hw1) as (d1 & Hrun1 & Hfs1).
  assert (Hd1 : fs d1 !! "github-issues" = Some Dir).
  { rewrite Hfs1. apply dir_kept; [exact Hw1|exact Hdir]. }
  destruct (generate_ok json_dump_indent2 l2 d1) as (d2 & Hrun2 & Hfs2).
  { rewrite (made_dir _ Hd1). exact Hd1. }
  { rewrite (made_dir _ Hd1), Hfs1. eapply Forall_impl; [exact Hw2|]. intros i Hi. cbv beta.
    rewrite (writable_foldl_put _ _ _ _ _ Hw1). exact Hi. }
  rewrite (made_dir _ Hd1), Hfs1 in Hfs2. cbn [fs empty_disk] in Hfs2.
  change create_github_issues.filename with file_of in Hfs2.
  change generate_all_issues.filename with file_of in Hfs2.
  fold ct1 in Hfs2. fold ct2 in Hfs2.
  exists d1, d2. split; [exact Hrun1|]. split; [exact Hrun2|].
  set (w := world_on d2 json_load (Some token) (Some a) reply).
  pose proof Hnd as Hnd'. rewrite map_app in Hnd'.
  apply NoDup_app in Hnd' as (Hnd1 & Hdis & Hnd2).
  assert (Hfile1 : ∀ i, i ∈ l1 -> fs d2 !! file_of i = Some (File (ct1 i))).
  { intros i Hi. rewrite Hfs2, lookup_two_loops.
    rewrite (last_write_None file_of ct2).
    - by rewrite (last_write_NoDup file_of ct1 l1 i Hnd1 Hi).
    - apply Hdis. apply list_elem_of_fmap. by exists i. }
  assert (Hfile2 : ∀ i, i ∈ l2 -> fs d2 !! file_of i = Some (File (ct2 i))).
  { intros i Hi. rewrite Hfs2, lookup_two_loops.
    by rewrite (last_write_NoDup file_of ct2 l2 i Hnd2 Hi). }
  assert (Hdisc : discovered w = map record_name (l1 ++ l2)).
  { apply discover_sorted; [exact Hsorted|exact Hglob|].
    cbn [w world_on scandir]. rewrite Hfs2.
    by apply listdir_two_loops. }
  rewrite Forall_app in Hpath. destruct Hpath as [Hpath1 Hpath2].
  rewrite Forall_forall in Hpath1, Hpath2.
  assert (Hc1 : ∀ i, i ∈ l1 ->
            on_disk d2 json_load (record_name i) = create_github_issues.issue_data i).
  { intros i Hi. unfold on_disk. rewrite (Hpath1 i Hi), (Hfile1 i Hi).
    unfold ct1. by rewrite (Hload1 i Hi). }
  assert (Hc2 : ∀ i, i ∈ l2 ->
            on_disk d2 json_load (record_name i) = generate_all_issues.issue_data i).
  { intros i Hi. unfold on_disk. rewrite (Hpath2 i Hi), (Hfile2 i Hi).
    unfold ct2. by rewrite (Hload2 i Hi). }
  assert (Hin : ∀ name, In name (discovered w) ->
            (∃ i, i ∈ l1 ∧ name = record_name i ∧
                  fs d2 !! issue_path name = Some (File (ct1 i))) ∨
            (∃ i, i ∈ l2 ∧ name = record_name i ∧
                  fs d2 !! issue_path name = Some (File (ct2 i)))).
  { intros name Hname. rewrite Hdisc in Hname. apply list_elem_of_In in Hname.
    apply list_elem_of_fmap in Hname as (i & -> & Hi). apply elem_of_app in Hi as [Hi|Hi].
    - left. exists i. by rewrite (Hpath1 i Hi), (Hfile1 i Hi).
    - right. exists i. by rewrite (Hpath2 i Hi), (Hfile2 i Hi). }
  assert (Hready : ready w (on_disk d2 json_load)).
  { split; [|split; [|split]].
    - cbn [w world_on path_exists]. apply bool_decide_eq_true.
      change ISSUES_DIR with "github-issues". rewrite Hfs2.
      apply keys_two_loops. by left.
    - cbn. destruct token; [by destruct Htoken|reflexivity].
    - intros h name Hname. cbn [w world_on load]. unfold on_disk.
      destruct (Hin name Hname) as [(i & Hi & -> & Hf)|(i & Hi & -> & Hf)]; rewrite Hf.
      + unfold ct1. by rewrite (Hload1 i Hi).
      + unfold ct2. by rewrite (Hload2 i Hi).
    - intros name Hname.
      destruct (Hin name Hname) as [(i & Hi & -> & _)|(i & Hi & -> & _)].
      + by rewrite (Hc1 i Hi).
      + by rewrite (Hc2 i Hi). }
  assert (Hconf : confirmed w) by (by exists a).
  destruct (run_full w (on_disk d2 json_load) Hready Hconf)
    as (pre & sfx1 & mid & c & f & sfx2 & sfx3 & Hrun & Hpre & _ & Hp1 & _ & Hpm & _ &
        Hdata & _ & _ & _ & Hq3 & _).
  rewrite Hrun. cbn [snd].
  rewrite (posted_run_full pre sfx1 mid sfx2 sfx3 Hpre Hp1 Hpm Hq3).
  rewrite Hdata, Hdisc, !map_app, !map_map. f_equal.
  - apply map_ext_in. intros i Hi. apply Hc1. by apply list_elem_of_In.
  - apply map_ext_in. intros i Hi. apply Hc2. by apply list_elem_of_In.
Qed.

(** X18. The three scripts fit together.  Run on an empty disk,
    [create_github_issues.py] and [generate_all_issues.py] succeed, and on
    the disk they leave the submitter, given a token and the answer [y],
    makes one create-request per issue, in the order of the two lists,
    each carrying exactly the title, body with trailer and labels its
    script assembled, provided [json.load] reads back what [json.dump]
    wrote for these records. *)
Theorem materialized_batch_is_submitted_in_order
        (json_dump_indent2 : json -> string) (json_load : string -> exn + json)
        (body_of : Z -> string) (token a : string)
        (reply : trace -> string -> list (string * string) -> json -> exn + response) :
  (∀ i, i ∈ create_github_issues.issues body_of ->
     json_load (json_dump_indent2 (create_github_issues.issue_data i))
     = inr (create_github_issues.issue_data i)) ->
  (∀ i, i ∈ generate_all_issues.additional_issues body_of ->
     json_load (json_dump_indent2 (generate_all_issues.issue_data i))
     = inr (generate_all_issues.issue_data i)) ->
  token ≠ "" -> lower a = "y" ->
  ∃ d1 d2,
    create_github_issues.script json_dump_indent2 body_of empty_disk = (Ret tt, d1) ∧
    generate_all_issues.script json_dump_indent2 body_of d1 = (Ret tt, d2) ∧
    map fst (posted (snd (run (world_on d2 json_load (Some token) (Some a) reply))))
    = map create_github_issues.issue_data (create_github_issues.issues body_of) ++
      map generate_all_issues.issue_data (generate_all_issues.additional_issues body_of).
Proof.
  intros Hload1 Hload2 Htoken Hy.
  destruct (batch_names body_of) as (Hnd & Hdirn & Hpath & Hsorted & Hglob).
  destruct (literal_writable body_of) as [Hw1 Hw2].
  exact (submitted_in_order json_dump_indent2 json_load
           (create_github_issues.issues body_of)
           (generate_all_issues.additional_issues body_of) token a reply
           Hnd Hdirn Hpath Hsorted Hglob Hw1 Hw2 Hload1 Hload2 Htoken Hy).
Qed.

Lemma title_load_reads_back :
  Forall (fun i => title_load (title_dump (create_github_issues.issue_data i))
                   = inr (create_github_issues.issue_data i))
         (create_github_issues.issues (fun _ => "")) ∧
  Forall (fun i => title_load (title_dump (generate_all_issues.issue_data i))
                   = inr (generate_all_issues.issue_data i))
         (generate_all_issues.additional_issues (fun _ => "")).
Proof.
  unfold create_github_issues.issues, generate_all_issues.additional_issues.
  split;
    repeat (apply Forall_cons; split; [vm_compute; reflexivity|]);
    apply Forall_nil_2.
Qed.

Lemma materialized_batch_is_submitted_in_order_witness :
  ∃ d1 d2,
    create_github_issues.script title_dump (fun _ => "") empty_disk = (Ret tt, d1) ∧
    generate_all_issues.script title_dump (fun _ => "") d1 = (Ret tt, d2) ∧
    map fst (posted (snd (run (world_on d2 title_load (Some "t0ken") (Some "y")
                                 (fun h _ _ data => accept_first 25 h data)))))
    = map create_github_issues.issue_data (create_github_issues.issues (fun _ => "")) ++
      map generate_all_issues.issue_data
          (generate_all_issues.additional_issues (fun _ => "")).
Proof.
  destruct title_load_reads_back as [H1 H2].
  rewrite Forall_forall in H1. rewrite Forall_forall in H2.
  assert (H3 : "t0ken" ≠ "") by discriminate.
  assert (H4 : lower "y" = "y") by reflexivity.
  exact (materialized_batch_is_submitted_in_order title_dump title_load (fun _ => "")
           "t0ken" "y" (fun h _ _ data => accept_first 25 h data) H1 H2 H3 H4).
Defined.
